(** * Financial document Q&A assistant: a shallow embedding and its properties

    The development follows the Python sources file by file:
    - [Str]: the [str] primitives the program calls ([lower], [in],
      [replace], [split], [join], [strip], [lstrip], slicing);
    - [Re]: the fragment of Python's backtracking [re] engine that the
      program's patterns need ([re.search] with one trailing group, and the
      two [re.sub] calls);
    - [file_handler], [document_processor], [simple_qa], [ai_qa], [app]:
      one module per source file, each function under its source name.

    A text is a list of characters; a character is a code point in 0..255
    (Latin-1), on which [str.lower], [str.isspace] and the classes [\s] and
    [\d] are modelled exactly as CPython computes them.  The pictographs of
    the canned answers are kept as their UTF-8 bytes; they only ever occur
    in output prefixes that no function inspects. *)

From Stdlib Require Import Ascii String ZArith NArith Bool List Lia.
From stdpp Require Import base tactics option list.

Local Open Scope list_scope.

(** Python's [str]. *)
Abbreviation str := (list ascii).

(** Python string literal. *)
Definition lit (s : string) : str := list_ascii_of_string s.

(** The newline and the double quote of a literal. *)
Definition nl : str := ["010"%char].
Definition dq : str := ["034"%char].

(** A call either returns or raises; an exception carries the text of
    [str(e)]. *)
Definition exn := str.

Inductive outcome (A : Type) :=
| Return (a : A)
| Raise (e : exn).
Arguments Return {A} a.
Arguments Raise {A} e.

(* ===================================================================== *)
(** * Python [str] primitives *)
(* ===================================================================== *)
Module Str.

Definition code (c : ascii) : N := N_of_ascii c.

Definition between (lo hi : N) (c : ascii) : bool :=
  ((lo <=? code c) && (code c <=? hi))%N.

(** [c.lower()] for one character.  Below U+0100 the upper-case letters
    are A..Z and U+00C0..U+00DE except the multiplication sign U+00D7;
    each has its lower-case partner 32 code points later. *)
Definition lower_char (c : ascii) : ascii :=
  if between 65 90 c || (between 192 222 c && negb (code c =? 215)%N)
  then ascii_of_N (code c + 32)
  else c.

(** [s.lower()] *)
Definition lower (s : str) : str := map lower_char s.

(** [c.isspace()], which is also the class [\s] of a str pattern. *)
Definition isspace (c : ascii) : bool :=
  between 9 13 c || between 28 32 c || (code c =? 133)%N || (code c =? 160)%N.

(** The class [\d] of a str pattern: decimal digits. *)
Definition isdecimal (c : ascii) : bool := between 48 57 c.

(** The class [[a-zA-Z]]. *)
Definition isalpha_ascii (c : ascii) : bool := between 97 122 c || between 65 90 c.

Definition eqc (a b : ascii) : bool := Ascii.eqb a b.

(** [s.startswith(w)] *)
Fixpoint startswith (w s : str) : bool :=
  match w, s with
  | [], _ => true
  | a :: w', b :: s' => eqc a b && startswith w' s'
  | _ :: _, [] => false
  end.

(** [w in s] *)
Fixpoint contains (w s : str) : bool :=
  startswith w s ||
  match s with
  | [] => false
  | _ :: s' => contains w s'
  end.

(** [a == b] *)
Fixpoint eqt (a b : str) : bool :=
  match a, b with
  | [], [] => true
  | x :: a', y :: b' => eqc x y && eqt a' b'
  | _, _ => false
  end.

(** [x in l] for a list of strings *)
Definition mem (x : str) (l : list str) : bool := existsb (eqt x) l.

(** [any(w in s for w in ws)] *)
Definition any_in (ws : list str) (s : str) : bool :=
  existsb (fun w => contains w s) ws.

(** [s.replace(old, new)] for a non-empty [old] (every call of the
    program passes a non-empty literal): occurrences are replaced from
    left to right without overlap.  [skip] counts the characters of a
    replaced occurrence that are still to be dropped. *)
Fixpoint replace_from (old new : str) (skip : nat) (s : str) : str :=
  match s with
  | [] => []
  | c :: s' =>
      match skip with
      | S k => replace_from old new k s'
      | O =>
          if startswith old s
          then new ++ replace_from old new (length old - 1) s'
          else c :: replace_from old new 0 s'
      end
  end.

Definition replace (old new s : str) : str := replace_from old new 0 s.

(** [s.lstrip(chars)] with a one-character [chars] *)
Fixpoint lstrip_char (c : ascii) (s : str) : str :=
  match s with
  | a :: s' => if eqc a c then lstrip_char c s' else s
  | [] => []
  end.

(** [s.split()]: the maximal runs of non-space characters.  [cur] is the
    run being read, reversed. *)
Fixpoint split_from (cur : str) (s : str) : list str :=
  match s with
  | [] => match cur with [] => [] | _ => [rev cur] end
  | c :: s' =>
      if isspace c
      then match cur with
           | [] => split_from [] s'
           | _ => rev cur :: split_from [] s'
           end
      else split_from (c :: cur) s'
  end.

Definition split (s : str) : list str := split_from [] s.

(** [sep.join(parts)] *)
Fixpoint join (sep : str) (parts : list str) : str :=
  match parts with
  | [] => []
  | [p] => p
  | p :: ps => p ++ sep ++ join sep ps
  end.

Fixpoint lstrip (s : str) : str :=
  match s with
  | c :: s' => if isspace c then lstrip s' else s
  | [] => []
  end.

(** [s.strip()] *)
Definition strip (s : str) : str := rev (lstrip (rev (lstrip s))).

(** [s[:n]] *)
Definition slice_to (n : nat) (s : str) : str := firstn n s.

End Str.

(* ===================================================================== *)
(** * utils/file_handler.py *)
(* ===================================================================== *)
Module file_handler.

Record UploadedFile := { name : str; size : Z }.

Definition SUPPORTED_FORMATS : list (str * list str) :=
  [ (lit "pdf", [lit "pdf"]);
    (lit "excel", [lit "xlsx"; lit "xls"; lit "xlsm"]) ].

Definition MAX_FILE_SIZE : Z := 50 * 1024 * 1024.

(** The dictionary [validate_file] returns. *)
Inductive Validation :=
| Invalid (error : str)
| Valid (file_type extension : str) (size : Z) (name : str).

Definition valid (v : Validation) : bool :=
  match v with Valid _ _ _ _ => true | Invalid _ => false end.

(** [_get_file_type]: the first format whose extension list has the
    extension, else ["unknown"]. *)
Fixpoint get_file_type_in (formats : list (str * list str)) (extension : str) : str :=
  match formats with
  | [] => lit "unknown"
  | (file_type, extensions) :: rest =>
      if Str.mem extension extensions then file_type
      else get_file_type_in rest extension
  end.

Definition _get_file_type (extension : str) : str :=
  get_file_type_in SUPPORTED_FORMATS extension.

(** The list built by the [extend] loop of [validate_file]. *)
Definition supported_extensions : list str :=
  flat_map snd SUPPORTED_FORMATS.

Section WithPathlib.

(** [Path(name).suffix] belongs to the standard library, not to the
    program: the validator is defined, and its properties are proved,
    for whatever that function returns. *)
Variable path_suffix : str -> str.

Definition file_extension (f : UploadedFile) : str :=
  Str.lstrip_char "."%char (Str.lower (path_suffix (name f))).

Definition validate_file (uploaded_file : option UploadedFile) : Validation :=
  match uploaded_file with
  | None => Invalid (lit "No file uploaded")
  | Some f =>
      if (size f >? MAX_FILE_SIZE)%Z
      then Invalid (lit "File too large. Max size: 50MB")
      else
        let file_extension := file_extension f in
        if negb (Str.mem file_extension supported_extensions)
        then Invalid (lit "Unsupported format. Supported: "
                      ++ Str.join (lit ", ") supported_extensions)
        else Valid (_get_file_type file_extension) file_extension (size f) (name f)
  end.

End WithPathlib.

(** [PurePosixPath(path).name]: the last component of the path, where
    components are separated by slashes and empty components and [.] do
    not count; empty when there is none. *)
Fixpoint components (path : str) : list str :=
  match path with
  | [] => [[]]
  | c :: path' =>
      if Str.eqc c "/"%char then [] :: components path'
      else match components path' with
           | part :: parts => (c :: part) :: parts
           | [] => [[c]]
           end
  end.

Definition posix_name (path : str) : str :=
  List.last
    (List.filter (fun part => negb (Str.eqt part [] || Str.eqt part (lit ".")))
       (components path))
    [].

(** [PurePosixPath(path).suffix] as CPython computes it: the part of the
    name from its last dot on, unless that dot is the first or the last
    character of the name.  [rfind_dot] returns the text from the last dot
    on and whether that dot is at index 0. *)
Fixpoint rfind_dot (s : str) : option (str * bool) :=
  match s with
  | [] => None
  | c :: s' =>
      match rfind_dot s' with
      | Some (suf, _) => Some (suf, false)
      | None => if Str.eqc c "."%char then Some (s, true) else None
      end
  end.

Definition posix_suffix (path : str) : str :=
  match rfind_dot (posix_name path) with
  | Some (suf, at_start) =>
      if at_start || (length suf =? 1)%nat then [] else suf
  | None => []
  end.

End file_handler.

(* ===================================================================== *)
(** * Python [dict] with [str] keys *)
(* ===================================================================== *)
(** A dictionary keeps its items in insertion order, which the program
    relies on when it iterates over [items()]. *)
Module Dict.

Definition dict (V : Type) : Type := list (str * V).

(** [d[k] = v]: an existing key keeps its place. *)
Fixpoint set {V} (k : str) (v : V) (d : dict V) : dict V :=
  match d with
  | [] => [(k, v)]
  | (k', v') :: d' =>
      if Str.eqt k k' then (k, v) :: d' else (k', v') :: set k v d'
  end.

(** [d.get(k)] *)
Fixpoint get {V} (k : str) (d : dict V) : option V :=
  match d with
  | [] => None
  | (k', v) :: d' => if Str.eqt k k' then Some v else get k d'
  end.

(** [list(d.keys())] *)
Definition keys {V} (d : dict V) : list str := map fst d.

End Dict.

(* ===================================================================== *)
(** * The fragment of Python's [re] the program uses *)
(* ===================================================================== *)
Module Re.

(** Pattern syntax.  [Rep lo hi r] is the greedy repetition [r{lo,hi}];
    [hi = None] leaves it unbounded. *)
Inductive regex :=
| Str (w : str)
| Chr (p : ascii -> bool)
| Cat (r1 r2 : regex)
| Rep (lo : nat) (hi : option nat) (r : regex).

Definition star (r : regex) : regex := Rep 0 None r.
Definition plus (r : regex) : regex := Rep 1 None r.
Definition opt (r : regex) : regex := Rep 0 (Some 1) r.
Definition one (c : ascii) : regex := Chr (Str.eqc c).

(** A continuation receives the rest of the input and returns the result
    of the whole match, or [None] to make the matcher backtrack. *)
Definition cont := str -> option str.

(** Greedy repetition: one more iteration of [body] is tried first; when
    everything after it fails the matcher backtracks and, if the lower
    bound is met, proceeds with what follows.  [n] is the number of
    iterations still allowed. *)
Fixpoint rep (body : str -> cont -> option str) (n lo : nat)
    (s : str) (k : cont) : option str :=
  match n with
  | O => if (lo =? 0)%nat then k s else None
  | S n' =>
      match body s (fun s' => rep body n' (pred lo) s' k) with
      | Some x => Some x
      | None => if (lo =? 0)%nat then k s else None
      end
  end.

(** An unbounded repetition of a body that consumes input iterates at
    most [length s] times. *)
Definition bound (hi : option nat) (s : str) : nat :=
  match hi with Some h => h | None => length s end.

Fixpoint run (r : regex) (s : str) (k : cont) : option str :=
  match r with
  | Str w => if Str.startswith w s then k (skipn (length w) s) else None
  | Chr p =>
      match s with
      | c :: s' => if p c then k s' else None
      | [] => None
      end
  | Cat r1 r2 => run r1 s (fun s' => run r2 s' k)
  | Rep lo hi r' => rep (run r') (bound hi s) lo s k
  end.

(** A pattern of the shape [before(group1)]: every [re.search] pattern of
    the program ends in its only capturing group. *)
Record pattern := { before : regex; group1 : regex }.

(** A match that starts at the head of [s]; the result is [group(1)]. *)
Definition match_at (p : pattern) (s : str) : option str :=
  run (before p) s (fun s1 =>
    run (group1 p) s1 (fun s2 =>
      Some (firstn (length s1 - length s2) s1))).

(** [re.search(p, s)], followed by [.group(1)] on a match: start
    positions are tried from left to right. *)
Fixpoint search (p : pattern) (s : str) : option str :=
  match match_at p s with
  | Some g => Some g
  | None =>
      match s with
      | [] => None
      | _ :: s' => search p s'
      end
  end.

(** [re.sub(r'(P)(Q)', r'\1 \2', s)] for one-character classes [P] and
    [Q]: matches are found from left to right without overlap. *)
Fixpoint sub_space_between (p q : ascii -> bool) (s : str) : str :=
  match s with
  | a :: ((b :: s'') as s') =>
      if p a && q b
      then a :: " "%char :: b :: sub_space_between p q s''
      else a :: sub_space_between p q s'
  | _ => s
  end.

(** [[:\s]+] *)
Definition colon_or_space : regex :=
  plus (Chr (fun c => Str.eqc c ":"%char || Str.isspace c)).

(** [\$?] *)
Definition dollar : regex := opt (one "$"%char).

Definition digit : regex := Chr Str.isdecimal.

(** [\d{1,3}(?:,\d{3})*(?:\.\d{2})?] *)
Definition amount : regex :=
  Cat (Rep 1 (Some 3) digit)
    (Cat (star (Cat (one ","%char) (Rep 3 (Some 3) digit)))
         (opt (Cat (one "."%char) (Rep 2 (Some 2) digit)))).

(** [[\d,]+] *)
Definition digits_commas : regex :=
  plus (Chr (fun c => Str.isdecimal c || Str.eqc c ","%char)).

(** [<word>[:\s]+\$?(<group>)] *)
Definition labelled (word : string) (group : regex) : pattern :=
  {| before := Cat (Str (lit word)) (Cat colon_or_space dollar);
     group1 := group |}.

End Re.

(* ===================================================================== *)
(** * utils/document_processor.py *)
(* ===================================================================== *)
Module document_processor.

(** A data frame is observed only through [df.to_string()]. *)
Record DataFrame := { to_string : str }.

Record FinancialTable := {
  sheet_name : str;
  data : DataFrame;
  type : str
}.

(** The attributes of a [DocumentProcessor] ([extracted_data] is set to
    [{}] by [__init__] and never touched again). *)
Record DocumentProcessor := {
  document_text : str;
  financial_tables : list FinancialTable;
  financial_metrics : Dict.dict str
}.

(** [__init__] *)
Definition init : DocumentProcessor :=
  {| document_text := []; financial_tables := []; financial_metrics := [] |}.

(** ** Exceptions and the processor's state

    A method is a computation on the processor's attributes; they keep
    what was assigned before an exception. *)
Definition M (A : Type) : Type :=
  DocumentProcessor -> outcome A * DocumentProcessor.

Definition ret {A} (a : A) : M A := fun self => (Return a, self).

Definition bind {A B} (m : M A) (f : A -> M B) : M B :=
  fun self =>
    match m self with
    | (Return a, self') => f a self'
    | (Raise e, self') => (Raise e, self')
    end.

(** The result of a library call. *)
Definition call {A} (o : outcome A) : M A := fun self => (o, self).

Definition get : M DocumentProcessor := fun self => (Return self, self).

Definition modify (f : DocumentProcessor -> DocumentProcessor) : M unit :=
  fun self => (Return tt, f self).

(** [try: body / except Exception as e: handler(e)] *)
Definition try_except {A} (body : M A) (handler : exn -> M A) : M A :=
  fun self =>
    match body self with
    | (Return a, self') => (Return a, self')
    | (Raise e, self') => handler e self'
    end.

Declare Scope proc_scope.
Delimit Scope proc_scope with proc.
Notation "x <- m ;; k" := (bind m (fun x => k))
  (at level 90, m at next level, right associativity) : proc_scope.
Notation "m ;;; k" := (bind m (fun _ => k))
  (at level 90, right associativity) : proc_scope.
Local Open Scope proc_scope.

(** ** What the program reads from pandas and pypdf

    [PDF_AVAILABLE] is the module flag set by the guarded imports.
    [ExcelFile path] is [pd.ExcelFile(path).sheet_names]; [read_excel] is
    [pd.read_excel]; [PdfReader path] stands for opening the file and
    building the reader, and gives for every page, in page order, what
    [page.extract_text()] does. *)
Record Library := {
  PDF_AVAILABLE : bool;
  ExcelFile : str -> outcome (list str);
  read_excel : str -> str -> outcome DataFrame;
  PdfReader : str -> outcome (list (outcome str))
}.

(** The dictionary [process_document] returns. *)
Inductive Result :=
| ExcelResult (sheets : list str) (total_sheets financial_tables_found : nat)
    (data : Dict.dict DataFrame) (text_for_ai : str)
| PdfResult (pages text_length : nat) (text_preview full_text text_for_ai : str)
| Failure (error : str).

Definition success (r : Result) : bool :=
  match r with Failure _ => false | _ => true end.

Definition financial_keywords : list str :=
  map lit [ "revenue"; "income"; "profit"; "loss"; "expense"; "cost";
            "sales"; "earnings"; "ebitda"; "assets"; "liabilities";
            "equity"; "cash"; "debt"; "balance"; "statement" ]%string.

Definition _contains_financial_keywords (df : DataFrame) : bool :=
  let df_text := Str.lower (to_string df) in
  Str.any_in financial_keywords df_text.

Definition _identify_statement_type (df : DataFrame) : str :=
  let df_text := Str.lower (to_string df) in
  if Str.any_in (map lit ["balance sheet"; "assets"; "liabilities"]%string) df_text
  then lit "Balance Sheet"
  else if Str.any_in (map lit ["income statement"; "revenue"; "profit"; "loss"]%string) df_text
  then lit "Income Statement"
  else if Str.any_in (map lit ["cash flow"; "operating"; "investing"; "financing"]%string) df_text
  then lit "Cash Flow Statement"
  else lit "Financial Statement".

(** One iteration of the loop of [_extract_excel_metrics]. *)
Definition excel_metrics_step (metrics : Dict.dict str)
    (item : str * DataFrame) : Dict.dict str :=
  let '(sheet_name, df) := item in
  let df_text := Str.lower (to_string df) in
  let metrics :=
    if Str.contains (lit "revenue") df_text || Str.contains (lit "sales") df_text
    then Dict.set (lit "revenue_sheet") sheet_name metrics else metrics in
  let metrics :=
    if Str.contains (lit "profit") df_text || Str.contains (lit "net income") df_text
    then Dict.set (lit "profit_sheet") sheet_name metrics else metrics in
  metrics.

Definition _extract_excel_metrics (sheets_data : Dict.dict DataFrame)
    : Dict.dict str :=
  fold_left excel_metrics_step sheets_data [].

Definition revenue_patterns : list Re.pattern :=
  [ Re.labelled "revenue" Re.amount;
    Re.labelled "total revenue" Re.amount;
    Re.labelled "sales" Re.amount ].

Definition profit_patterns : list Re.pattern :=
  [ Re.labelled "net income" Re.amount;
    Re.labelled "profit" Re.amount ].

(** [for pattern in patterns: match = re.search(...); if match: ...; break] *)
Fixpoint first_match (patterns : list Re.pattern) (s : str) : option str :=
  match patterns with
  | [] => None
  | pattern :: rest =>
      match Re.search pattern s with
      | Some g => Some g
      | None => first_match rest s
      end
  end.

Definition _extract_text_metrics (text : str) : Dict.dict str :=
  let metrics : Dict.dict str := [] in
  let text_lower := Str.lower text in
  let metrics :=
    match first_match revenue_patterns text_lower with
    | Some g => Dict.set (lit "revenue") g metrics
    | None => metrics
    end in
  let metrics :=
    match first_match profit_patterns text_lower with
    | Some g => Dict.set (lit "profit") g metrics
    | None => metrics
    end in
  metrics.

Definition get_context_for_ai (self : DocumentProcessor) : str :=
  let context := lit "Financial Document Content:" ++ nl ++ nl in
  let context := context ++ document_text self in
  match financial_metrics self with
  | [] => context
  | _ :: _ =>
      fold_left
        (fun context '(metric, value) =>
           context ++ lit "- " ++ metric ++ lit ": " ++ value ++ nl)
        (financial_metrics self)
        (context ++ nl ++ nl ++ lit "Extracted Financial Metrics:" ++ nl)
  end.

Section WithLibrary.

Variable lib : Library.

(** The body of the loop over [excel_file.sheet_names]. *)
Fixpoint excel_sheets (file_path : str) (sheet_names : list str)
    (sheets_data : Dict.dict DataFrame) : M (Dict.dict DataFrame) :=
  match sheet_names with
  | [] => ret sheets_data
  | sheet_name :: rest =>
      df <- call (read_excel lib file_path sheet_name) ;;
      let sheets_data := Dict.set sheet_name df sheets_data in
      (if _contains_financial_keywords df
       then modify (fun self =>
              {| document_text := document_text self;
                 financial_tables := financial_tables self ++
                   [ {| sheet_name := sheet_name; data := df;
                        type := _identify_statement_type df |} ];
                 financial_metrics := financial_metrics self |})
       else ret tt) ;;;
      modify (fun self =>
        {| document_text :=
             (document_text self
                ++ nl ++ nl ++ lit "--- Sheet: " ++ sheet_name ++ lit " ---" ++ nl)
             ++ to_string df;
           financial_tables := financial_tables self;
           financial_metrics := financial_metrics self |}) ;;;
      excel_sheets file_path rest sheets_data
  end.

Definition _process_excel (file_path : str) : M Result :=
  try_except
    (sheet_names <- call (ExcelFile lib file_path) ;;
     sheets_data <- excel_sheets file_path sheet_names [] ;;
     modify (fun self =>
       {| document_text := document_text self;
          financial_tables := financial_tables self;
          financial_metrics := _extract_excel_metrics sheets_data |}) ;;;
     self <- get ;;
     ret (ExcelResult (Dict.keys sheets_data) (length sheets_data)
            (length (financial_tables self)) sheets_data (document_text self)))
    (fun e => ret (Failure (lit "Excel processing failed: " ++ e))).

(** The loop over the pages: [text_content.append(page.extract_text())]. *)
Fixpoint pdf_pages (pages : list (outcome str)) (text_content : list str)
    : M (list str) :=
  match pages with
  | [] => ret text_content
  | page :: rest =>
      text <- call page ;;
      pdf_pages rest (text_content ++ [text])
  end.

Definition _process_pdf (file_path : str) : M Result :=
  if negb (PDF_AVAILABLE lib)
  then ret (Failure (lit "PDF processing library not available. Install pypdf."))
  else
    try_except
      (pages <- call (PdfReader lib file_path) ;;
       text_content <- pdf_pages pages [] ;;
       modify (fun self =>
         {| document_text := Str.join nl text_content;
            financial_tables := financial_tables self;
            financial_metrics := financial_metrics self |}) ;;;
       modify (fun self =>
         {| document_text := document_text self;
            financial_tables := financial_tables self;
            financial_metrics := _extract_text_metrics (document_text self) |}) ;;;
       self <- get ;;
       ret (PdfResult (length pages) (length (document_text self))
              (if (500 <? length (document_text self))%nat
               then Str.slice_to 500 (document_text self) ++ lit "..."
               else document_text self)
              (document_text self) (document_text self)))
      (fun e => ret (Failure (lit "PDF processing failed: " ++ e))).

Definition process_document (file_path file_type : str) : M Result :=
  try_except
    (if Str.eqt file_type (lit "excel") then _process_excel file_path
     else if Str.eqt file_type (lit "pdf") then _process_pdf file_path
     else ret (Failure (lit "Unsupported file type: " ++ file_type)))
    (fun e => ret (Failure (lit "Processing failed: " ++ e))).

End WithLibrary.

End document_processor.

(* ===================================================================== *)
(** * utils/simple_qa.py *)
(* ===================================================================== *)
Module simple_qa.

Record SimpleQA := { document_text : str }.

(** [__init__] *)
Definition init (document_text : str) : SimpleQA :=
  {| document_text := Str.lower document_text |}.

(** [for pattern in patterns: match = re.search(...); if match: return ...] *)
Fixpoint first_found (patterns : list Re.pattern) (s : str) : option str :=
  match patterns with
  | [] => None
  | pattern :: rest =>
      match Re.search pattern s with
      | Some g => Some g
      | None => first_found rest s
      end
  end.

Definition _find_revenue_info (self : SimpleQA) : str :=
  let patterns := [ Re.labelled "revenue" Re.digits_commas;
                    Re.labelled "sales" Re.digits_commas ] in
  match first_found patterns (document_text self) with
  | Some g => lit "💰 Found revenue: $" ++ g
  | None =>
      if Str.contains (lit "revenue") (document_text self)
      then lit "📊 Revenue information found in the document. Please check the income statement."
      else lit "❓ No specific revenue information found."
  end.

Definition _find_profit_info (self : SimpleQA) : str :=
  let patterns := [ Re.labelled "profit" Re.digits_commas;
                    Re.labelled "net income" Re.digits_commas ] in
  match first_found patterns (document_text self) with
  | Some g => lit "💵 Found profit: $" ++ g
  | None => lit "❓ No specific profit information found."
  end.

Definition _find_expense_info (self : SimpleQA) : str :=
  if Str.contains (lit "expense") (document_text self)
  then lit "💸 Expense information found in the document."
  else lit "❓ No expense information found.".

Definition _find_assets_info (self : SimpleQA) : str :=
  if Str.contains (lit "assets") (document_text self)
  then lit "🏢 Assets information found in the document."
  else lit "❓ No assets information found.".

Definition _general_search (self : SimpleQA) (question : str) : str :=
  let words := List.filter (fun w => (3 <? length w)%nat) (Str.split question) in
  let found := List.filter (fun w => Str.contains w (document_text self)) words in
  match found with
  | _ :: _ => lit "🔍 Found references to: " ++ Str.join (lit ", ") found
  | [] => lit "❓ No specific information found for your question."
  end.

Definition answer_question (self : SimpleQA) (question : str) : str :=
  let question := Str.lower question in
  if Str.any_in (map lit ["revenue"; "sales"; "income"]%string) question
  then _find_revenue_info self
  else if Str.any_in (map lit ["profit"; "net income"]%string) question
  then _find_profit_info self
  else if Str.any_in (map lit ["expense"; "cost"]%string) question
  then _find_expense_info self
  else if Str.any_in (map lit ["assets"]%string) question
  then _find_assets_info self
  else _general_search self question.

End simple_qa.

(* ===================================================================== *)
(** * utils/ai_qa.py *)
(* ===================================================================== *)
Module ai_qa.

Record AIQuestionAnswering := {
  model_name : str;
  conversation_history : list (str * str)   (* question, answer *)
}.

(** [__init__] *)
Definition init (model_name : str) : AIQuestionAnswering :=
  {| model_name := model_name; conversation_history := [] |}.

Definition default_model : str := lit "qwen2:0.5b".

Definition _create_financial_prompt (question document_context : str) : str :=
  lit "Based on this financial document, answer the question directly and concisely." ++ nl
  ++ nl
  ++ lit "    DOCUMENT DATA:" ++ nl
  ++ lit "    " ++ Str.slice_to 2000 document_context ++ nl
  ++ nl
  ++ lit "    QUESTION: " ++ question ++ nl
  ++ nl
  ++ lit "    Give a direct answer in one clear sentence. If you find a specific number, include it. If information is missing, say "
  ++ dq ++ lit "Information not available in document." ++ dq ++ nl
  ++ nl
  ++ lit "    ANSWER:".

Definition CONTINUE_WITH_AI : str := lit "CONTINUE_WITH_AI".

Definition _emergency_override (question document_context : str) : str :=
  let question_lower := Str.lower question in
  if (Str.contains (lit "revenue") question_lower || Str.contains (lit "sales") question_lower)
     && Str.contains (lit "joe") (Str.lower document_context)
  then lit "The total sales revenue is $52,000 based on 1,000 tyres sold at $52 each."
  else if Str.contains (lit "profit") question_lower && Str.contains (lit "gross") question_lower
  then lit "The gross profit is $20,800."
  else if Str.contains (lit "profit") question_lower && Str.contains (lit "net") question_lower
  then lit "The net profit is $5,200."
  else if Str.contains (lit "advertising") question_lower
  then lit "The advertising expense is $500."
  else CONTINUE_WITH_AI.

Definition _clean_response (response : str) : str :=
  let response := Re.sub_space_between Str.isdecimal Str.isalpha_ascii response in
  let response := Re.sub_space_between Str.isalpha_ascii Str.isdecimal response in
  let response := Str.replace (lit "basedon") (lit "based on") response in
  let response := Str.replace (lit "soldat") (lit "sold at") response in
  let response := Str.replace (lit "tyresat") (lit "tyres at") response in
  let response :=
    if negb (Str.contains (lit "$") response)
       && Str.contains (lit "revenue") (Str.lower response)
    then Str.replace (lit "52 each") (lit "$52 each")
           (Str.replace (lit "52,000") (lit "$52,000") response)
    else response in
  let response := Str.join (lit " ") (Str.split response) in
  Str.strip response.

Definition suspicious_patterns : list str :=
  map lit [ "million"; "billion"; "1,234,567"; "999,999";
            "approximately"; "estimated"; "roughly" ]%string.

Definition _validate_response (answer document_context : str) : str :=
  let answer_lower := Str.lower answer in
  if Str.any_in suspicious_patterns answer_lower
  then lit "⚠️ VALIDATION WARNING: This response may be inaccurate. Please verify against the source document."
       ++ nl ++ nl ++ lit "Original response: " ++ answer
  else if (Str.contains (lit "52000") document_context
           || Str.contains (lit "52,000") document_context)
          && (Str.contains (lit "revenue") answer_lower
              || Str.contains (lit "sales") answer_lower)
          && (negb (Str.contains (lit "52,000") answer)
              && negb (Str.contains (lit "52000") answer))
  then lit "⚠️ Expected sales figure of $52,000 based on document content."
       ++ nl ++ nl ++ lit "AI Response: " ++ answer
  else answer.

Definition _ensure_clean_response (response question document_context : str) : str :=
  if Str.any_in (map lit ["XX"; "Instructions:"; "Direct answer sentence:"; "AI Response:"]%string)
       response
  then
    if (Str.contains (lit "revenue") (Str.lower question)
        || Str.contains (lit "sales") (Str.lower question))
       && (Str.contains (lit "52000") document_context
           || Str.contains (lit "52,000") document_context)
    then lit "The total sales revenue is $52,000."
    else if (Str.contains (lit "profit") (Str.lower question)
             && Str.contains (lit "gross") (Str.lower question))
            && (Str.contains (lit "20800") document_context
                || Str.contains (lit "20,800") document_context)
    then lit "The gross profit is $20,800."
    else lit "I found financial information in the document but cannot provide a specific answer."
  else response.

(** [clear_history] *)
Definition clear_history (self : AIQuestionAnswering) : AIQuestionAnswering :=
  {| model_name := model_name self; conversation_history := [] |}.

Definition remember (self : AIQuestionAnswering) (question answer : str)
    : AIQuestionAnswering :=
  {| model_name := model_name self;
     conversation_history := conversation_history self ++ [(question, answer)] |}.

(** What one call of a method did: the value returned, the object
    afterwards, and the prompts it sent to the external model, in order. *)
Record Ran (A : Type) := {
  returned : A;
  after : AIQuestionAnswering;
  sent : list str
}.
Arguments returned {A} r.
Arguments after {A} r.
Arguments sent {A} r.

Section WithModel.

(** [ollama.chat(model=..., messages=[user prompt], ...)] followed by
    [response['message']['content']]: the reply, or an exception.  The
    external model is arbitrary. *)
Variable ollama_chat : str -> str -> outcome str.

Definition answer_question (self : AIQuestionAnswering)
    (question document_context : str) : Ran str :=
  let override_response := _emergency_override question document_context in
  if negb (Str.eqt override_response CONTINUE_WITH_AI)
  then
    let cleaned_response := _clean_response override_response in
    {| returned := cleaned_response;
       after := remember self question cleaned_response;
       sent := [] |}
  else
    let prompt := _create_financial_prompt question document_context in
    match ollama_chat (model_name self) prompt with
    | Return content =>
        let answer := Str.strip content in
        let answer := _clean_response answer in
        let answer := _ensure_clean_response answer question document_context in
        let answer := _validate_response answer document_context in
        {| returned := answer;
           after := remember self question answer;
           sent := [prompt] |}
    | Raise e =>
        let error_msg := lit "❌ Error processing question: " ++ e in
        {| returned := error_msg;
           after := remember self question error_msg;
           sent := [prompt] |}
    end.

Definition is_model_available (self : AIQuestionAnswering) : Ran bool :=
  match ollama_chat (model_name self) (lit "Hello") with
  | Return _ => {| returned := true; after := self; sent := [lit "Hello"] |}
  | Raise _ => {| returned := false; after := self; sent := [lit "Hello"] |}
  end.

End WithModel.

End ai_qa.

(* ===================================================================== *)
(** * app.py *)
(* ===================================================================== *)
Module app.

(** An entry of [st.session_state.chat_history]. *)
Record ChatTurn := {
  question : str;
  answer : str;
  ai_powered : bool
}.

(** [st.session_state] once [main] has initialised it. *)
Record SessionState := {
  processed_data : option document_processor.Result;
  document_processor : document_processor.DocumentProcessor;
  ai_qa : ai_qa.AIQuestionAnswering;
  chat_history : list ChatTurn
}.

(** The initialisation at the top of [main]. *)
Definition initial : SessionState :=
  {| processed_data := None;
     document_processor := document_processor.init;
     ai_qa := ai_qa.init ai_qa.default_model;
     chat_history := [] |}.

(** The button pressed in the run of the script, if any. *)
Inductive Click :=
| NoClick
| AskQuestion
| ClearChatHistory.

Section WithWorld.

Variable path_suffix : str -> str.
Variable lib : document_processor.Library.
Variable ollama_chat : str -> str -> outcome str.

(** [handle_document_upload]: [temp_path] is where [save_temp_file] put
    the upload; [process] tells whether "Process Document" was
    pressed. *)
Definition handle_document_upload
    (uploaded_file : option file_handler.UploadedFile) (temp_path : str)
    (process : bool) (st : SessionState) : SessionState :=
  match uploaded_file with
  | None => st
  | Some _ =>
      match file_handler.validate_file path_suffix uploaded_file with
      | file_handler.Invalid _ => st
      | file_handler.Valid file_type _ _ _ =>
          if process then
            let processor := document_processor.init in
            match document_processor.process_document lib temp_path file_type processor with
            | (Return result, processor) =>
                if document_processor.success result
                then {| processed_data := Some result;
                        document_processor := processor;
                        ai_qa := ai_qa st;
                        chat_history := chat_history st |}
                else st
            | (Raise _, _) => st
            end
          else st
      end
  end.

(** The body of [if st.button("Clear Chat History"):]. *)
Definition clear_chat_history (st : SessionState) : SessionState :=
  {| processed_data := processed_data st;
     document_processor := document_processor st;
     ai_qa := ai_qa.clear_history (ai_qa st);
     chat_history := [] |}.

(** The body of [if st.button("Ask Question") and user_question:]. *)
Definition ask_question (ai_available : bool) (user_question : str)
    (st : SessionState) : SessionState :=
  let processor := document_processor st in
  let document_context := document_processor.get_context_for_ai processor in
  if ai_available then
    let ran := ai_qa.answer_question ollama_chat (ai_qa st)
                 user_question document_context in
    {| processed_data := processed_data st;
       document_processor := document_processor st;
       ai_qa := ai_qa.after ran;
       chat_history := chat_history st ++
         [ {| question := user_question; answer := ai_qa.returned ran;
              ai_powered := ai_available |} ] |}
  else
    let simple_qa := simple_qa.init (document_processor.document_text processor) in
    let answer := simple_qa.answer_question simple_qa user_question in
    {| processed_data := processed_data st;
       document_processor := document_processor st;
       ai_qa := ai_qa st;
       chat_history := chat_history st ++
         [ {| question := user_question; answer := answer;
              ai_powered := ai_available |} ] |}.

(** [handle_ai_qa_chat]: one run of the chat page with the text of the
    question box and the button pressed.  The "Clear Chat History"
    button exists only while the history is non-empty. *)
Definition handle_ai_qa_chat (user_question : str) (click : Click)
    (st : SessionState) : SessionState :=
  match processed_data st with
  | None => st
  | Some _ =>
      let ai_available :=
        ai_qa.returned (ai_qa.is_model_available ollama_chat (ai_qa st)) in
      let st :=
        match click, user_question with
        | AskQuestion, _ :: _ => ask_question ai_available user_question st
        | _, _ => st
        end in
      match chat_history st, click with
      | _ :: _, ClearChatHistory => clear_chat_history st
      | _, _ => st
      end
  end.

End WithWorld.

End app.

(* ===================================================================== *)
(** * Vocabulary of the statements *)
(* ===================================================================== *)
(** Predicates and constants that the lemmas and theorems below are stated
    with; none of them is part of the program. *)
Module Spec.
Import Str Re document_processor.

(** The index of the first occurrence of [w] in [s], if there is one. *)
Fixpoint find (w s : str) : option nat :=
  if startswith w s then Some 0
  else match s with
       | [] => None
       | _ :: s' => option_map S (find w s')
       end.

(** The index at which the leftmost match of [p] in [s] starts, as
    [re.search(p, s).start()], if there is a match. *)
Fixpoint search_start (p : pattern) (s : str) : option nat :=
  match match_at p s with
  | Some _ => Some 0
  | None =>
      match s with
      | [] => None
      | _ :: s' => option_map S (search_start p s')
      end
  end.

(** The two error messages of the validator. *)
Definition too_large : str := lit "File too large. Max size: 50MB".

Definition unsupported : str :=
  lit "Unsupported format. Supported: pdf, xlsx, xls, xlsm".

(** A continuation that accepts every rest of the input. *)
Definition total (k : cont) : Prop := forall s, is_Some (k s).

(** The longest prefix of class characters, and what follows it. *)
Fixpoint span (p : ascii -> bool) (s : str) : str * str :=
  match s with
  | c :: s' =>
      if p c then let '(a, b) := span p s' in (c :: a, b) else ([], s)
  | [] => ([], [])
  end.

(** The pattern matches somewhere in the text. *)
Definition occurs (p : pattern) (s : str) : Prop :=
  exists pre suf, s = pre ++ suf /\ is_Some (match_at p suf).

(** The classes [[:\s]] and [[\d,]]. *)
Definition is_colon_or_space (c : ascii) : bool :=
  Str.eqc c ":"%char || Str.isspace c.

Definition is_digit_or_comma (c : ascii) : bool :=
  Str.isdecimal c || Str.eqc c ","%char.

(** The method returns, whatever the attributes are. *)
Definition returns {A} (m : M A) : Prop :=
  forall self, exists a self', m self = (Return a, self').

(** The method keeps a property of the attributes, also when it raises. *)
Definition preserves (P : DocumentProcessor -> Prop) {A} (m : M A) : Prop :=
  forall self, P self -> P (snd (m self)).

(** The fixed vocabulary of the metric keys. *)
Definition vocabulary : list str :=
  [lit "revenue"; lit "profit"; lit "revenue_sheet"; lit "profit_sheet"].

Definition keys_within (allowed : list str) (self : DocumentProcessor) : Prop :=
  incl (Dict.keys (financial_metrics self)) allowed.

(** The sheets read so far, as the loop stores them. *)
Definition read_sheets (df : str -> DataFrame) (sheet_names : list str)
    (sheets_data : Dict.dict DataFrame) : Dict.dict DataFrame :=
  fold_left (fun d n => Dict.set n (df n) d) sheet_names sheets_data.

(** The two tests of the loop of [_extract_excel_metrics]. *)
Definition mentions_revenue (df_text : str) : bool :=
  Str.contains (lit "revenue") df_text || Str.contains (lit "sales") df_text.

Definition mentions_profit (df_text : str) : bool :=
  Str.contains (lit "profit") df_text || Str.contains (lit "net income") df_text.

(** The labels of the revenue patterns and of the profit patterns. *)
Definition revenue_words : list string := ["revenue"; "total revenue"; "sales"]%string.
Definition profit_words : list string := ["net income"; "profit"]%string.

(** The literal answers of the override. *)
Definition REVENUE_ANSWER : str :=
  lit "The total sales revenue is $52,000 based on 1,000 tyres sold at $52 each.".
Definition GROSS_PROFIT_ANSWER : str := lit "The gross profit is $20,800.".
Definition NET_PROFIT_ANSWER : str := lit "The net profit is $5,200.".
Definition ADVERTISING_ANSWER : str := lit "The advertising expense is $500.".

(** The guard of the first branch of the override. *)
Definition revenue_override (question document_context : str) : bool :=
  (Str.contains (lit "revenue") (Str.lower question)
   || Str.contains (lit "sales") (Str.lower question))
  && Str.contains (lit "joe") (Str.lower document_context).

(** The lower-cased question contains the word. *)
Definition asks (word : string) (question : str) : bool :=
  Str.contains (lit word) (Str.lower question).

End Spec.

(* ===================================================================== *)
(** * Sample inputs *)
(* ===================================================================== *)
Module Samples.
Import document_processor.

(** Every sheet of the sample workbooks holds a revenue and a profit line. *)
Definition sample_sheet (sheet_name : str) : DataFrame :=
  {| to_string := lit "Revenue: $52,000  Profit: $10,000  " ++ sheet_name |}.

(** Two workbooks that cannot be read in full, two such PDFs, and a
    workbook and a PDF that can. *)
Definition sample_library : Library :=
  {| PDF_AVAILABLE := true;
     ExcelFile := fun file_path =>
       if Str.eqt file_path (lit "broken.xlsx")
       then Raise (lit "File is not a zip file")
       else Return [lit "Q1"; lit "Q2"];
     read_excel := fun file_path sheet_name =>
       if Str.eqt file_path (lit "half.xlsx") && Str.eqt sheet_name (lit "Q2")
       then Raise (lit "Worksheet cannot be parsed")
       else Return (sample_sheet sheet_name);
     PdfReader := fun file_path =>
       if Str.eqt file_path (lit "broken.pdf")
       then Raise (lit "EOF marker not found")
       else if Str.eqt file_path (lit "half.pdf")
       then Return [Return (lit "Revenue: $52,000"); Raise (lit "cannot decode page")]
       else if Str.eqt file_path (lit "letter.pdf")
       then Return [Return (lit "Dear shareholders,"); Return (lit "thank you.")]
       else Return [Return (lit "Total Revenue: $52,000"); Return (lit "Net income: $5,200.00")] |}.

Definition no_pdf_library : Library :=
  {| PDF_AVAILABLE := false;
     ExcelFile := ExcelFile sample_library;
     read_excel := read_excel sample_library;
     PdfReader := PdfReader sample_library |}.

(** A model that is down, and one that answers everything alike. *)
Definition model_down : str -> str -> outcome str :=
  fun _ _ => Raise (lit "connection refused").

Definition model_parrot : str -> str -> outcome str :=
  fun _ _ => Return (lit " Revenue was approximately 1 million. ").

(** A session in which a workbook was processed and one question asked
    while the model was down. *)
Definition sample_session : app.SessionState :=
  app.handle_ai_qa_chat model_down (lit "What is the profit?") app.AskQuestion
    (app.handle_document_upload file_handler.posix_suffix
       sample_library
       (Some {| file_handler.name := lit "book.xlsx"; file_handler.size := 2048 |})
       (lit "/tmp/tmpab12/book.xlsx") true app.initial).

End Samples.

(* ===================================================================== *)
(** * Vocabulary of the further properties *)
(* ===================================================================== *)
Module Behaviour.
Import Str Re document_processor.

(** The words a pattern stands for: [lang r w] says that [r] can consume
    exactly [w]. *)
Fixpoint lang (r : regex) (w : str) : Prop :=
  match r with
  | Re.Str u => w = u
  | Chr p => exists c, w = [c] /\ p c = true
  | Cat r1 r2 => exists a b, w = a ++ b /\ lang r1 a /\ lang r2 b
  | Rep lo hi r' =>
      exists ws, w = concat ws /\ List.Forall (lang r') ws /\ lo <= length ws
        /\ match hi with Some h => length ws <= h | None => True end
  end.

(** Every character a pattern can consume is in the class [P]. *)
Fixpoint classes_within (P : ascii -> bool) (r : regex) : Prop :=
  match r with
  | Re.Str u => forallb P u = true
  | Chr p => forall c, p c = true -> P c = true
  | Cat r1 r2 => classes_within P r1 /\ classes_within P r2
  | Rep _ _ r' => classes_within P r'
  end.

(** The characters of an amount: digits, the thousands comma, the decimal
    point. *)
Definition is_amount_char (c : ascii) : bool :=
  isdecimal c || eqc c ","%char || eqc c "."%char.

(** A non-empty text of amount characters that begins with a digit. *)
Definition amount_shaped (v : str) : bool :=
  match v with
  | d :: rest => isdecimal d && forallb is_amount_char rest
  | [] => false
  end.

(** What follows a number does not go on with a comma or a point. *)
Definition number_ends_before (post : str) : bool :=
  match post with
  | c :: _ => negb (eqc c ","%char || eqc c "."%char)
  | [] => true
  end.

(** The groups of three digits of a number, each behind its comma. *)
Definition thousands (groups : list str) : str :=
  concat (map (fun g => ","%char :: g) groups).

(** Three digits. *)
Definition is_group (g : str) : bool :=
  (length g =? 3)%nat && forallb isdecimal g.

(** One to three digits. *)
Definition is_leading (ds : str) : bool :=
  (1 <=? length ds)%nat && (length ds <=? 3)%nat && forallb isdecimal ds.

(** The text begins with a character of the class. *)
Definition starts_in (p : ascii -> bool) (s : str) : bool :=
  match s with
  | c :: _ => p c
  | [] => false
  end.

(** The number [ds ++ thousands groups] ends before [post]: no comma and no
    point follows, and no digit either when the number is fewer than three
    digits without a group. *)
Definition number_stops (ds : str) (groups : list str) (post : str) : bool :=
  number_ends_before post
  && match groups with
     | [] => (length ds =? 3)%nat || negb (starts_in isdecimal post)
     | _ :: _ => true
     end.

(** A non-empty text of digits and commas. *)
Definition digits_commas_shaped (v : str) : bool :=
  match v with
  | [] => false
  | _ :: _ => forallb (fun c => isdecimal c || eqc c ","%char) v
  end.

(** What the Excel loop appends to [document_text] for one sheet. *)
Definition sheet_block (sheet_name : str) (df : DataFrame) : str :=
  nl ++ nl ++ lit "--- Sheet: " ++ sheet_name ++ lit " ---" ++ nl ++ to_string df.

(** The table the Excel loop records for a sheet with financial keywords. *)
Definition sheet_table (sheet_name : str) (df : DataFrame) : FinancialTable :=
  {| document_processor.sheet_name := sheet_name; data := df;
     type := _identify_statement_type df |}.

(** The lines [get_context_for_ai] adds for the metrics. *)
Definition metrics_trailer (metrics : Dict.dict str) : str :=
  match metrics with
  | [] => []
  | _ :: _ =>
      nl ++ nl ++ lit "Extracted Financial Metrics:" ++ nl
      ++ concat (map (fun item : str * str =>
                        lit "- " ++ fst item ++ lit ": " ++ snd item ++ nl) metrics)
  end.

(** The template artifacts [_ensure_clean_response] looks for. *)
Definition artifacts : list str :=
  map lit ["XX"; "Instructions:"; "Direct answer sentence:"; "AI Response:"]%string.

(** A character that is no whitespace. *)
Definition free (c : ascii) : Prop := isspace c = false.

(** A token of [split]: not empty, no whitespace in it. *)
Definition token (t : str) : Prop :=
  t <> [] /\ List.Forall free t.

(** Nothing to strip on the left. *)
Definition starts_free (s : str) : Prop :=
  match s with
  | c :: _ => free c
  | [] => True
  end.

(** The model's conversation history holds exactly the model-backed turns
    of the chat log, in order. *)
Definition logs_agree (st : app.SessionState) : Prop :=
  map (fun t => (app.question t, app.answer t))
      (List.filter app.ai_powered (app.chat_history st))
  = ai_qa.conversation_history (app.ai_qa st).

(** The sessions the two state-changing pages can produce from the initial
    one, whatever the libraries and the model do from run to run (the
    analysis and settings pages only display). *)
Inductive reachable : app.SessionState -> Prop :=
| reach_initial : reachable app.initial
| reach_upload path_suffix lib uploaded_file temp_path process st :
    reachable st ->
    reachable (app.handle_document_upload path_suffix lib uploaded_file temp_path process st)
| reach_chat ollama_chat user_question click st :
    reachable st ->
    reachable (app.handle_ai_qa_chat ollama_chat user_question click st).

(** A library that reads every PDF as the two pages of Joe's report, and
    the session after that report was uploaded and processed. *)
Definition joe_library : Library :=
  {| PDF_AVAILABLE := true;
     ExcelFile := fun _ => Raise (lit "File is not a zip file");
     read_excel := fun _ _ => Raise (lit "File is not a zip file");
     PdfReader := fun _ =>
       Return [Return (lit "Joe's Motorbike Tyres"); Return (lit "Total Revenue: $52,000")] |}.

Definition joe_session : app.SessionState :=
  app.handle_document_upload file_handler.posix_suffix joe_library
    (Some {| file_handler.name := lit "joe.pdf"; file_handler.size := 4096 |})
    (lit "/tmp/tmpk3/joe.pdf") true app.initial.

(** A processor that holds a report of 120 lines and one metric. *)
Definition long_report : DocumentProcessor :=
  {| document_text := concat (repeat (lit "Revenue: $52,000. ") 120);
     financial_tables := [];
     financial_metrics := [(lit "revenue", lit "52,000")] |}.

End Behaviour.

(* ===================================================================== *)
(** * Properties of the [str] and [dict] primitives *)
(* ===================================================================== *)
Module StrFacts.
Import Str Spec.

Lemma eqc_true (a b : ascii) : eqc a b = true <-> a = b.
Proof. apply Ascii.eqb_eq. Qed.

Lemma eqc_refl (a : ascii) : eqc a a = true.
Proof. apply Ascii.eqb_refl. Qed.

Lemma eqt_true (a b : str) : eqt a b = true <-> a = b.
Proof.
  revert b. induction a as [|x a IH]; intros [|y b]; simpl; try (split; congruence).
  rewrite andb_true_iff, eqc_true, IH. split.
  - intros [-> ->]. reflexivity.
  - intros [= -> ->]. split; reflexivity.
Qed.

Lemma eqt_refl (a : str) : eqt a a = true.
Proof. apply eqt_true. reflexivity. Qed.

Lemma eqt_false (a b : str) : eqt a b = false <-> a <> b.
Proof.
  rewrite <- eqt_true. destruct (eqt a b); split; congruence.
Qed.

Lemma mem_true (x : str) (l : list str) : mem x l = true <-> In x l.
Proof.
  unfold mem. rewrite existsb_exists. split.
  - intros (y & Hy & E). apply eqt_true in E. subst. assumption.
  - intros H. exists x. split; [assumption | apply eqt_refl].
Qed.

Lemma startswith_true (w s : str) :
  startswith w s = true <-> exists t, s = w ++ t.
Proof.
  revert s. induction w as [|a w IH]; intros s; simpl.
  - split; eauto.
  - destruct s as [|b s].
    + split; [discriminate | intros (t & E); discriminate].
    + rewrite andb_true_iff, eqc_true, IH. split.
      * intros (-> & t & ->). eauto.
      * intros (t & [= -> ->]). eauto.
Qed.

Lemma startswith_app (w t : str) : startswith w (w ++ t) = true.
Proof. apply startswith_true. eauto. Qed.

Lemma contains_true (w s : str) :
  contains w s = true <-> exists pre post, s = pre ++ w ++ post.
Proof.
  induction s as [|c s IH]; simpl.
  - rewrite orb_false_r, startswith_true. split.
    + intros (t & E). exists [], t. assumption.
    + intros ([|? ?] & post & E); [eauto | discriminate].
  - rewrite orb_true_iff, startswith_true, IH. split.
    + intros [(t & E) | (pre & post & ->)].
      * exists [], t. assumption.
      * exists (c :: pre), post. reflexivity.
    + intros ([|c' pre] & post & E).
      * left. eauto.
      * right. injection E as _ ->. eauto.
Qed.

Lemma contains_app (pre w post : str) : contains w (pre ++ w ++ post) = true.
Proof. apply contains_true. eauto. Qed.

Lemma lower_app (a b : str) : lower (a ++ b) = lower a ++ lower b.
Proof. apply map_app. Qed.

(** Lower-casing keeps occurrences: a word found in [s] is found,
    lower-cased, in [s.lower()]. *)
Lemma contains_lower (w s : str) :
  contains w s = true -> contains (lower w) (lower s) = true.
Proof.
  rewrite !contains_true. intros (pre & post & ->).
  exists (lower pre), (lower post). rewrite !lower_app. reflexivity.
Qed.

(** An occurrence within an occurrence. *)
Lemma contains_trans a b s :
  Str.contains a b = true -> Str.contains b s = true -> Str.contains a s = true.
Proof.
  rewrite !contains_true. intros (p1 & q1 & ->) (p2 & q2 & ->).
  exists (p2 ++ p1), (q1 ++ q2). rewrite <- !app_assoc. reflexivity.
Qed.

End StrFacts.

Module DictFacts.
Import Dict StrFacts.

Lemma get_set_eq {V} (k : str) (v : V) (d : dict V) :
  get k (set k v d) = Some v.
Proof.
  induction d as [|[k' v'] d IH]; simpl.
  - rewrite eqt_refl. reflexivity.
  - destruct (Str.eqt k k') eqn:E; simpl; rewrite ?eqt_refl, ?E; auto.
Qed.

Lemma get_set_ne {V} (k k' : str) (v : V) (d : dict V) :
  k <> k' -> get k' (set k v d) = get k' d.
Proof.
  intros Hne. induction d as [|[k0 v0] d IH]; simpl.
  - apply not_eq_sym, eqt_false in Hne. rewrite Hne. reflexivity.
  - destruct (Str.eqt k k0) eqn:E; simpl.
    + apply eqt_true in E. subst k0.
      apply not_eq_sym, eqt_false in Hne. rewrite Hne. reflexivity.
    + rewrite IH. reflexivity.
Qed.

Lemma keys_set {V} (k : str) (v : V) (d : dict V) :
  forall x, In x (keys (set k v d)) -> x = k \/ In x (keys d).
Proof.
  unfold keys. induction d as [|[k0 v0] d IH]; simpl; intros x.
  - intros [<- | []]. auto.
  - destruct (Str.eqt k k0) eqn:E; simpl.
    + apply eqt_true in E. subst. tauto.
    + intros [<- | H]; [tauto |]. destruct (IH _ H); tauto.
Qed.

Lemma get_none_keys {V} (k : str) (d : dict V) :
  ~ In k (keys d) -> get k d = None.
Proof.
  unfold keys. induction d as [|[k0 v0] d IH]; simpl; intros H; [reflexivity |].
  destruct (Str.eqt k k0) eqn:E.
  - apply eqt_true in E. subst. tauto.
  - apply IH. tauto.
Qed.

(** Setting a key that is not there yet appends the item. *)
Lemma set_fresh {V} (k : str) (v : V) (d : dict V) :
  ~ In k (keys d) -> set k v d = d ++ [(k, v)].
Proof.
  unfold keys. induction d as [|[k0 v0] d IH]; simpl; intros H; [reflexivity |].
  destruct (Str.eqt k k0) eqn:E.
  - apply eqt_true in E. subst. tauto.
  - rewrite IH by tauto. reflexivity.
Qed.

End DictFacts.

(* ===================================================================== *)
(** * The file validator *)
(* ===================================================================== *)
Module FileHandlerFacts.
Import file_handler StrFacts Spec.

Lemma supported_extensions_eq :
  supported_extensions = [lit "pdf"; lit "xlsx"; lit "xls"; lit "xlsm"].
Proof. reflexivity. Qed.

Lemma unsupported_message :
  lit "Unsupported format. Supported: " ++ Str.join (lit ", ") supported_extensions
  = unsupported.
Proof. reflexivity. Qed.

(** The validator below the size check. *)
Lemma validate_file_within (path_suffix : str -> str) (f : UploadedFile) :
  (size f <= MAX_FILE_SIZE)%Z ->
  validate_file path_suffix (Some f) =
    let ext := file_extension path_suffix f in
    if Str.mem ext supported_extensions
    then Valid (_get_file_type ext) ext (size f) (name f)
    else Invalid unsupported.
Proof.
  intros Hle. unfold validate_file.
  destruct (Z.gtb_spec (size f) MAX_FILE_SIZE) as [Hgt | _]; [lia |].
  cbv zeta. destruct (Str.mem _ supported_extensions); reflexivity.
Qed.

(** C3: a file larger than 50 MiB is rejected with the size error whatever
    its name and extension are, and a file of exactly 50 MiB is not
    rejected for its size. *)
Theorem validate_file_size_check (path_suffix : str -> str) (f : UploadedFile) :
  ((size f > 50 * 1024 * 1024)%Z ->
     validate_file path_suffix (Some f) = Invalid (lit "File too large. Max size: 50MB"))
  /\ (size f = (50 * 1024 * 1024)%Z ->
        validate_file path_suffix (Some f) <> Invalid (lit "File too large. Max size: 50MB")).
Proof.
  split.
  - intros Hgt. unfold validate_file.
    destruct (Z.gtb_spec (size f) MAX_FILE_SIZE) as [_ | Hle]; [reflexivity |].
    unfold MAX_FILE_SIZE in Hle. lia.
  - intros Heq. rewrite validate_file_within by (unfold MAX_FILE_SIZE; lia).
    cbv zeta. destruct (Str.mem _ _); discriminate.
Qed.

Lemma validate_file_size_check_witness :
  validate_file posix_suffix
    (Some {| name := lit "ledger.txt"; size := 50 * 1024 * 1024 + 1 |})
    = Invalid (lit "File too large. Max size: 50MB")
  /\ validate_file posix_suffix
       (Some {| name := lit "ledger.pdf"; size := 50 * 1024 * 1024 |})
     <> Invalid (lit "File too large. Max size: 50MB").
Proof.
  split.
  - apply (proj1 (validate_file_size_check posix_suffix
             {| name := lit "ledger.txt"; size := 50 * 1024 * 1024 + 1 |})).
    simpl. lia.
  - apply (proj2 (validate_file_size_check posix_suffix
             {| name := lit "ledger.pdf"; size := 50 * 1024 * 1024 |})).
    reflexivity.
Defined.

(** C4 as stated fails: an oversized file with an unsupported extension
    is rejected with the size error, not with the unsupported-format
    error. *)
Lemma unsupported_extension_oversized :
  let f := {| name := lit "notes.txt"; size := 60 * 1024 * 1024 |} in
  Str.mem (file_extension posix_suffix f) supported_extensions = false
  /\ validate_file posix_suffix (Some f) = Invalid (lit "File too large. Max size: 50MB")
  /\ validate_file posix_suffix (Some f)
     <> Invalid (lit "Unsupported format. Supported: pdf, xlsx, xls, xlsm").
Proof. repeat split. discriminate. Qed.

Lemma get_file_type_cases (ext : str) :
  In ext supported_extensions ->
  (ext = lit "pdf" /\ _get_file_type ext = lit "pdf")
  \/ (In ext [lit "xlsx"; lit "xls"; lit "xlsm"] /\ _get_file_type ext = lit "excel").
Proof.
  rewrite supported_extensions_eq. simpl.
  intros [<- | [<- | [<- | [<- | []]]]]; [left | right ..]; split; auto;
    simpl; tauto.
Qed.

(** C4, amended: for a file within the size limit, an extension outside
    the supported set gives the unsupported-format error, and an extension
    inside it gives a valid result whose type is "pdf" exactly for [pdf]
    and "excel" exactly for [xlsx], [xls], [xlsm], with the extension, the
    size and the name echoed. *)
Theorem validate_file_extension (path_suffix : str -> str) (f : UploadedFile) :
  (size f <= 50 * 1024 * 1024)%Z ->
  let ext := Str.lstrip_char "."%char (Str.lower (path_suffix (name f))) in
  (~ In ext [lit "pdf"; lit "xlsx"; lit "xls"; lit "xlsm"] ->
     validate_file path_suffix (Some f)
     = Invalid (lit "Unsupported format. Supported: pdf, xlsx, xls, xlsm"))
  /\ (ext = lit "pdf" ->
        validate_file path_suffix (Some f)
        = Valid (lit "pdf") ext (size f) (name f))
  /\ (In ext [lit "xlsx"; lit "xls"; lit "xlsm"] ->
        validate_file path_suffix (Some f)
        = Valid (lit "excel") ext (size f) (name f)).
Proof.
  intros Hle ext. rewrite validate_file_within by exact Hle.
  fold (file_extension path_suffix f) in ext. cbv zeta. fold ext.
  repeat split.
  - intros Hout. destruct (Str.mem ext supported_extensions) eqn:E; [| reflexivity].
    apply mem_true in E. contradiction.
  - intros ->. reflexivity.
  - intros Hin.
    assert (Hsup : In ext supported_extensions)
      by (rewrite supported_extensions_eq; simpl in *; tauto).
    pose proof Hsup as Hmem. apply mem_true in Hmem. rewrite Hmem.
    destruct (get_file_type_cases ext Hsup) as [[-> _] | [_ ->]]; [| reflexivity].
    simpl in Hin. repeat destruct Hin as [Hin | Hin]; try discriminate; contradiction.
Qed.

Lemma validate_file_extension_witness :
  validate_file posix_suffix (Some {| name := lit "notes.txt"; size := 10 |})
    = Invalid (lit "Unsupported format. Supported: pdf, xlsx, xls, xlsm")
  /\ validate_file posix_suffix (Some {| name := lit "Report.PDF"; size := 10 |})
     = Valid (lit "pdf") (lit "pdf") 10 (lit "Report.PDF")
  /\ validate_file posix_suffix (Some {| name := lit "q3.book.xlsm"; size := 10 |})
     = Valid (lit "excel") (lit "xlsm") 10 (lit "q3.book.xlsm").
Proof.
  split; [| split].
  - apply (validate_file_extension posix_suffix
             {| name := lit "notes.txt"; size := 10 |}); [simpl; lia |].
    simpl. intros [H | [H | [H | [H | []]]]]; discriminate H.
  - apply (validate_file_extension posix_suffix
             {| name := lit "Report.PDF"; size := 10 |}); [simpl; lia |].
    reflexivity.
  - apply (validate_file_extension posix_suffix
             {| name := lit "q3.book.xlsm"; size := 10 |}); [simpl; lia |].
    simpl. tauto.
Defined.

End FileHandlerFacts.

(* ===================================================================== *)
(** * The backtracking matcher *)
(* ===================================================================== *)
Module ReFacts.
Import Re StrFacts Spec.

Lemma rep_S body n lo s k :
  rep body (S n) lo s k =
    match body s (fun s' => rep body n (pred lo) s' k) with
    | Some x => Some x
    | None => if (lo =? 0)%nat then k s else None
    end.
Proof. reflexivity. Qed.

Lemma run_rep lo hi r s k :
  run (Rep lo hi r) s k = rep (run r) (bound hi s) lo s k.
Proof. reflexivity. Qed.

Lemma run_chr_cons p c s k :
  run (Chr p) (c :: s) k = if p c then k s else None.
Proof. reflexivity. Qed.

(** A repetition whose lower bound is met never fails before a total
    continuation. *)
Lemma rep_zero_total body n s k :
  total k -> is_Some (rep body n 0 s k).
Proof.
  intros Hk. destruct n as [|n]; simpl; [apply Hk |].
  destruct (body s _); [eauto | apply Hk].
Qed.

(** A run of class characters followed by an input the continuation
    accepts: the repetition finds a match. *)
Lemma rep_chr_run p run_ rest k :
  Forall (fun c => p c = true) run_ ->
  is_Some (k rest) ->
  forall n lo, length run_ <= n -> lo <= length run_ ->
  is_Some (rep (run (Chr p)) n lo (run_ ++ rest) k).
Proof.
  intros Hrun Hk. induction Hrun as [|c run_ Hc _ IH]; intros n lo Hn Hlo.
  - simpl in Hlo. assert (lo = 0) as -> by lia.
    destruct n as [|n]; simpl; [assumption |].
    match goal with |- is_Some (match ?e with _ => _ end) => destruct e end;
      [eauto | assumption].
  - destruct n as [|n]; simpl in Hn; [lia |].
    rewrite <- app_comm_cons, rep_S, run_chr_cons, Hc.
    destruct (IH n (pred lo)) as [x Hx]; [lia | simpl in Hlo; lia |].
    rewrite Hx. eauto.
Qed.

Lemma span_app p s : fst (span p s) ++ snd (span p s) = s.
Proof.
  induction s as [|c s IH]; simpl; [reflexivity |].
  destruct (p c); [| reflexivity].
  destruct (span p s); simpl in *. congruence.
Qed.

(** Greedy: before a total continuation, a repetition of one class takes
    the longest run of class characters. *)
Lemma rep_chr_greedy p k :
  total k ->
  forall s n lo,
    length (fst (span p s)) <= n -> lo <= length (fst (span p s)) ->
    rep (run (Chr p)) n lo s k = k (snd (span p s)).
Proof.
  intros Hk. induction s as [|c s IH]; intros n lo Hn Hlo.
  - simpl in Hlo. assert (lo = 0) as -> by lia. destruct n; reflexivity.
  - cbn [span] in *. destruct (p c) eqn:Hc.
    + destruct (span p s) as [a b] eqn:Hsp. cbn [fst snd length] in *.
      destruct n as [|n]; [lia |]. rewrite rep_S, run_chr_cons, Hc.
      rewrite IH by lia. destruct (Hk b) as [x ->]. reflexivity.
    + cbn [fst snd length] in *. assert (lo = 0) as -> by lia.
      destruct n as [|n]; [reflexivity |].
      rewrite rep_S, run_chr_cons, Hc. reflexivity.
Qed.

(** A labelled pattern only matches where its word stands. *)
Lemma match_at_labelled_word word group s :
  Str.startswith (lit word) s = false ->
  match_at (labelled word group) s = None.
Proof. intros H. unfold match_at. simpl. rewrite H. reflexivity. Qed.

(** [re.search] finds a match exactly when there is one. *)
Lemma search_occurs p s : is_Some (search p s) <-> occurs p s.
Proof.
  induction s as [|c s IH]; simpl.
  - destruct (match_at p []) eqn:E.
    + split; [| eauto]. intros _. exists [], []. rewrite E. eauto.
    + split; [intros [? [=]] |].
      intros ([|? ?] & suf & Heq & Hm); [| discriminate].
      simpl in Heq. subst suf. rewrite E in Hm. exact Hm.
  - destruct (match_at p (c :: s)) eqn:E.
    + split; [| eauto]. intros _. exists [], (c :: s). rewrite E. eauto.
    + rewrite IH. split.
      * intros (pre & suf & -> & Hm). exists (c :: pre), suf. eauto.
      * intros ([|c' pre] & suf & Heq & Hm); simpl in Heq.
        -- subst suf. rewrite E in Hm. destruct Hm as [? [=]].
        -- injection Heq as _ ->. exists pre, suf. eauto.
Qed.

(** [re.search] returns the match at the first position that has one. *)
Lemma search_leftmost p pre s :
  (forall a b, pre = a ++ b -> b <> [] -> match_at p (b ++ s) = None) ->
  search p (pre ++ s) =
    match match_at p s with
    | Some g => Some g
    | None => match s with [] => None | _ :: s' => search p s' end
    end.
Proof.
  induction pre as [|c pre IH]; intros Hnone.
  - destruct s; reflexivity.
  - pose proof (Hnone [] (c :: pre) eq_refl ltac:(discriminate)) as H0.
    simpl in *. rewrite H0.
    apply IH. intros a b -> Hb. apply (Hnone (c :: a) b); auto.
Qed.

(** Before the first occurrence of a word, no suffix starts with it. *)
Lemma find_first w pre s :
  Spec.find w (pre ++ s) = Some (length pre) ->
  forall a b, pre = a ++ b -> b <> [] -> Str.startswith w (b ++ s) = false.
Proof.
  induction pre as [|c pre IH]; intros Hfind a b Hab Hb.
  - destruct a, b; simpl in Hab; congruence.
  - simpl in Hfind.
    destruct (Str.startswith w (c :: pre ++ s)) eqn:E; [discriminate |].
    destruct (Spec.find w (pre ++ s)) as [n|] eqn:Hf; [| discriminate].
    injection Hfind as ->.
    destruct a as [|c' a]; simpl in Hab.
    + subst b. exact E.
    + injection Hab as _ ->. apply (IH eq_refl a b); auto.
Qed.

(** Before the leftmost match, the pattern matches at no position. *)
Lemma search_start_first p pre s :
  Spec.search_start p (pre ++ s) = Some (length pre) ->
  forall a b, pre = a ++ b -> b <> [] -> match_at p (b ++ s) = None.
Proof.
  induction pre as [|c pre IH]; intros Hstart a b Hab Hb.
  - destruct a, b; simpl in Hab; congruence.
  - cbn [app Spec.search_start] in Hstart.
    destruct (match_at p (c :: pre ++ s)) eqn:E; [discriminate |].
    destruct (Spec.search_start p (pre ++ s)) as [n|] eqn:Hs; [| discriminate].
    injection Hstart as ->.
    destruct a as [|c' a]; simpl in Hab.
    + subst b. exact E.
    + injection Hab as _ ->. apply (IH eq_refl a b); auto.
Qed.

(** A labelled pattern at its word: what remains is the separator run,
    the optional dollar sign and the group. *)
Lemma match_at_labelled word group s :
  match_at (labelled word group) (lit word ++ s) =
    rep (run (Chr is_colon_or_space)) (length s) 1 s (fun s1 =>
      rep (run (one "$"%char)) 1 0 s1 (fun s2 =>
        run group s2 (fun s3 => Some (firstn (length s2 - length s3) s2)))).
Proof.
  unfold match_at, labelled. cbn [before group1 run].
  rewrite startswith_app, skipn_app, skipn_all, Nat.sub_diag. reflexivity.
Qed.

(** [\$?] before a continuation that accepts the input after the sign. *)
Lemma dollar_some (with_dollar : bool) s k :
  is_Some (k s) ->
  is_Some (rep (run (one "$"%char)) 1 0
             ((if with_dollar then lit "$" else []) ++ s) k).
Proof.
  intros Hk. rewrite rep_S. destruct with_dollar; simpl.
  - destruct Hk as [x ->]. eauto.
  - match goal with |- is_Some (match ?e with _ => _ end) => destruct e end;
      [eauto | assumption].
Qed.

(** The amount matches wherever a digit stands. *)
Lemma amount_some d s k :
  Str.isdecimal d = true -> total k -> is_Some (run amount (d :: s) k).
Proof.
  intros Hd Hk. unfold amount. cbn [run bound].
  rewrite rep_S. unfold digit at 1. rewrite run_chr_cons, Hd.
  match goal with |- is_Some (match ?e with _ => _ end) =>
    assert (He : is_Some e); [| destruct He as [x ->]; eauto] end.
  apply rep_zero_total. intros s1. unfold star, opt. cbn [run bound].
  apply rep_zero_total. intros s2. apply rep_zero_total. exact Hk.
Qed.

(** A word, one or more colons or spaces, an optional dollar sign and a
    digit: the labelled amount pattern matches there. *)
Lemma labelled_amount_some word seps (with_dollar : bool) d rest :
  seps <> [] ->
  Forall (fun c => is_colon_or_space c = true) seps ->
  Str.isdecimal d = true ->
  is_Some (match_at (labelled word amount)
             (lit word ++ seps ++ (if with_dollar then lit "$" else []) ++ d :: rest)).
Proof.
  intros Hne Hseps Hd. rewrite match_at_labelled.
  apply rep_chr_run; try assumption.
  - apply dollar_some. apply amount_some; [assumption |]. intros s. eauto.
  - rewrite length_app. lia.
  - destruct seps; [congruence | simpl; lia].
Qed.

Lemma firstn_span p s :
  firstn (length s - length (snd (span p s))) s = fst (span p s).
Proof.
  rewrite <- (span_app p s) at 1 3.
  rewrite length_app, Nat.add_sub, firstn_app, Nat.sub_diag, firstn_all.
  simpl. apply app_nil_r.
Qed.

(** [[\d,]+] is the last thing of its pattern, so it takes the longest run
    of digits and commas. *)
Lemma digits_commas_greedy c s :
  is_digit_or_comma c = true ->
  run digits_commas (c :: s)
    (fun s3 => Some (firstn (length (c :: s) - length s3) (c :: s)))
  = Some (fst (span is_digit_or_comma (c :: s))).
Proof.
  intros Hc. unfold digits_commas, plus. rewrite run_rep. cbn [bound].
  fold is_digit_or_comma.
  pose proof (span_app is_digit_or_comma (c :: s)) as Hsp.
  rewrite rep_chr_greedy.
  - rewrite firstn_span. reflexivity.
  - intros s3. eauto.
  - rewrite <- Hsp at 2. rewrite length_app. lia.
  - cbn [span]. rewrite Hc. destruct (span _ s). simpl. lia.
Qed.

(** [<word>: $] followed by a digit or comma: the match is there and the
    group is the longest run of digits and commas. *)
Lemma labelled_digits_commas_at word c s :
  is_digit_or_comma c = true ->
  match_at (labelled word digits_commas) (lit word ++ lit ": $" ++ c :: s)
  = Some (fst (span is_digit_or_comma (c :: s))).
Proof.
  intros Hc. rewrite match_at_labelled.
  change (lit ": $" ++ c :: s) with (":"%char :: " "%char :: "$"%char :: c :: s).
  cbn [length]. rewrite rep_S, run_chr_cons. cbn [is_colon_or_space Str.eqc Ascii.eqb orb pred].
  change (is_colon_or_space ":"%char) with true. cbv iota.
  rewrite rep_S, run_chr_cons.
  change (is_colon_or_space " "%char) with true. cbv iota.
  rewrite rep_S, run_chr_cons.
  change (is_colon_or_space "$"%char) with false. cbv iota.
  cbn [pred Nat.eqb].
  rewrite rep_S. unfold one at 1. rewrite run_chr_cons.
  change (Str.eqc "$"%char "$"%char) with true. cbv iota.
  cbn [rep Nat.eqb pred].
  rewrite digits_commas_greedy by assumption. reflexivity.
Qed.

End ReFacts.

(* ===================================================================== *)
(** * The document extractor *)
(* ===================================================================== *)
Module DocumentProcessorFacts.
Import document_processor StrFacts DictFacts ReFacts Spec Samples.
Local Open Scope proc_scope.

(** ** Reasoning about methods *)

Lemma ret_returns {A} (a : A) : returns (ret a).
Proof. intros self. unfold ret. eauto. Qed.

Lemma try_except_returns {A} (body : M A) handler :
  (forall e, returns (handler e)) -> returns (try_except body handler).
Proof.
  intros Hh self. unfold try_except.
  destruct (body self) as [[a | e] self']; [eauto | apply Hh].
Qed.

Lemma preserves_ret P {A} (a : A) : preserves P (ret a).
Proof. intros self H. exact H. Qed.

Lemma preserves_call P {A} (o : outcome A) : preserves P (call o).
Proof. intros self H. exact H. Qed.

Lemma preserves_get P : preserves P get.
Proof. intros self H. exact H. Qed.

Lemma preserves_modify P f :
  (forall self, P self -> P (f self)) -> preserves P (modify f).
Proof. intros Hf self H. apply Hf, H. Qed.

Lemma preserves_bind P {A B} (m : M A) (f : A -> M B) :
  preserves P m -> (forall a, preserves P (f a)) -> preserves P (bind m f).
Proof.
  intros Hm Hf self H. unfold bind. specialize (Hm self H).
  destruct (m self) as [[a | e] self']; simpl in *; [apply Hf, Hm | exact Hm].
Qed.

Lemma preserves_try_except P {A} (body : M A) handler :
  preserves P body -> (forall e, preserves P (handler e)) ->
  preserves P (try_except body handler).
Proof.
  intros Hb Hh self H. unfold try_except. specialize (Hb self H).
  destruct (body self) as [[a | e] self']; simpl in *; [exact Hb | apply Hh, Hb].
Qed.

Create HintDb preserves.
#[local] Hint Resolve preserves_ret preserves_call preserves_get
  preserves_bind preserves_try_except : preserves.

Section WithLibrary.

Variable lib : Library.

(** ** No exception leaves [process_document] *)

Lemma process_excel_returns file_path : returns (_process_excel lib file_path).
Proof. apply try_except_returns. intros e. apply ret_returns. Qed.

Lemma process_pdf_returns file_path : returns (_process_pdf lib file_path).
Proof.
  unfold _process_pdf. destruct (negb (PDF_AVAILABLE lib)).
  - apply ret_returns.
  - apply try_except_returns. intros e. apply ret_returns.
Qed.

Lemma process_document_returns file_path file_type :
  returns (process_document lib file_path file_type).
Proof. apply try_except_returns. intros e. apply ret_returns. Qed.

(** The loop over the sheets raises what the first unreadable sheet
    raises. *)
Lemma excel_sheets_raises file_path e readable sheet_name rest :
  Forall (fun n => exists df, read_excel lib file_path n = Return df) readable ->
  read_excel lib file_path sheet_name = Raise e ->
  forall sheets_data self,
    fst (excel_sheets lib file_path (readable ++ sheet_name :: rest) sheets_data self)
    = Raise e.
Proof.
  intros Hok Hbad. induction Hok as [|n readable [df Hn] _ IH]; intros sheets_data self.
  - simpl. unfold bind, call. rewrite Hbad. reflexivity.
  - simpl. unfold bind at 1. unfold call at 1. rewrite Hn.
    unfold bind at 1.
    destruct (_contains_financial_keywords df); simpl; unfold bind at 1; simpl; apply IH.
Qed.

(** The loop over the pages raises what the first unreadable page
    raises. *)
Lemma pdf_pages_raises e (texts : list str) rest :
  forall text_content self,
    fst (pdf_pages (map Return texts ++ Raise e :: rest) text_content self)
    = Raise e.
Proof.
  induction texts as [|t texts IH]; intros text_content self; simpl.
  - reflexivity.
  - unfold bind at 1. simpl. apply IH.
Qed.

(** The result of the Excel path once the body of its [try] raised. *)
Lemma process_excel_caught file_path e self :
  (exists self',
     (sheet_names <- call (ExcelFile lib file_path) ;;
      excel_sheets lib file_path sheet_names []) self = (Raise e, self')) ->
  fst (_process_excel lib file_path self)
  = Return (Failure (lit "Excel processing failed: " ++ e)).
Proof.
  intros [self' H]. unfold _process_excel, try_except.
  unfold bind at 1. unfold bind at 1 in H.
  destruct (call (ExcelFile lib file_path) self) as [[names | e'] self1].
  - unfold bind at 1. rewrite H. reflexivity.
  - injection H as -> ->. reflexivity.
Qed.

Lemma process_document_excel file_path self :
  process_document lib file_path (lit "excel") self
  = _process_excel lib file_path self.
Proof.
  unfold process_document, try_except. simpl.
  destruct (process_excel_returns file_path self) as (r & self' & ->).
  reflexivity.
Qed.

Lemma process_document_pdf file_path self :
  process_document lib file_path (lit "pdf") self
  = _process_pdf lib file_path self.
Proof.
  unfold process_document, try_except. simpl.
  destruct (process_pdf_returns file_path self) as (r & self' & ->).
  reflexivity.
Qed.

(** C7: [process_document] always returns a result, for every path, file
    type and state of the processor.  Whatever pandas or pypdf raise
    (opening the workbook, reading a sheet, opening the PDF, extracting
    a page) comes back as a failure result that carries the message of
    the exception, and a PDF processed without a PDF library comes back
    as a failure result too. *)
Theorem process_document_never_raises file_path file_type self :
  (exists result self',
     process_document lib file_path file_type self = (Return result, self'))
  /\ (forall e,
        ExcelFile lib file_path = Raise e ->
        fst (process_document lib file_path (lit "excel") self)
        = Return (Failure (lit "Excel processing failed: " ++ e)))
  /\ (forall e readable sheet_name rest,
        ExcelFile lib file_path = Return (readable ++ sheet_name :: rest) ->
        Forall (fun n => exists df, read_excel lib file_path n = Return df) readable ->
        read_excel lib file_path sheet_name = Raise e ->
        fst (process_document lib file_path (lit "excel") self)
        = Return (Failure (lit "Excel processing failed: " ++ e)))
  /\ (forall e,
        PDF_AVAILABLE lib = true ->
        PdfReader lib file_path = Raise e ->
        fst (process_document lib file_path (lit "pdf") self)
        = Return (Failure (lit "PDF processing failed: " ++ e)))
  /\ (forall e texts rest,
        PDF_AVAILABLE lib = true ->
        PdfReader lib file_path = Return (map Return texts ++ Raise e :: rest) ->
        fst (process_document lib file_path (lit "pdf") self)
        = Return (Failure (lit "PDF processing failed: " ++ e)))
  /\ (PDF_AVAILABLE lib = false ->
        process_document lib file_path (lit "pdf") self
        = (Return (Failure (lit "PDF processing library not available. Install pypdf.")),
           self)).
Proof.
  split; [apply process_document_returns |].
  rewrite process_document_excel, process_document_pdf.
  repeat split.
  - intros e He. apply process_excel_caught. exists self.
    unfold bind, call. rewrite He. reflexivity.
  - intros e readable sheet_name rest Hnames Hok Hbad.
    apply process_excel_caught.
    pose proof (excel_sheets_raises file_path e readable sheet_name rest Hok Hbad [] self) as H.
    unfold bind, call. rewrite Hnames.
    destruct (excel_sheets _ _ _ _ _) as [o self']. simpl in H. subst o. eauto.
  - intros e Hav He. unfold _process_pdf. rewrite Hav. simpl.
    unfold try_except, bind at 1, call. rewrite He. reflexivity.
  - intros e texts rest Hav Hpages. unfold _process_pdf. rewrite Hav. simpl.
    unfold try_except, bind at 1, call. rewrite Hpages.
    unfold bind at 1.
    pose proof (pdf_pages_raises e texts rest [] self) as H.
    destruct (pdf_pages _ _ _) as [o self']. simpl in H. subst o. reflexivity.
  - intros Hav. unfold _process_pdf. rewrite Hav. reflexivity.
Qed.

End WithLibrary.

(** ** The metric keys *)

Lemma set_keys_incl {V} k (v : V) d allowed :
  In k allowed -> incl (Dict.keys d) allowed ->
  incl (Dict.keys (Dict.set k v d)) allowed.
Proof.
  intros Hk Hd x Hx. apply keys_set in Hx as [-> | Hx]; auto.
Qed.

Lemma excel_metrics_step_keys metrics item :
  incl (Dict.keys metrics) [lit "revenue_sheet"; lit "profit_sheet"] ->
  incl (Dict.keys (excel_metrics_step metrics item))
       [lit "revenue_sheet"; lit "profit_sheet"].
Proof.
  intros H. destruct item as [sheet_name df]. unfold excel_metrics_step.
  repeat match goal with
         | |- context [if ?b then _ else _] => destruct b
         end;
    repeat (apply set_keys_incl; [simpl; tauto |]); exact H.
Qed.

Lemma extract_excel_metrics_keys sheets_data :
  incl (Dict.keys (_extract_excel_metrics sheets_data))
       [lit "revenue_sheet"; lit "profit_sheet"].
Proof.
  unfold _extract_excel_metrics.
  assert (H : incl (Dict.keys (@nil (str * str)))
                   [lit "revenue_sheet"; lit "profit_sheet"])
    by (intros x []).
  revert H. generalize (@nil (str * str)) as metrics.
  induction sheets_data as [|item sheets_data IH]; intros metrics H; simpl.
  - exact H.
  - apply IH, excel_metrics_step_keys, H.
Qed.

Lemma extract_text_metrics_keys text :
  incl (Dict.keys (_extract_text_metrics text)) [lit "revenue"; lit "profit"].
Proof.
  unfold _extract_text_metrics.
  destruct (first_match revenue_patterns _), (first_match profit_patterns _);
    repeat (apply set_keys_incl; [simpl; tauto |]); intros x [].
Qed.

Section Metrics.

Variable lib : Library.

Lemma excel_sheets_preserves P file_path sheet_names :
  (forall self text tables, P self ->
     P {| document_text := text; financial_tables := tables;
          financial_metrics := financial_metrics self |}) ->
  forall sheets_data,
    preserves P (excel_sheets lib file_path sheet_names sheets_data).
Proof.
  intros HP. induction sheet_names as [|n names IH]; intros sheets_data; simpl.
  - apply preserves_ret.
  - apply preserves_bind; [apply preserves_call |]. intros df.
    apply preserves_bind.
    + destruct (_contains_financial_keywords df);
        [apply preserves_modify; intros; apply HP; assumption | apply preserves_ret].
    + intros _. apply preserves_bind; [| intros _; apply IH].
      apply preserves_modify. intros; apply HP; assumption.
Qed.

Lemma pdf_pages_preserves P pages :
  forall text_content, preserves P (pdf_pages pages text_content).
Proof.
  induction pages as [|page pages IH]; intros text_content; simpl.
  - apply preserves_ret.
  - apply preserves_bind; [apply preserves_call | intros t; apply IH].
Qed.

Lemma process_excel_keys allowed file_path :
  incl [lit "revenue_sheet"; lit "profit_sheet"] allowed ->
  preserves (keys_within allowed) (_process_excel lib file_path).
Proof.
  intros Hx. unfold _process_excel.
  apply preserves_try_except; [| intros e; apply preserves_ret].
  apply preserves_bind; [apply preserves_call | intros names].
  apply preserves_bind; [apply excel_sheets_preserves; auto | intros sheets_data].
  apply preserves_bind; [| intros _; auto with preserves].
  apply preserves_modify. intros self _. unfold keys_within. simpl.
  eapply incl_tran; [apply extract_excel_metrics_keys | exact Hx].
Qed.

(** The keys stay within a set that holds the keys of both
    extractors. *)
Lemma process_document_keys allowed file_path file_type :
  incl [lit "revenue_sheet"; lit "profit_sheet"] allowed ->
  incl [lit "revenue"; lit "profit"] allowed ->
  preserves (keys_within allowed) (process_document lib file_path file_type).
Proof.
  intros Hx Ht. unfold process_document.
  apply preserves_try_except; [| intros e; apply preserves_ret].
  destruct (Str.eqt file_type (lit "excel")); [| destruct (Str.eqt file_type (lit "pdf"))].
  - apply process_excel_keys, Hx.
  - unfold _process_pdf. destruct (negb (PDF_AVAILABLE lib)); [apply preserves_ret |].
    apply preserves_try_except; [| intros e; apply preserves_ret].
    apply preserves_bind; [apply preserves_call | intros pages].
    apply preserves_bind; [apply pdf_pages_preserves | intros text_content].
    apply preserves_bind; [apply preserves_modify; auto | intros _].
    apply preserves_bind; [| intros _; auto with preserves].
    apply preserves_modify. intros self _. unfold keys_within. simpl.
    eapply incl_tran; [apply extract_text_metrics_keys | exact Ht].
  - apply preserves_ret.
Qed.

(** ** The two paths when every library call returns *)

Lemma excel_sheets_ok file_path df sheet_names :
  (forall n, In n sheet_names -> read_excel lib file_path n = Return (df n)) ->
  forall sheets_data self,
  exists self',
    excel_sheets lib file_path sheet_names sheets_data self
    = (Return (read_sheets df sheet_names sheets_data), self')
    /\ financial_metrics self' = financial_metrics self.
Proof.
  induction sheet_names as [|n names IH]; intros Hread sheets_data self; simpl.
  - unfold ret. eauto.
  - unfold bind at 1. unfold call at 1. rewrite (Hread n) by (left; reflexivity).
    unfold bind at 1.
    destruct (_contains_financial_keywords (df n)); simpl; unfold bind at 1; simpl;
      match goal with
      | |- context [excel_sheets lib file_path names ?d ?s] =>
          destruct (IH (fun m Hm => Hread m (or_intror Hm)) d s) as (self' & -> & Hm)
      end; eauto.
Qed.

Lemma process_excel_ok file_path df sheet_names self :
  ExcelFile lib file_path = Return sheet_names ->
  (forall n, In n sheet_names -> read_excel lib file_path n = Return (df n)) ->
  let sheets_data := read_sheets df sheet_names [] in
  exists self',
    process_document lib file_path (lit "excel") self
    = (Return (ExcelResult (Dict.keys sheets_data) (length sheets_data)
                 (length (financial_tables self')) sheets_data (document_text self')),
       self')
    /\ financial_metrics self' = _extract_excel_metrics sheets_data.
Proof.
  intros Hnames Hread sheets_data. rewrite process_document_excel.
  unfold _process_excel, try_except. unfold bind at 1. unfold call at 1.
  rewrite Hnames. unfold bind at 1.
  destruct (excel_sheets_ok file_path df sheet_names Hread [] self) as (self1 & -> & _).
  fold sheets_data. simpl.
  exists {| document_text := document_text self1;
            financial_tables := financial_tables self1;
            financial_metrics := _extract_excel_metrics sheets_data |}.
  split; reflexivity.
Qed.

Lemma pdf_pages_ok (texts : list str) :
  forall text_content self,
    pdf_pages (map Return texts) text_content self
    = (Return (text_content ++ texts), self).
Proof.
  induction texts as [|t texts IH]; intros text_content self; simpl.
  - rewrite app_nil_r. reflexivity.
  - unfold bind at 1. simpl. rewrite IH, <- app_assoc. reflexivity.
Qed.

Lemma process_pdf_ok file_path (texts : list str) self :
  PDF_AVAILABLE lib = true ->
  PdfReader lib file_path = Return (map Return texts) ->
  let document_text := Str.join nl texts in
  process_document lib file_path (lit "pdf") self
  = (Return (PdfResult (length texts) (length document_text)
               (if (500 <? length document_text)%nat
                then Str.slice_to 500 document_text ++ lit "..."
                else document_text)
               document_text document_text),
     {| document_text := document_text;
        financial_tables := financial_tables self;
        financial_metrics := _extract_text_metrics document_text |}).
Proof.
  intros Hav Hpages. rewrite process_document_pdf.
  unfold _process_pdf. rewrite Hav. cbn [negb].
  unfold try_except. unfold bind at 1. unfold call at 1. rewrite Hpages.
  unfold bind at 1. rewrite pdf_pages_ok. simpl.
  rewrite length_map. reflexivity.
Qed.

End Metrics.

(** ** Which sheet the sheet metrics name *)

Lemma step_revenue_sheet metrics sheet_name df :
  Dict.get (lit "revenue_sheet") (excel_metrics_step metrics (sheet_name, df))
  = if mentions_revenue (Str.lower (to_string df)) then Some sheet_name
    else Dict.get (lit "revenue_sheet") metrics.
Proof.
  unfold excel_metrics_step, mentions_revenue.
  destruct (_ || _); destruct (_ || _);
    rewrite ?(get_set_ne (lit "profit_sheet") (lit "revenue_sheet")) by discriminate;
    rewrite ?get_set_eq; reflexivity.
Qed.

Lemma step_profit_sheet metrics sheet_name df :
  Dict.get (lit "profit_sheet") (excel_metrics_step metrics (sheet_name, df))
  = if mentions_profit (Str.lower (to_string df)) then Some sheet_name
    else Dict.get (lit "profit_sheet") metrics.
Proof.
  unfold excel_metrics_step, mentions_profit.
  destruct (_ || _); destruct (_ || _);
    rewrite ?get_set_eq;
    rewrite ?(get_set_ne (lit "revenue_sheet") (lit "profit_sheet")) by discriminate;
    reflexivity.
Qed.

(** A key that every iteration sets on a hit, and otherwise leaves alone,
    ends up naming the last sheet that hits. *)
Lemma last_hit_wins key (hit : str -> bool) :
  (forall metrics sheet_name df,
     Dict.get key (excel_metrics_step metrics (sheet_name, df))
     = if hit (Str.lower (to_string df)) then Some sheet_name
       else Dict.get key metrics) ->
  forall before S dfS after metrics,
    hit (Str.lower (to_string dfS)) = true ->
    Forall (fun item => hit (Str.lower (to_string (snd item))) = false) after ->
    Dict.get key (fold_left excel_metrics_step (before ++ (S, dfS) :: after) metrics)
    = Some S.
Proof.
  intros Hstep before S dfS after metrics HS Hafter.
  rewrite fold_left_app. cbn [fold_left].
  set (acc := excel_metrics_step _ (S, dfS)).
  assert (H0 : Dict.get key acc = Some S)
    by (subst acc; rewrite Hstep, HS; reflexivity).
  clearbody acc. revert acc H0.
  induction Hafter as [|[n d] after Hn _ IH]; intros acc Hacc; cbn [fold_left];
    [exact Hacc |].
  apply IH. rewrite Hstep. cbn [snd] in Hn. rewrite Hn. exact Hacc.
Qed.

(** Distinct sheet names are stored in workbook order. *)
Lemma read_sheets_distinct df sheet_names :
  NoDup sheet_names ->
  forall sheets_data,
    (forall n, In n sheet_names -> ~ In n (Dict.keys sheets_data)) ->
    read_sheets df sheet_names sheets_data
    = sheets_data ++ map (fun n => (n, df n)) sheet_names.
Proof.
  intros Hnd. induction Hnd as [|n names Hn Hnd IH]; intros sheets_data Hfresh; simpl.
  - rewrite app_nil_r. reflexivity.
  - rewrite set_fresh by (apply Hfresh; left; reflexivity).
    rewrite IH.
    + rewrite <- app_assoc. reflexivity.
    + intros m Hm. unfold Dict.keys. rewrite map_app, in_app_iff. simpl.
      intros [H | [<- | []]].
      * apply (Hfresh m); [right; assumption | exact H].
      * apply Hn. apply list_elem_of_In. exact Hm.
Qed.

Lemma process_document_never_raises_witness :
  (exists result self',
     process_document sample_library (lit "book.xlsx") (lit "excel") init
     = (Return result, self'))
  /\ fst (process_document sample_library (lit "broken.xlsx") (lit "excel") init)
     = Return (Failure (lit "Excel processing failed: File is not a zip file"))
  /\ fst (process_document sample_library (lit "half.xlsx") (lit "excel") init)
     = Return (Failure (lit "Excel processing failed: Worksheet cannot be parsed"))
  /\ fst (process_document sample_library (lit "broken.pdf") (lit "pdf") init)
     = Return (Failure (lit "PDF processing failed: EOF marker not found"))
  /\ fst (process_document sample_library (lit "half.pdf") (lit "pdf") init)
     = Return (Failure (lit "PDF processing failed: cannot decode page"))
  /\ process_document no_pdf_library (lit "report.pdf") (lit "pdf") init
     = (Return (Failure (lit "PDF processing library not available. Install pypdf.")),
        init).
Proof.
  split; [| split; [| split; [| split; [| split]]]].
  - apply (process_document_never_raises sample_library (lit "book.xlsx") (lit "excel") init).
  - apply (process_document_never_raises sample_library (lit "broken.xlsx") (lit "excel") init).
    reflexivity.
  - apply (proj1 (proj2 (proj2 (process_document_never_raises sample_library
             (lit "half.xlsx") (lit "excel") init)))
             (lit "Worksheet cannot be parsed") [lit "Q1"] (lit "Q2") []).
    + reflexivity.
    + repeat constructor. eexists. reflexivity.
    + reflexivity.
  - apply (process_document_never_raises sample_library (lit "broken.pdf") (lit "pdf") init);
      reflexivity.
  - apply (proj1 (proj2 (proj2 (proj2 (proj2 (process_document_never_raises sample_library
             (lit "half.pdf") (lit "pdf") init)))))
             (lit "cannot decode page") [lit "Revenue: $52,000"] []);
      reflexivity.
  - apply (process_document_never_raises no_pdf_library (lit "report.pdf") (lit "pdf") init).
    reflexivity.
Defined.

(** ** The sheet metrics *)

(** C5 as stated fails: both sheets of the sample workbook contain
    "revenue", and [revenue_sheet] names only the second. *)
Lemma revenue_sheet_not_every_sheet :
  let metrics :=
    financial_metrics
      (snd (process_document sample_library (lit "book.xlsx") (lit "excel") init)) in
  ExcelFile sample_library (lit "book.xlsx") = Return [lit "Q1"; lit "Q2"]
  /\ read_excel sample_library (lit "book.xlsx") (lit "Q1") = Return (sample_sheet (lit "Q1"))
  /\ Str.contains (lit "revenue") (Str.lower (to_string (sample_sheet (lit "Q1")))) = true
  /\ Dict.get (lit "revenue_sheet") metrics = Some (lit "Q2")
  /\ Dict.get (lit "revenue_sheet") metrics <> Some (lit "Q1").
Proof. vm_compute. repeat split. discriminate. Qed.

(** C5, amended: in a workbook with distinct sheet names that pandas
    reads in full, [revenue_sheet] is the last sheet whose lower-cased
    stringified content contains "revenue" or "sales", so it is S for a
    sheet S containing "revenue" when no later sheet contains "revenue" or
    "sales"; and [profit_sheet] is the last sheet whose content contains
    "profit" or "net income". *)
Theorem sheet_metrics_name_last_match lib file_path self df before S after :
  ExcelFile lib file_path = Return (before ++ S :: after) ->
  NoDup (before ++ S :: after) ->
  (forall n, In n (before ++ S :: after) -> read_excel lib file_path n = Return (df n)) ->
  let metrics :=
    financial_metrics (snd (process_document lib file_path (lit "excel") self)) in
  let df_text n := Str.lower (to_string (df n)) in
  (Str.contains (lit "revenue") (df_text S) || Str.contains (lit "sales") (df_text S) = true ->
   (forall n, In n after ->
      Str.contains (lit "revenue") (df_text n) || Str.contains (lit "sales") (df_text n) = false) ->
   Dict.get (lit "revenue_sheet") metrics = Some S)
  /\ (Str.contains (lit "profit") (df_text S) || Str.contains (lit "net income") (df_text S) = true ->
      (forall n, In n after ->
         Str.contains (lit "profit") (df_text n)
         || Str.contains (lit "net income") (df_text n) = false) ->
      Dict.get (lit "profit_sheet") metrics = Some S).
Proof.
  intros Hnames Hnd Hread metrics df_text.
  destruct (process_excel_ok lib file_path df _ self Hnames Hread) as (self' & Hrun & Hm).
  subst metrics. rewrite Hrun. cbn [snd]. rewrite Hm.
  rewrite read_sheets_distinct by (auto; intros n _ []).
  cbn [app]. rewrite map_app. cbn [map]. unfold _extract_excel_metrics.
  split; intros HS Hafter.
  - apply (last_hit_wins _ mentions_revenue step_revenue_sheet); [exact HS |].
    apply Forall_forall. intros [n d] Hin.
    apply list_elem_of_In, in_map_iff in Hin as (m & [= <- <-] & Hin).
    apply Hafter, Hin.
  - apply (last_hit_wins _ mentions_profit step_profit_sheet); [exact HS |].
    apply Forall_forall. intros [n d] Hin.
    apply list_elem_of_In, in_map_iff in Hin as (m & [= <- <-] & Hin).
    apply Hafter, Hin.
Qed.

Lemma sheet_metrics_name_last_match_witness :
  let metrics :=
    financial_metrics
      (snd (process_document sample_library (lit "book.xlsx") (lit "excel") init)) in
  Dict.get (lit "revenue_sheet") metrics = Some (lit "Q2")
  /\ Dict.get (lit "profit_sheet") metrics = Some (lit "Q2").
Proof.
  assert (Hnd : NoDup ([lit "Q1"] ++ lit "Q2" :: [])).
  { apply NoDup_cons_2; [| apply NoDup_cons_2; [| apply NoDup_nil_2]];
      intros H; apply list_elem_of_In in H; simpl in H.
    - destruct H as [H | []]. discriminate H.
    - destruct H. }
  split.
  - apply (sheet_metrics_name_last_match sample_library (lit "book.xlsx") init
             sample_sheet [lit "Q1"] (lit "Q2") []);
      [reflexivity | exact Hnd | intros n _; reflexivity | reflexivity | intros n []].
  - apply (sheet_metrics_name_last_match sample_library (lit "book.xlsx") init
             sample_sheet [lit "Q1"] (lit "Q2") []);
      [reflexivity | exact Hnd | intros n _; reflexivity | reflexivity | intros n []].
Defined.

(** ** The text metrics *)

Lemma first_match_some pattern patterns s :
  In pattern patterns -> is_Some (Re.search pattern s) ->
  is_Some (first_match patterns s).
Proof.
  induction patterns as [|q patterns IH]; simpl; [intros [] |].
  intros [-> | Hin] Hs.
  - destruct Hs as [g ->]. eauto.
  - destruct (Re.search q s); [eauto | apply IH; assumption].
Qed.

Lemma text_metrics_revenue text :
  Dict.get (lit "revenue") (_extract_text_metrics text)
  = first_match revenue_patterns (Str.lower text).
Proof.
  unfold _extract_text_metrics.
  destruct (first_match revenue_patterns _), (first_match profit_patterns _); reflexivity.
Qed.

Lemma text_metrics_profit text :
  Dict.get (lit "profit") (_extract_text_metrics text)
  = first_match profit_patterns (Str.lower text).
Proof.
  unfold _extract_text_metrics.
  destruct (first_match revenue_patterns _), (first_match profit_patterns _); reflexivity.
Qed.

(** C1 as stated fails on the spreadsheet path: the text of the sample
    workbook holds "Revenue: $52,000" and "Profit: $10,000", the regex scan
    would find both, and the metrics have neither key. *)
Lemma spreadsheet_path_has_no_text_metrics :
  let run := process_document sample_library (lit "book.xlsx") (lit "excel") init in
  let text_lower := Str.lower (document_text (snd run)) in
  (exists result, fst run = Return result /\ success result = true)
  /\ first_match revenue_patterns text_lower = Some (lit "52,000")
  /\ first_match profit_patterns text_lower = Some (lit "10,000")
  /\ Dict.get (lit "revenue") (financial_metrics (snd run)) = None
  /\ Dict.get (lit "profit") (financial_metrics (snd run)) = None
  /\ Dict.keys (financial_metrics (snd run)) = [lit "revenue_sheet"; lit "profit_sheet"].
Proof.
  cbv zeta. split; [eexists; split; [vm_compute; reflexivity | reflexivity] |].
  repeat split; vm_compute; reflexivity.
Qed.

(** C1, amended: on the PDF path, once the pages are extracted, the
    regex scan runs over the lower-cased joined text; [revenue] is the
    group of the first of the patterns [revenue], [total revenue], [sales]
    that matches, [profit] that of the first of [net income], [profit];
    so a text in which such a pattern matches (a label, colons or spaces,
    an optional dollar sign, a digit) gets the key.  On the spreadsheet
    path the scan is not run: a fresh processor ends with neither key. *)
Theorem text_metrics_on_pdf_path lib file_path self (texts : list str) :
  PDF_AVAILABLE lib = true ->
  PdfReader lib file_path = Return (map Return texts) ->
  let text_lower := Str.lower (Str.join nl texts) in
  let metrics :=
    financial_metrics (snd (process_document lib file_path (lit "pdf") self)) in
  Dict.get (lit "revenue") metrics =
    match Re.search (Re.labelled "revenue" Re.amount) text_lower with
    | Some g => Some g
    | None =>
        match Re.search (Re.labelled "total revenue" Re.amount) text_lower with
        | Some g => Some g
        | None => Re.search (Re.labelled "sales" Re.amount) text_lower
        end
    end
  /\ Dict.get (lit "profit") metrics =
       match Re.search (Re.labelled "net income" Re.amount) text_lower with
       | Some g => Some g
       | None => Re.search (Re.labelled "profit" Re.amount) text_lower
       end
  /\ (forall pattern, In pattern revenue_patterns -> occurs pattern text_lower ->
        is_Some (Dict.get (lit "revenue") metrics))
  /\ (forall pattern, In pattern profit_patterns -> occurs pattern text_lower ->
        is_Some (Dict.get (lit "profit") metrics))
  /\ (forall word pre seps (with_dollar : bool) d rest,
        seps <> [] -> Forall (fun c => is_colon_or_space c = true) seps ->
        Str.isdecimal d = true ->
        text_lower
        = pre ++ lit word ++ seps ++ (if with_dollar then lit "$" else []) ++ d :: rest ->
        (In word revenue_words -> is_Some (Dict.get (lit "revenue") metrics))
        /\ (In word profit_words -> is_Some (Dict.get (lit "profit") metrics)))
  /\ (forall workbook,
        let sheet_metrics :=
          financial_metrics (snd (process_document lib workbook (lit "excel") init)) in
        Dict.get (lit "revenue") sheet_metrics = None
        /\ Dict.get (lit "profit") sheet_metrics = None).
Proof.
  intros Hav Hpages text_lower metrics.
  subst metrics. rewrite (process_pdf_ok lib file_path texts self Hav Hpages).
  cbn [snd financial_metrics]. fold text_lower.
  rewrite text_metrics_revenue, text_metrics_profit. fold text_lower.
  assert (Hrev : forall pattern, In pattern revenue_patterns -> occurs pattern text_lower ->
                   is_Some (first_match revenue_patterns text_lower)).
  { intros pattern Hin Hocc. apply (first_match_some pattern); [assumption |].
    apply search_occurs, Hocc. }
  assert (Hpro : forall pattern, In pattern profit_patterns -> occurs pattern text_lower ->
                   is_Some (first_match profit_patterns text_lower)).
  { intros pattern Hin Hocc. apply (first_match_some pattern); [assumption |].
    apply search_occurs, Hocc. }
  split; [| split; [| split; [| split; [| split]]]].
  - simpl. destruct (Re.search _ _); [reflexivity |].
    destruct (Re.search _ _); [reflexivity |]. destruct (Re.search _ _); reflexivity.
  - simpl. destruct (Re.search _ _); [reflexivity |].
    destruct (Re.search _ _); reflexivity.
  - exact Hrev.
  - exact Hpro.
  - intros word pre seps with_dollar d rest Hne Hseps Hd Htext.
    assert (Hocc : forall word', word' = word -> occurs (Re.labelled word' Re.amount) text_lower).
    { intros word' ->. exists pre, (lit word ++ seps ++ (if with_dollar then lit "$" else []) ++ d :: rest).
      split; [exact Htext |]. apply labelled_amount_some; assumption. }
    split; intros Hin.
    + simpl in Hin. destruct Hin as [H | [H | [H | []]]];
        apply (Hrev (Re.labelled word Re.amount)); try (apply Hocc; reflexivity);
        subst word; simpl; tauto.
    + simpl in Hin. destruct Hin as [H | [H | []]];
        apply (Hpro (Re.labelled word Re.amount)); try (apply Hocc; reflexivity);
        subst word; simpl; tauto.
  - intros workbook.
    assert (Hk : keys_within [lit "revenue_sheet"; lit "profit_sheet"]
                   (snd (process_document lib workbook (lit "excel") init))).
    { rewrite process_document_excel.
      apply process_excel_keys; [apply incl_refl | intros x []]. }
    split; apply get_none_keys; intros Hin; apply Hk in Hin; simpl in Hin;
      repeat destruct Hin as [Hin | Hin]; try discriminate; contradiction.
Qed.

Lemma text_metrics_on_pdf_path_witness :
  let metrics :=
    financial_metrics
      (snd (process_document sample_library (lit "annual.pdf") (lit "pdf") init)) in
  is_Some (Dict.get (lit "revenue") metrics)
  /\ is_Some (Dict.get (lit "profit") metrics).
Proof.
  pose proof (text_metrics_on_pdf_path sample_library (lit "annual.pdf") init
                [lit "Total Revenue: $52,000"; lit "Net income: $5,200.00"]
                eq_refl eq_refl) as H.
  cbv zeta in H. destruct H as (_ & _ & _ & _ & H & _). split.
  - apply (H "revenue"%string (lit "total ") (lit ": ") true "5"%char
             (lit "2,000" ++ nl ++ lit "net income: $5,200.00"));
      [discriminate | repeat constructor | reflexivity | reflexivity | simpl; tauto].
  - apply (H "net income"%string (lit "total revenue: $52,000" ++ nl) (lit ": ") true
             "5"%char (lit ",200.00"));
      [discriminate | repeat constructor | reflexivity | reflexivity | simpl; tauto].
Defined.

(** ** The vocabulary of the metrics *)

(** C9: whatever the document, the file type and the library do, the keys
    of the metrics after [process_document] lie in the vocabulary
    {revenue, profit, revenue_sheet, profit_sheet}: for a new processor, and
    for any processor whose keys were in the vocabulary before.  A document
    that pandas or pypdf reads in full is processed with success and gets
    exactly the metrics its text yields, be they all, some or none. *)
Theorem metrics_keys_in_vocabulary lib file_path file_type :
  incl (Dict.keys (financial_metrics
          (snd (process_document lib file_path file_type init)))) vocabulary
  /\ (forall self,
        incl (Dict.keys (financial_metrics self)) vocabulary ->
        incl (Dict.keys (financial_metrics
                (snd (process_document lib file_path file_type self)))) vocabulary)
  /\ (forall self (texts : list str),
        PDF_AVAILABLE lib = true ->
        PdfReader lib file_path = Return (map Return texts) ->
        exists result self',
          process_document lib file_path (lit "pdf") self = (Return result, self')
          /\ success result = true
          /\ financial_metrics self' = _extract_text_metrics (Str.join nl texts))
  /\ (forall self df sheet_names,
        ExcelFile lib file_path = Return sheet_names ->
        (forall n, In n sheet_names -> read_excel lib file_path n = Return (df n)) ->
        exists result self',
          process_document lib file_path (lit "excel") self = (Return result, self')
          /\ success result = true
          /\ financial_metrics self'
             = _extract_excel_metrics (read_sheets df sheet_names [])).
Proof.
  assert (Hkeep : forall self,
            incl (Dict.keys (financial_metrics self)) vocabulary ->
            incl (Dict.keys (financial_metrics
                    (snd (process_document lib file_path file_type self)))) vocabulary).
  { intros self Hself.
    apply (process_document_keys lib vocabulary file_path file_type);
      [| | exact Hself]; intros x Hx; simpl in *; tauto. }
  split; [| split; [| split]].
  - apply Hkeep. intros x [].
  - exact Hkeep.
  - intros self texts Hav Hpages.
    rewrite (process_pdf_ok lib file_path texts self Hav Hpages).
    eexists _, _. split; [reflexivity | split; reflexivity].
  - intros self df sheet_names Hnames Hread.
    destruct (process_excel_ok lib file_path df sheet_names self Hnames Hread)
      as (self' & Hrun & Hm).
    rewrite Hrun. eexists _, _. split; [reflexivity | split; [reflexivity | exact Hm]].
Qed.

Lemma metrics_keys_in_vocabulary_witness :
  incl (Dict.keys (financial_metrics
          (snd (process_document sample_library (lit "book.xlsx") (lit "excel") init))))
       vocabulary
  /\ (exists result self',
        process_document sample_library (lit "letter.pdf") (lit "pdf") init
        = (Return result, self')
        /\ success result = true
        /\ financial_metrics self'
           = _extract_text_metrics
               (Str.join nl [lit "Dear shareholders,"; lit "thank you."]))
  /\ (exists result self',
        process_document sample_library (lit "book.xlsx") (lit "excel") init
        = (Return result, self')
        /\ success result = true
        /\ financial_metrics self'
           = _extract_excel_metrics (read_sheets sample_sheet [lit "Q1"; lit "Q2"] [])).
Proof.
  split; [| split].
  - apply (proj1 (proj2 (metrics_keys_in_vocabulary sample_library (lit "book.xlsx")
             (lit "excel"))) init).
    intros x [].
  - apply (proj1 (proj2 (proj2 (metrics_keys_in_vocabulary sample_library (lit "letter.pdf")
             (lit "pdf")))) init [lit "Dear shareholders,"; lit "thank you."]);
      reflexivity.
  - apply (proj2 (proj2 (proj2 (metrics_keys_in_vocabulary sample_library (lit "book.xlsx")
             (lit "excel")))) init sample_sheet [lit "Q1"; lit "Q2"]);
      [reflexivity | intros n _; reflexivity].
Defined.

(** The letter has no figure: its metrics are empty, and it is processed
    with success all the same. *)
Example letter_has_no_metrics :
  _extract_text_metrics (Str.join nl [lit "Dear shareholders,"; lit "thank you."]) = []
  /\ option_map success
       (match fst (process_document sample_library (lit "letter.pdf") (lit "pdf") init) with
        | Return r => Some r
        | Raise _ => None
        end) = Some true.
Proof. split; vm_compute; reflexivity. Qed.

End DocumentProcessorFacts.

(* ===================================================================== *)
(** * The fallback strategy *)
(* ===================================================================== *)
Module SimpleQAFacts.
Import simple_qa StrFacts ReFacts Spec.

Lemma find_profit_info_eq self :
  _find_profit_info self =
    match Re.search (Re.labelled "profit" Re.digits_commas) (document_text self) with
    | Some g => lit "💵 Found profit: $" ++ g
    | None =>
        match Re.search (Re.labelled "net income" Re.digits_commas) (document_text self) with
        | Some g => lit "💵 Found profit: $" ++ g
        | None => lit "❓ No specific profit information found."
        end
    end.
Proof.
  unfold _find_profit_info. simpl.
  destruct (Re.search _ _); [reflexivity |]. destruct (Re.search _ _); reflexivity.
Qed.

(** C6 as stated fails twice over: a question that also mentions revenue
    goes to the revenue handler, and an earlier match of the profit
    pattern is the one reported. *)
Lemma fallback_profit_not_always_found :
  (let question := lit "profit compared to revenue" in
   let document_text := lit "profit: $10,000" in
   Str.contains (lit "profit") question = true
   /\ Str.contains (lit "profit: $10,000") document_text = true
   /\ answer_question (init document_text) question
      = lit "❓ No specific revenue information found."
   /\ Str.contains (lit "10,000") (answer_question (init document_text) question) = false)
  /\ (let question := lit "what is the profit" in
      let document_text := lit "profit: 7 (last year's profit: $10,000)" in
      Str.contains (lit "profit") question = true
      /\ Str.contains (lit "profit: $10,000") document_text = true
      /\ answer_question (init document_text) question = lit "💵 Found profit: $7"
      /\ Str.contains (lit "10,000") (answer_question (init document_text) question) = false).
Proof. vm_compute. repeat split. Qed.

(** C6, amended: for a question that contains "profit" and, lower-cased,
    none of "revenue", "sales", "income", and a document text that
    contains "profit: $10,000" with no match of the profit pattern
    starting before it in the lower-cased text (the leftmost match of the
    pattern is the one at that place), the fallback answer is the profit
    template with the digits and commas that start at "10,000", so it
    contains "10,000".  The dispatcher looks at the revenue words first and
    then at the profit words, and the profit handler reports the group of
    the first of its patterns that matches, at its leftmost match. *)
Theorem fallback_profit_answer (question document_text pre post : str) :
  Str.contains (lit "profit") question = true ->
  Str.any_in (map lit ["revenue"; "sales"; "income"]%string) (Str.lower question) = false ->
  document_text = pre ++ lit "profit: $10,000" ++ post ->
  Spec.search_start (Re.labelled "profit" Re.digits_commas) (Str.lower document_text)
  = Some (length pre) ->
  (answer_question (init document_text) question
   = lit "💵 Found profit: $" ++ lit "10,000"
       ++ fst (span is_digit_or_comma (Str.lower post))
   /\ Str.contains (lit "10,000") (answer_question (init document_text) question) = true)
  /\ (forall q doc,
        Str.any_in (map lit ["revenue"; "sales"; "income"]%string) (Str.lower q) = true ->
        answer_question (init doc) q = _find_revenue_info (init doc))
  /\ (forall q doc,
        Str.any_in (map lit ["revenue"; "sales"; "income"]%string) (Str.lower q) = false ->
        Str.any_in (map lit ["profit"; "net income"]%string) (Str.lower q) = true ->
        answer_question (init doc) q =
          match Re.search (Re.labelled "profit" Re.digits_commas) (Str.lower doc) with
          | Some g => lit "💵 Found profit: $" ++ g
          | None =>
              match Re.search (Re.labelled "net income" Re.digits_commas) (Str.lower doc) with
              | Some g => lit "💵 Found profit: $" ++ g
              | None => lit "❓ No specific profit information found."
              end
          end).
Proof.
  intros Hq Hrev Hdoc Hfind.
  assert (Hdispatch : forall q doc,
    Str.any_in (map lit ["revenue"; "sales"; "income"]%string) (Str.lower q) = false ->
    Str.any_in (map lit ["profit"; "net income"]%string) (Str.lower q) = true ->
    answer_question (init doc) q = _find_profit_info (init doc)).
  { intros q doc H1 H2. unfold answer_question. rewrite H1, H2. reflexivity. }
  split; [| split].
  - assert (Hans : answer_question (init document_text) question
                   = lit "💵 Found profit: $" ++ lit "10,000"
                       ++ fst (span is_digit_or_comma (Str.lower post))).
    { rewrite Hdispatch; [| exact Hrev |].
      2:{ apply contains_lower in Hq. change (Str.lower (lit "profit")) with (lit "profit") in Hq.
          unfold Str.any_in. cbn [map existsb]. rewrite Hq. reflexivity. }
      rewrite find_profit_info_eq. cbn [init simple_qa.document_text].
      subst document_text. rewrite !lower_app in *.
      change (Str.lower (lit "profit: $10,000")) with (lit "profit: $10,000") in *.
      rewrite search_leftmost.
      - change (lit "profit: $10,000" ++ Str.lower post)
          with (lit "profit" ++ lit ": $" ++ "1"%char :: lit "0,000" ++ Str.lower post).
        rewrite labelled_digits_commas_at by reflexivity.
        cbn [span lit list_ascii_of_string app]. 
        change (is_digit_or_comma "1") with true.
        change (is_digit_or_comma "0") with true.
        change (is_digit_or_comma ",") with true. cbv iota.
        destruct (span is_digit_or_comma (Str.lower post)). reflexivity.
      - assert (Hf : Spec.search_start (Re.labelled "profit" Re.digits_commas)
                       (Str.lower pre ++ lit "profit: $10,000" ++ Str.lower post)
                     = Some (length (Str.lower pre)))
          by (unfold Str.lower at 3; rewrite length_map; exact Hfind).
        exact (search_start_first _ _ _ Hf). }
    split; [exact Hans |]. rewrite Hans. apply contains_app.
  - intros q doc H1. unfold answer_question. rewrite H1. reflexivity.
  - intros q doc H1 H2. rewrite Hdispatch by assumption. apply find_profit_info_eq.
Qed.

Lemma fallback_profit_answer_witness :
  answer_question (init (lit "Profit and Loss. Net profit: $10,000,- this year"))
    (lit "What is the profit?")
  = lit "💵 Found profit: $10,000,"
  /\ Str.contains (lit "10,000")
       (answer_question (init (lit "Profit and Loss. Net profit: $10,000,- this year"))
          (lit "What is the profit?")) = true.
Proof.
  apply (fallback_profit_answer (lit "What is the profit?")
           (lit "Profit and Loss. Net profit: $10,000,- this year")
           (lit "Profit and Loss. Net ") (lit ",- this year"));
    reflexivity.
Defined.

End SimpleQAFacts.

(* ===================================================================== *)
(** * The model-backed strategy *)
(* ===================================================================== *)
Module AIQAFacts.
Import ai_qa StrFacts Spec Samples.

(** The override answers pass the cleaning unchanged. *)
Lemma clean_revenue_answer : _clean_response REVENUE_ANSWER = REVENUE_ANSWER.
Proof. vm_compute. reflexivity. Qed.

Lemma clean_gross_profit_answer : _clean_response GROSS_PROFIT_ANSWER = GROSS_PROFIT_ANSWER.
Proof. vm_compute. reflexivity. Qed.

Lemma clean_net_profit_answer : _clean_response NET_PROFIT_ANSWER = NET_PROFIT_ANSWER.
Proof. vm_compute. reflexivity. Qed.

Lemma clean_advertising_answer : _clean_response ADVERTISING_ANSWER = ADVERTISING_ANSWER.
Proof. vm_compute. reflexivity. Qed.

Section WithModel.

Variable ollama_chat : str -> str -> outcome str.

(** An override other than the signal is cleaned, recorded and
    returned, and the model is not called. *)
Lemma answer_question_override self question document_context answer :
  _emergency_override question document_context = answer ->
  Str.eqt answer CONTINUE_WITH_AI = false ->
  _clean_response answer = answer ->
  answer_question ollama_chat self question document_context
  = {| returned := answer;
       after := remember self question answer;
       sent := [] |}.
Proof.
  intros Hov Hne Hclean. unfold answer_question.
  rewrite Hov, Hne, Hclean. reflexivity.
Qed.

(** C2: a question that contains "revenue" or "sales" and a context that
    contains "joe", both case-insensitively, get exactly the literal
    revenue answer; no prompt is sent to the model, whatever the model
    is, and the answer is recorded in the conversation history. *)
Theorem revenue_override_answer self question document_context :
  Str.contains (lit "revenue") (Str.lower question)
  || Str.contains (lit "sales") (Str.lower question) = true ->
  Str.contains (lit "joe") (Str.lower document_context) = true ->
  let ran := answer_question ollama_chat self question document_context in
  returned ran
  = lit "The total sales revenue is $52,000 based on 1,000 tyres sold at $52 each."
  /\ sent ran = []
  /\ conversation_history (after ran)
     = conversation_history self
         ++ [(question,
              lit "The total sales revenue is $52,000 based on 1,000 tyres sold at $52 each.")].
Proof.
  intros Hq Hctx ran. subst ran.
  rewrite (answer_question_override self question document_context REVENUE_ANSWER).
  - repeat split.
  - unfold _emergency_override. rewrite Hq, Hctx. reflexivity.
  - reflexivity.
  - apply clean_revenue_answer.
Qed.

(** C10, amended: when the revenue override does not apply (the question
    has neither "revenue" nor "sales", or the context has no "joe"), a
    question with "profit" and "gross" gets the literal gross-profit
    answer, one with "profit" and "net" but not "gross" the literal
    net-profit answer, and one with "advertising" that is not such a
    profit question the literal advertising answer, each without a call
    of the model; so for a question with neither "revenue" nor "sales"
    these answers are the same for every document context. *)
Theorem profit_override_answers self question document_context :
  revenue_override question document_context = false ->
  let ran := answer_question ollama_chat self question document_context in
  (asks "profit" question = true -> asks "gross" question = true ->
     returned ran = lit "The gross profit is $20,800." /\ sent ran = [])
  /\ (asks "profit" question = true -> asks "net" question = true ->
      asks "gross" question = false ->
        returned ran = lit "The net profit is $5,200." /\ sent ran = [])
  /\ (asks "advertising" question = true ->
      asks "profit" question && (asks "gross" question || asks "net" question) = false ->
        returned ran = lit "The advertising expense is $500." /\ sent ran = [])
  /\ (asks "revenue" question || asks "sales" question = false ->
      forall other_context,
        _emergency_override question other_context
        = _emergency_override question document_context).
Proof.
  intros Hrev ran. subst ran. unfold revenue_override in Hrev. unfold asks.
  split; [| split; [| split]].
  - intros Hp Hg.
    rewrite (answer_question_override self question document_context GROSS_PROFIT_ANSWER).
    + split; reflexivity.
    + unfold _emergency_override. rewrite Hrev, Hp, Hg. reflexivity.
    + reflexivity.
    + apply clean_gross_profit_answer.
  - intros Hp Hn Hg.
    rewrite (answer_question_override self question document_context NET_PROFIT_ANSWER).
    + split; reflexivity.
    + unfold _emergency_override. rewrite Hrev, Hp, Hn, Hg. reflexivity.
    + reflexivity.
    + apply clean_net_profit_answer.
  - intros Ha Hnot.
    rewrite (answer_question_override self question document_context ADVERTISING_ANSWER).
    + split; reflexivity.
    + unfold _emergency_override. rewrite Hrev, Ha.
      destruct (Str.contains (lit "profit") _); simpl in *; [| reflexivity].
      apply orb_false_elim in Hnot as [-> ->]. reflexivity.
    + reflexivity.
    + apply clean_advertising_answer.
  - intros Hno other_context. unfold _emergency_override. rewrite Hno. reflexivity.
Qed.

End WithModel.

Lemma revenue_override_answer_witness :
  let ran := answer_question model_parrot (init default_model)
               (lit "What were the SALES?") (lit "Joe's Motorbike Tyres") in
  returned ran
  = lit "The total sales revenue is $52,000 based on 1,000 tyres sold at $52 each."
  /\ sent ran = []
  /\ conversation_history (after ran)
     = [(lit "What were the SALES?",
         lit "The total sales revenue is $52,000 based on 1,000 tyres sold at $52 each.")].
Proof.
  apply (revenue_override_answer model_parrot (init default_model)
           (lit "What were the SALES?") (lit "Joe's Motorbike Tyres"));
    reflexivity.
Defined.

(** C10 as stated fails: a gross-profit question that also mentions sales,
    asked about a document that mentions Joe, gets the revenue answer; the
    same question about another document gets the gross-profit answer, so
    the answer depends on the document. *)
Lemma gross_profit_question_revenue_answer :
  let question := lit "What gross profit do the sales give?" in
  Str.contains (lit "profit") (Str.lower question) = true
  /\ Str.contains (lit "gross") (Str.lower question) = true
  /\ returned (answer_question model_down (init default_model) question
                 (lit "Joe's Motorbike Tyres"))
     = lit "The total sales revenue is $52,000 based on 1,000 tyres sold at $52 each."
  /\ returned (answer_question model_down (init default_model) question
                 (lit "Joe's Motorbike Tyres"))
     <> lit "The gross profit is $20,800."
  /\ returned (answer_question model_down (init default_model) question
                 (lit "Acme Ltd"))
     = lit "The gross profit is $20,800.".
Proof. vm_compute. repeat split. discriminate. Qed.

Lemma profit_override_answers_witness :
  (let ran := answer_question model_down (init default_model)
                (lit "What is the Gross Profit?") [] in
   returned ran = lit "The gross profit is $20,800." /\ sent ran = [])
  /\ (let ran := answer_question model_down (init default_model)
                   (lit "And the net profit?") (lit "Joe's Motorbike Tyres") in
      returned ran = lit "The net profit is $5,200." /\ sent ran = [])
  /\ (let ran := answer_question model_down (init default_model)
                   (lit "How much went to advertising?") (lit "no figures here") in
      returned ran = lit "The advertising expense is $500." /\ sent ran = []).
Proof.
  split; [| split].
  - apply (profit_override_answers model_down (init default_model)
             (lit "What is the Gross Profit?") []); reflexivity.
  - apply (proj1 (proj2 (profit_override_answers model_down (init default_model)
             (lit "And the net profit?") (lit "Joe's Motorbike Tyres") eq_refl)));
      reflexivity.
  - apply (proj1 (proj2 (proj2 (profit_override_answers model_down (init default_model)
             (lit "How much went to advertising?") (lit "no figures here") eq_refl))));
      reflexivity.
Defined.

(** Without an override the model is asked once, with the prompt built
    from the question and the context. *)
Example model_is_asked_otherwise :
  let ran := answer_question model_parrot (init default_model)
               (lit "What about revenue?") (lit "Acme Ltd") in
  sent ran = [_create_financial_prompt (lit "What about revenue?") (lit "Acme Ltd")]
  /\ Str.startswith (lit "⚠️ VALIDATION WARNING") (returned ran) = true.
Proof. vm_compute. split; reflexivity. Qed.

End AIQAFacts.

(* ===================================================================== *)
(** * The session *)
(* ===================================================================== *)
Module AppFacts.
Import app Samples.

(** C8: pressing "Clear Chat History" on the chat page empties the chat
    log and the conversation history of the model object (the button is
    there whenever a document is loaded and the log is not empty), and
    leaves the processed data and the processor with its document text,
    financial tables and metrics as they were. *)
Theorem clear_chat_history_frame ollama_chat user_question st :
  let st' := handle_ai_qa_chat ollama_chat user_question ClearChatHistory st in
  (processed_data st <> None -> chat_history st <> [] ->
     chat_history st' = []
     /\ ai_qa.conversation_history (ai_qa st') = [])
  /\ processed_data st' = processed_data st
  /\ document_processor st' = document_processor st
  /\ document_processor.document_text (document_processor st')
     = document_processor.document_text (document_processor st)
  /\ document_processor.financial_tables (document_processor st')
     = document_processor.financial_tables (document_processor st)
  /\ document_processor.financial_metrics (document_processor st')
     = document_processor.financial_metrics (document_processor st)
  /\ ai_qa.model_name (ai_qa st') = ai_qa.model_name (ai_qa st).
Proof.
  intros st'. subst st'. unfold handle_ai_qa_chat.
  destruct (processed_data st) as [result |] eqn:Hdata.
  - cbv zeta. destruct (chat_history st) as [|turn turns] eqn:Hlog.
    + rewrite Hdata. split; [intros _ Hne; contradiction | tauto].
    + cbn. split; [tauto |]. rewrite Hdata. tauto.
  - rewrite Hdata. split; [intros Hne; contradiction | tauto].
Qed.

Lemma clear_chat_history_frame_witness :
  let st' := handle_ai_qa_chat model_down [] ClearChatHistory sample_session in
  chat_history st' = []
  /\ ai_qa.conversation_history (ai_qa st') = [].
Proof.
  apply (clear_chat_history_frame model_down [] sample_session);
    vm_compute; discriminate.
Defined.

Example sample_session_log :
  map answer (chat_history sample_session) = [lit "💵 Found profit: $10,000"]
  /\ Dict.get (lit "profit_sheet")
       (document_processor.financial_metrics (document_processor sample_session))
     = Some (lit "Q2").
Proof. vm_compute. split; reflexivity. Qed.

End AppFacts.


(* ===================================================================== *)
(** * What a match consumed *)
(* ===================================================================== *)
Module MatcherFacts.
Import Re StrFacts Spec Behaviour.

(** A repetition that succeeds ran its body some number of times within
    its bounds and then the continuation. *)
Lemma rep_sound (L : str -> Prop) body :
  (forall s k x, body s k = Some x ->
     exists w s', s = w ++ s' /\ L w /\ k s' = Some x) ->
  forall n lo s k x,
    rep body n lo s k = Some x ->
    exists ws s', s = concat ws ++ s' /\ List.Forall L ws
      /\ lo <= length ws /\ length ws <= n /\ k s' = Some x.
Proof.
  intros Hbody. induction n as [|n IH]; intros lo s k x H.
  - simpl in H. destruct (Nat.eqb_spec lo 0) as [-> |]; [| discriminate].
    exists [], s. repeat split; auto.
  - rewrite ReFacts.rep_S in H.
    destruct (body s _) as [y|] eqn:E.
    + injection H as ->.
      apply Hbody in E as (w & s1 & -> & Hw & Hrep).
      apply IH in Hrep as (ws & s' & -> & Hws & Hlo & Hn & Hk).
      exists (w :: ws), s'. simpl. rewrite <- app_assoc.
      repeat split; auto; lia.
    + destruct (Nat.eqb_spec lo 0) as [-> |]; [| discriminate].
      exists [], s. repeat split; auto. simpl. lia.
Qed.

(** Soundness of the matcher: a successful run consumed a word of the
    pattern and handed the rest to the continuation. *)
Lemma run_sound r :
  forall s k x, run r s k = Some x ->
    exists w s', s = w ++ s' /\ lang r w /\ k s' = Some x.
Proof.
  induction r as [u | p | r1 IH1 r2 IH2 | lo hi r IH]; intros s k x H; simpl in H.
  - destruct (Str.startswith u s) eqn:E; [| discriminate].
    apply startswith_true in E as (t & ->).
    rewrite skipn_app, skipn_all, Nat.sub_diag in H. simpl in H.
    exists u, t. repeat split; auto.
  - destruct s as [|c s]; [discriminate |].
    destruct (p c) eqn:Hc; [| discriminate].
    exists [c], s. split; [reflexivity | split; [exists c; auto | exact H]].
  - apply IH1 in H as (a & s1 & -> & Ha & H).
    apply IH2 in H as (b & s2 & -> & Hb & H).
    exists (a ++ b), s2. rewrite <- app_assoc. repeat split; auto.
    exists a, b. auto.
  - apply (rep_sound (lang r)) in H as (ws & s' & -> & Hws & Hlo & Hn & Hk);
      [| exact IH].
    exists (concat ws), s'. repeat split; auto.
    exists ws. repeat split; auto.
    destruct hi as [h|]; [exact Hn | exact I].
Qed.

(** A match gives back as [group(1)] the word the group consumed, right
    after a word of what precedes the group. *)
Lemma match_at_sound p s g :
  match_at p s = Some g ->
  exists w1 s', s = w1 ++ g ++ s' /\ lang (before p) w1 /\ lang (group1 p) g.
Proof.
  unfold match_at. intros H.
  apply run_sound in H as (w1 & s1 & -> & Hw1 & H).
  apply run_sound in H as (w2 & s2 & -> & Hw2 & H).
  injection H as <-.
  rewrite length_app, Nat.add_sub, firstn_app, Nat.sub_diag, firstn_all.
  simpl. rewrite app_nil_r.
  exists w1, s2. auto.
Qed.

Lemma search_sound p s g :
  search p s = Some g ->
  exists pre w1 post,
    s = pre ++ w1 ++ g ++ post /\ lang (before p) w1 /\ lang (group1 p) g.
Proof.
  induction s as [|c s IH]; simpl; intros H.
  - destruct (match_at p []) eqn:E; [| discriminate]. injection H as ->.
    apply match_at_sound in E as (w1 & s' & E & H1 & H2).
    exists [], w1, s'. auto.
  - destruct (match_at p (c :: s)) eqn:E.
    + injection H as ->. apply match_at_sound in E as (w1 & s' & E & H1 & H2).
      exists [], w1, s'. auto.
    + apply IH in H as (pre & w1 & post & -> & H1 & H2).
      exists (c :: pre), w1, post. auto.
Qed.

(** The characters of a word of a pattern are in every class that holds
    the pattern's classes. *)
Lemma lang_classes P r :
  classes_within P r -> forall w, lang r w -> forallb P w = true.
Proof.
  induction r as [u | p | r1 IH1 r2 IH2 | lo hi r IH]; simpl; intros Hc w Hw.
  - subst. exact Hc.
  - destruct Hw as (c & -> & Hp). simpl. rewrite (Hc c Hp). reflexivity.
  - destruct Hc as [Hc1 Hc2]. destruct Hw as (a & b & -> & Ha & Hb).
    rewrite forallb_app, (IH1 Hc1 a Ha), (IH2 Hc2 b Hb). reflexivity.
  - destruct Hw as (ws & -> & Hws & _).
    induction Hws as [|v ws Hv _ IHws]; simpl; [reflexivity |].
    rewrite forallb_app, (IH Hc v Hv), IHws. reflexivity.
Qed.

(** A word of a repeated class: its characters are in the class and its
    length within the bounds. *)
Lemma lang_rep_chr lo hi p w :
  lang (Rep lo hi (Chr p)) w ->
  forallb p w = true /\ lo <= length w
  /\ match hi with Some h => length w <= h | None => True end.
Proof.
  simpl. intros (ws & -> & Hws & Hlo & Hhi).
  assert (H : forallb p (concat ws) = true /\ length (concat ws) = length ws).
  { clear Hlo Hhi. induction Hws as [|v ws (c & -> & Hc) _ [IH1 IH2]]; simpl; [auto |].
    rewrite Hc, IH1, IH2. auto. }
  destruct H as [H1 H2]. rewrite H2. auto.
Qed.

(** What stands before the group of a labelled pattern: the label, one or
    more colons or spaces, and at most one dollar sign. *)
Lemma lang_before_labelled word group w :
  lang (before (labelled word group)) w ->
  exists seps (with_dollar : bool),
    w = lit word ++ seps ++ (if with_dollar then lit "$" else [])
    /\ seps <> []
    /\ forallb is_colon_or_space seps = true.
Proof.
  simpl before. intros (a & b & -> & Ha & c & d & -> & Hc & Hd).
  simpl in Ha. subst a.
  apply lang_rep_chr in Hc as (Hc & Hlen & _).
  apply lang_rep_chr in Hd as (Hd & _ & Hmax).
  exists c. destruct d as [|x [|y d]]; simpl in Hmax; [| | lia].
  - exists false. repeat split; auto. intros ->. simpl in Hlen. lia.
  - exists true. cbn [forallb] in Hd. rewrite andb_true_r in Hd.
    apply eqc_true in Hd. subst x.
    repeat split; auto. intros ->. simpl in Hlen. lia.
Qed.

(** A word of the amount pattern begins with a digit and holds only
    digits, commas and points. *)
Lemma lang_amount w : lang amount w -> amount_shaped w = true.
Proof.
  intros H.
  assert (Hall : forallb is_amount_char w = true).
  { revert H. apply lang_classes. unfold amount, digit, star, opt, one.
    cbn [classes_within]. unfold is_amount_char.
    repeat split; intros c Hc; rewrite ?Hc; try reflexivity;
      apply eqc_true in Hc; subst c; reflexivity. }
  unfold amount in H. destruct H as (a & b & -> & Ha & _).
  apply lang_rep_chr in Ha as (Ha & Hlen & _).
  destruct a as [|d a]; [simpl in Hlen; lia |].
  simpl in *. apply andb_true_iff in Ha as [-> _].
  apply andb_true_iff in Hall as [_ ->]. reflexivity.
Qed.

(** A word of [[\d,]+] is a non-empty text of digits and commas. *)
Lemma lang_digits_commas w : lang digits_commas w -> digits_commas_shaped w = true.
Proof.
  intros H. apply lang_rep_chr in H as (H & Hlen & _).
  destruct w; [simpl in Hlen; lia | exact H].
Qed.

Lemma run_cat r1 r2 s k : run (Cat r1 r2) s k = run r1 s (fun s' => run r2 s' k).
Proof. reflexivity. Qed.

Lemma rep_O body s k : rep body 0 0 s k = k s.
Proof. reflexivity. Qed.

(** ** Greedy matching of a number as it is written *)

Lemma run_chr_outside p s k : starts_in p s = false -> run (Chr p) s k = None.
Proof.
  destruct s as [|c s]; [reflexivity |]. cbn [starts_in]. intros H.
  rewrite ReFacts.run_chr_cons, H. reflexivity.
Qed.

Lemma rep_chr_consumes p w : forall n lo rest k,
  forallb p w = true -> length w <= n -> lo <= length w ->
  length w = n \/ starts_in p rest = false ->
  is_Some (k rest) ->
  rep (run (Chr p)) n lo (w ++ rest) k = k rest.
Proof.
  induction w as [|c w IH]; intros n lo rest k Hw Hn Hlo Hstop [x Hx].
  - cbn [length] in *. assert (lo = 0) as -> by lia. cbn [app].
    destruct n as [|n]; [reflexivity |].
    destruct Hstop as [Hstop | Hstop]; [discriminate |].
    rewrite ReFacts.rep_S, run_chr_outside by exact Hstop. reflexivity.
  - cbn [forallb] in Hw. apply andb_true_iff in Hw as [Hc Hw]. cbn [length] in *.
    destruct n as [|n]; [lia |].
    change ((c :: w) ++ rest) with (c :: w ++ rest).
    rewrite ReFacts.rep_S, ReFacts.run_chr_cons, Hc.
    rewrite IH; [rewrite Hx; reflexivity | exact Hw | lia | lia | | eauto].
    destruct Hstop as [Hstop | Hstop]; [left; lia | right; exact Hstop].
Qed.

Lemma thousands_greedy groups : forall n post k,
  forallb is_group groups = true -> length groups <= n ->
  starts_in (Str.eqc ","%char) post = false ->
  is_Some (k post) ->
  rep (run (Cat (one ","%char) (Rep 3 (Some 3) digit))) n 0 (thousands groups ++ post) k
  = k post.
Proof.
  induction groups as [|g groups IH]; intros n post k Hg Hn Hstop [x Hx].
  - cbn [thousands map concat app].
    destruct n as [|n]; [reflexivity |].
    rewrite ReFacts.rep_S, run_cat. unfold one. rewrite run_chr_outside by exact Hstop.
    reflexivity.
  - cbn [forallb] in Hg. apply andb_true_iff in Hg as [Hg Hgs].
    apply andb_true_iff in Hg as [Hlen Hdig]. apply Nat.eqb_eq in Hlen.
    cbn [length] in Hn. destruct n as [|n]; [lia |].
    change (thousands (g :: groups)) with ((","%char :: g) ++ thousands groups).
    rewrite <- app_assoc. change ((","%char :: g) ++ thousands groups ++ post)
      with (","%char :: g ++ thousands groups ++ post).
    rewrite ReFacts.rep_S, run_cat. unfold one at 1. rewrite ReFacts.run_chr_cons.
    change (Str.eqc "," ",") with true. cbv iota.
    rewrite ReFacts.run_rep. cbn [bound]. unfold digit.
    cbn [pred].
    rewrite (rep_chr_consumes Str.isdecimal g 3 3); [| exact Hdig | lia | lia | left; exact Hlen |].
    + rewrite IH; [rewrite Hx; reflexivity | exact Hgs | lia | exact Hstop | eauto].
    + rewrite IH; [eauto | exact Hgs | lia | exact Hstop | eauto].
Qed.

Lemma thousands_starts groups : starts_in Str.isdecimal (thousands groups) = false.
Proof. destruct groups; reflexivity. Qed.

Lemma starts_in_app p a b :
  starts_in p (a ++ b) = match a with [] => starts_in p b | _ :: _ => starts_in p a end.
Proof. destruct a; reflexivity. Qed.

Lemma length_thousands groups : length groups <= length (thousands groups).
Proof.
  induction groups as [|g groups IH]; [reflexivity |].
  change (thousands (g :: groups)) with ((","%char :: g) ++ thousands groups).
  rewrite length_app. cbn [length]. lia.
Qed.

Lemma amount_greedy ds groups post k :
  is_leading ds = true -> forallb is_group groups = true ->
  number_stops ds groups post = true ->
  is_Some (k post) ->
  run amount (ds ++ thousands groups ++ post) k = k post.
Proof.
  intros Hds Hg Hstop [x Hx]. unfold is_leading in Hds.
  apply andb_true_iff in Hds as [Hds Hdig]. apply andb_true_iff in Hds as [H1 H3].
  apply Nat.leb_le in H1, H3.
  unfold number_stops in Hstop. apply andb_true_iff in Hstop as [Hend Hstop].
  assert (Hcomma : starts_in (Str.eqc ","%char) post = false
                   /\ starts_in (Str.eqc "."%char) post = false).
  { destruct post as [|c post]; [split; reflexivity |].
    cbn [number_ends_before] in Hend. cbn [starts_in].
    apply negb_true_iff, orb_false_elim in Hend as [Ha Hb].
    unfold Str.eqc in *. rewrite (Ascii.eqb_sym "," c), (Ascii.eqb_sym "." c). auto. }
  destruct Hcomma as [Hcomma Hpoint].
  assert (Htail : run (Cat (star (Cat (one ","%char) (Rep 3 (Some 3) digit)))
                        (opt (Cat (one "."%char) (Rep 2 (Some 2) digit))))
                    (thousands groups ++ post) k = k post).
  { rewrite run_cat. unfold star. rewrite ReFacts.run_rep. cbn [bound].
    assert (Hopt : run (opt (Cat (one "."%char) (Rep 2 (Some 2) digit))) post k = k post).
    { unfold opt. rewrite ReFacts.run_rep. cbn [bound]. rewrite ReFacts.rep_S, run_cat.
      unfold one. rewrite run_chr_outside by exact Hpoint. reflexivity. }
    rewrite thousands_greedy; [exact Hopt | exact Hg | | exact Hcomma | rewrite Hopt; eauto].
    rewrite length_app. pose proof (length_thousands groups). lia. }
  unfold amount. rewrite run_cat, ReFacts.run_rep. cbn [bound]. unfold digit at 1.
  rewrite rep_chr_consumes; [exact Htail | exact Hdig | lia | lia | | rewrite Htail; eauto].
  destruct groups as [|g groups].
  - apply orb_true_iff in Hstop as [Hstop | Hstop].
    + left. apply Nat.eqb_eq, Hstop.
    + right. cbn [thousands map concat app]. apply negb_true_iff, Hstop.
  - right. reflexivity.
Qed.

Lemma digit_is_no_separator c :
  Str.isdecimal c = true -> is_colon_or_space c = false /\ Str.eqc "$"%char c = false.
Proof.
  destruct c as [[] [] [] [] [] [] [] []]; intros H; vm_compute in H |- *;
    try discriminate H; split; reflexivity.
Qed.

Lemma labelled_amount_greedy word seps (with_dollar : bool) ds groups post :
  seps <> [] -> forallb is_colon_or_space seps = true ->
  is_leading ds = true -> forallb is_group groups = true ->
  number_stops ds groups post = true ->
  match_at (labelled word amount)
    (lit word ++ seps ++ (if with_dollar then lit "$" else [])
     ++ ds ++ thousands groups ++ post)
  = Some (ds ++ thousands groups).
Proof.
  intros Hne Hseps Hds Hg Hstop. rewrite ReFacts.match_at_labelled.
  assert (Hfirst : exists d ds', ds = d :: ds' /\ Str.isdecimal d = true).
  { unfold is_leading in Hds. destruct ds as [|d ds']; [discriminate |].
    exists d, ds'. split; [reflexivity |].
    apply andb_true_iff in Hds as [_ Hdig]. cbn [forallb] in Hdig.
    apply andb_true_iff in Hdig as [Hd _]. exact Hd. }
  destruct Hfirst as (d & ds' & Eds & Hd).
  destruct (digit_is_no_separator d Hd) as [Hsep Hdollar].
  set (k3 := fun s2 : str =>
               run amount s2 (fun s3 => Some (firstn (length s2 - length s3) s2))).
  assert (Hk3 : k3 (ds ++ thousands groups ++ post) = Some (ds ++ thousands groups)).
  { unfold k3. rewrite amount_greedy; [| exact Hds | exact Hg | exact Hstop | eauto].
    rewrite !length_app.
    replace (length ds + (length (thousands groups) + length post) - length post)
      with (length (ds ++ thousands groups)) by (rewrite length_app; lia).
    rewrite app_assoc, firstn_app, Nat.sub_diag, firstn_all. simpl.
    rewrite app_nil_r. reflexivity. }
  assert (Hk2 : rep (run (one "$"%char)) 1 0
                  ((if with_dollar then lit "$" else []) ++ ds ++ thousands groups ++ post) k3
                = Some (ds ++ thousands groups)).
  { destruct with_dollar.
    - change (lit "$" ++ ds ++ thousands groups ++ post)
        with ("$"%char :: ds ++ thousands groups ++ post).
      rewrite ReFacts.rep_S. unfold one. rewrite ReFacts.run_chr_cons.
      change (Str.eqc "$" "$") with true. cbv iota. cbn [pred]. rewrite rep_O, Hk3.
      reflexivity.
    - cbn [app]. rewrite ReFacts.rep_S. unfold one. rewrite run_chr_outside; [exact Hk3 |].
      rewrite Eds. exact Hdollar. }
  fold k3.
  rewrite rep_chr_consumes; [exact Hk2 | exact Hseps | rewrite length_app; lia | | | rewrite Hk2; eauto].
  - destruct seps; [congruence | cbn [length]; lia].
  - right. destruct with_dollar; [reflexivity |]. cbn [app]. rewrite Eds. exact Hsep.
Qed.

End MatcherFacts.

(* ===================================================================== *)
(** * More on the document extractor *)
(* ===================================================================== *)
Module ExtractorFacts.
Import document_processor StrFacts DictFacts ReFacts Spec Samples Behaviour MatcherFacts
  DocumentProcessorFacts.
Local Open Scope proc_scope.

(** ** The values of the text metrics *)

Lemma first_match_sound patterns s g :
  first_match patterns s = Some g ->
  exists pattern, In pattern patterns /\ Re.search pattern s = Some g.
Proof.
  induction patterns as [|p patterns IH]; simpl; [discriminate |].
  destruct (Re.search p s) as [g'|] eqn:E.
  - intros [= ->]. eauto.
  - intros H. destruct (IH H) as (q & Hq & Hs). eauto.
Qed.

(** What a labelled amount pattern finds stands in the text after its
    label. *)
Lemma labelled_amount_found word s g :
  Re.search (Re.labelled word Re.amount) s = Some g ->
  exists pre seps (with_dollar : bool) post,
    s = pre ++ lit word ++ seps ++ (if with_dollar then lit "$" else []) ++ g ++ post
    /\ seps <> []
    /\ forallb is_colon_or_space seps = true
    /\ amount_shaped g = true.
Proof.
  intros H. apply search_sound in H as (pre & w1 & post & -> & Hb & Hg).
  apply lang_before_labelled in Hb as (seps & d & -> & Hne & Hseps).
  apply lang_amount in Hg.
  exists pre, seps, d, post. rewrite <- !app_assoc. auto.
Qed.

(** The items of the text metrics, in insertion order. *)
Lemma text_metrics_items text :
  _extract_text_metrics text =
    match first_match revenue_patterns (Str.lower text),
          first_match profit_patterns (Str.lower text) with
    | Some r, Some p => [(lit "revenue", r); (lit "profit", p)]
    | Some r, None => [(lit "revenue", r)]
    | None, Some p => [(lit "profit", p)]
    | None, None => []
    end.
Proof.
  unfold _extract_text_metrics.
  destruct (first_match revenue_patterns _), (first_match profit_patterns _); reflexivity.
Qed.

Lemma revenue_pattern_word pattern :
  In pattern revenue_patterns ->
  exists word, In word revenue_words /\ pattern = Re.labelled word Re.amount.
Proof.
  simpl. intros [<- | [<- | [<- | []]]]; eexists; (split; [| reflexivity]);
    simpl; tauto.
Qed.

Lemma profit_pattern_word pattern :
  In pattern profit_patterns ->
  exists word, In word profit_words /\ pattern = Re.labelled word Re.amount.
Proof.
  simpl. intros [<- | [<- | []]]; eexists; (split; [| reflexivity]);
    simpl; tauto.
Qed.

Lemma revenue_value_found s g :
  first_match revenue_patterns s = Some g ->
  exists word pre seps (with_dollar : bool) post,
    In word revenue_words
    /\ s = pre ++ lit word ++ seps ++ (if with_dollar then lit "$" else []) ++ g ++ post
    /\ seps <> [] /\ forallb is_colon_or_space seps = true
    /\ amount_shaped g = true.
Proof.
  intros H. apply first_match_sound in H as (p & Hp & Hs).
  apply revenue_pattern_word in Hp as (word & Hw & ->).
  apply labelled_amount_found in Hs as (pre & seps & d & post & H).
  exists word, pre, seps, d, post. tauto.
Qed.

Lemma profit_value_found s g :
  first_match profit_patterns s = Some g ->
  exists word pre seps (with_dollar : bool) post,
    In word profit_words
    /\ s = pre ++ lit word ++ seps ++ (if with_dollar then lit "$" else []) ++ g ++ post
    /\ seps <> [] /\ forallb is_colon_or_space seps = true
    /\ amount_shaped g = true.
Proof.
  intros H. apply first_match_sound in H as (p & Hp & Hs).
  apply profit_pattern_word in Hp as (word & Hw & ->).
  apply labelled_amount_found in Hs as (pre & seps & d & post & H).
  exists word, pre, seps, d, post. tauto.
Qed.

(** X1: every value [_extract_text_metrics] stores was read from the text:
    it stands in the lower-cased text right after one of the labels of its
    key, one or more colons or whitespace characters and at most one dollar
    sign, and it is a number as the pattern writes it, beginning with a
    digit and made of digits, commas and points. *)
Theorem text_metric_value_stands_in_text text key value :
  Dict.get key (_extract_text_metrics text) = Some value ->
  exists word pre seps (with_dollar : bool) post,
    ((key = lit "revenue" /\ In word revenue_words)
     \/ (key = lit "profit" /\ In word profit_words))
    /\ Str.lower text
       = pre ++ lit word ++ seps ++ (if with_dollar then lit "$" else []) ++ value ++ post
    /\ seps <> []
    /\ forallb is_colon_or_space seps = true
    /\ amount_shaped value = true.
Proof.
  rewrite text_metrics_items. intros H.
  assert (Hcases :
    (key = lit "revenue" /\ first_match revenue_patterns (Str.lower text) = Some value)
    \/ (key = lit "profit" /\ first_match profit_patterns (Str.lower text) = Some value)).
  { destruct (first_match revenue_patterns _) as [r|],
             (first_match profit_patterns _) as [p|]; simpl in H;
      repeat match type of H with
             | (if Str.eqt ?a ?b then _ else _) = _ =>
                 let E := fresh "E" in
                 destruct (Str.eqt a b) eqn:E;
                 [apply eqt_true in E; injection H as <-; auto |]
             end; discriminate. }
  destruct Hcases as [[-> Hm] | [-> Hm]].
  - apply revenue_value_found in Hm as (word & pre & seps & d & post & Hw & H').
    exists word, pre, seps, d, post. tauto.
  - apply profit_value_found in Hm as (word & pre & seps & d & post & Hw & H').
    exists word, pre, seps, d, post. tauto.
Qed.

Lemma text_metric_value_stands_in_text_witness :
  exists word pre seps (with_dollar : bool) post,
    ((lit "profit" = lit "revenue" /\ In word revenue_words)
     \/ (lit "profit" = lit "profit" /\ In word profit_words))
    /\ Str.lower (lit "Sales: 1,200.50; Net Income $300")
       = pre ++ lit word ++ seps ++ (if with_dollar then lit "$" else [])
           ++ lit "300" ++ post
    /\ seps <> []
    /\ forallb is_colon_or_space seps = true
    /\ amount_shaped (lit "300") = true.
Proof.
  apply (text_metric_value_stands_in_text (lit "Sales: 1,200.50; Net Income $300")
           (lit "profit") (lit "300")).
  reflexivity.
Defined.

Lemma isdecimal_lower c : Str.isdecimal (Str.lower_char c) = Str.isdecimal c.
Proof. destruct c as [[] [] [] [] [] [] [] []]; reflexivity. Qed.

Lemma existsb_isdecimal_lower s :
  existsb Str.isdecimal (Str.lower s) = existsb Str.isdecimal s.
Proof.
  induction s as [|c s IH]; simpl; [reflexivity |].
  rewrite isdecimal_lower, IH. reflexivity.
Qed.

(** X2: a text without a decimal digit yields no text metrics at all. *)
Theorem no_digit_no_text_metrics text :
  existsb Str.isdecimal text = false -> _extract_text_metrics text = [].
Proof.
  intros Hno. rewrite text_metrics_items.
  assert (Hnone : forall g pre mid post,
            Str.lower text = pre ++ mid ++ g ++ post -> amount_shaped g = true -> False).
  { intros g pre mid post Heq Hg.
    rewrite <- existsb_isdecimal_lower, Heq in Hno.
    rewrite !existsb_app in Hno.
    destruct g as [|d g]; [discriminate |]. simpl in Hg, Hno.
    apply andb_true_iff in Hg as [Hd _]. rewrite Hd in Hno.
    simpl in Hno. rewrite !orb_true_r in Hno. discriminate. }
  destruct (first_match revenue_patterns _) as [r|] eqn:Er.
  - exfalso. apply revenue_value_found in Er as (w & pre & seps & d & post & _ & Heq & _ & _ & Hg).
    apply (Hnone r pre (lit w ++ seps ++ (if d then lit "$" else [])) post); [| exact Hg].
    rewrite Heq, <- !app_assoc. reflexivity.
  - destruct (first_match profit_patterns _) as [p|] eqn:Ep; [| reflexivity].
    exfalso. apply profit_value_found in Ep as (w & pre & seps & d & post & _ & Heq & _ & _ & Hg).
    apply (Hnone p pre (lit w ++ seps ++ (if d then lit "$" else [])) post); [| exact Hg].
    rewrite Heq, <- !app_assoc. reflexivity.
Qed.

Lemma no_digit_no_text_metrics_witness :
  _extract_text_metrics (lit "Revenue: to be announced. Profit: n/a") = [].
Proof.
  apply (no_digit_no_text_metrics (lit "Revenue: to be announced. Profit: n/a")).
  reflexivity.
Defined.

(** X3: a number written after the label is found: when the lower-cased
    text has, at its first "revenue", the label, one or more colons or
    whitespace characters, at most one dollar sign, and a number of one to
    three digits and any groups of a comma and three digits that ends there
    (no comma or point follows, nor a digit when the number is fewer than
    three digits without a group), the metric [revenue] is that number. *)
Theorem labelled_revenue_is_extracted text pre seps (with_dollar : bool) ds groups post :
  Str.lower text
  = pre ++ lit "revenue" ++ seps ++ (if with_dollar then lit "$" else [])
    ++ ds ++ thousands groups ++ post ->
  find (lit "revenue") (Str.lower text) = Some (length pre) ->
  seps <> [] ->
  forallb is_colon_or_space seps = true ->
  is_leading ds = true ->
  forallb is_group groups = true ->
  number_stops ds groups post = true ->
  Dict.get (lit "revenue") (_extract_text_metrics text) = Some (ds ++ thousands groups).
Proof.
  intros Heq Hfind Hne Hseps Hds Hg Hstop. rewrite text_metrics_revenue.
  unfold revenue_patterns. cbn [first_match]. rewrite Heq in *.
  rewrite search_leftmost.
  - rewrite labelled_amount_greedy by assumption. reflexivity.
  - intros a b Hab Hb. apply match_at_labelled_word.
    exact (find_first _ _ _ Hfind a b Hab Hb).
Qed.

Lemma labelled_revenue_is_extracted_witness :
  Dict.get (lit "revenue")
    (_extract_text_metrics
       (lit "Joe's Motorbike Tyres - Total Revenue: $1,052,000 (1,000 tyres)"))
  = Some (lit "1,052,000").
Proof.
  apply (labelled_revenue_is_extracted
           (lit "Joe's Motorbike Tyres - Total Revenue: $1,052,000 (1,000 tyres)")
           (lit "joe's motorbike tyres - total ") (lit ": ") true
           (lit "1") [lit "052"; lit "000"] (lit " (1,000 tyres)"));
    try reflexivity.
  discriminate.
Defined.

(** ** The dictionary of the sheets *)

Lemma keys_set_present {V} k (v : V) d :
  In k (Dict.keys d) -> Dict.keys (Dict.set k v d) = Dict.keys d.
Proof.
  unfold Dict.keys. induction d as [|[k0 v0] d IH]; simpl; [intros [] |].
  destruct (Str.eqt k k0) eqn:E; simpl.
  - apply eqt_true in E. subst. reflexivity.
  - intros [-> | H]; [rewrite eqt_refl in E; discriminate |].
    rewrite IH by exact H. reflexivity.
Qed.

Lemma keys_set_cases {V} k (v : V) d :
  (In k (Dict.keys d) /\ Dict.keys (Dict.set k v d) = Dict.keys d)
  \/ (~ In k (Dict.keys d) /\ Dict.keys (Dict.set k v d) = Dict.keys d ++ [k]).
Proof.
  destruct (in_dec (List.list_eq_dec Ascii.ascii_dec) k (Dict.keys d)) as [Hin | Hout].
  - left. split; [exact Hin | apply keys_set_present, Hin].
  - right. split; [exact Hout |]. rewrite set_fresh by exact Hout.
    unfold Dict.keys. rewrite map_app. reflexivity.
Qed.

Lemma read_sheets_keys df sheet_names :
  forall sheets_data,
    List.NoDup (Dict.keys sheets_data) ->
    List.NoDup (Dict.keys (read_sheets df sheet_names sheets_data))
    /\ (forall n, In n (Dict.keys (read_sheets df sheet_names sheets_data))
                  <-> In n (Dict.keys sheets_data) \/ In n sheet_names)
    /\ length (Dict.keys (read_sheets df sheet_names sheets_data))
       <= length (Dict.keys sheets_data) + length sheet_names.
Proof.
  induction sheet_names as [|m names IH]; intros sheets_data Hnd; simpl.
  - split; [exact Hnd | split; [tauto | lia]].
  - destruct (keys_set_cases m (df m) sheets_data) as [[Hin Hk] | [Hout Hk]];
      destruct (IH (Dict.set m (df m) sheets_data)) as (H1 & H2 & H3);
      rewrite ?Hk; auto.
    + split; [exact H1 | split].
      * intros n. rewrite H2, Hk. split; [tauto |].
        intros [H | [<- | H]]; tauto.
      * rewrite Hk in H3. lia.
    + apply List.NoDup_app; [exact Hnd | repeat constructor; intros [] |].
      intros x Hx [<- | []]. contradiction.
    + split; [exact H1 | split].
      * intros n. rewrite H2, Hk, in_app_iff. simpl. tauto.
      * rewrite Hk, length_app in H3. simpl in H3. lia.
Qed.

Lemma read_sheets_get df sheet_names :
  forall sheets_data n,
    (In n sheet_names ->
       Dict.get n (read_sheets df sheet_names sheets_data) = Some (df n))
    /\ (~ In n sheet_names ->
          Dict.get n (read_sheets df sheet_names sheets_data) = Dict.get n sheets_data).
Proof.
  unfold read_sheets.
  induction sheet_names as [|m names IH]; intros sheets_data n; cbn [fold_left].
  - split; [intros [] | reflexivity].
  - destruct (IH (Dict.set m (df m) sheets_data) n) as [Hin Hout].
    destruct (in_dec (List.list_eq_dec Ascii.ascii_dec) n names) as [Hn | Hn].
    + split; [intros _; apply Hin, Hn | intros H; exfalso; apply H; right; exact Hn].
    + split.
      * intros [-> | H]; [| contradiction]. rewrite Hout by exact Hn. apply get_set_eq.
      * intros H. rewrite Hout by exact Hn. apply get_set_ne.
        intros ->. apply H. left. reflexivity.
Qed.

(** ** The PDF path and the context *)

Lemma length_join_nl texts :
  texts <> [] ->
  length (Str.join nl texts) + 1 = list_sum (map (@length ascii) texts) + length texts.
Proof.
  induction texts as [|t texts IH]; [congruence |]. intros _.
  destruct texts as [|t' texts].
  - simpl. lia.
  - change (Str.join nl (t :: t' :: texts)) with (t ++ nl ++ Str.join nl (t' :: texts)).
    rewrite !length_app. cbn [map list_sum length].
    assert (H : t' :: texts <> []) by discriminate.
    specialize (IH H). cbn [map list_sum length] in IH.
    change (length nl) with 1. unfold list_sum in *. cbn [fold_right] in *. lia.
Qed.

Lemma fold_left_lines (metrics : Dict.dict str) (context : str) :
  fold_left
    (fun context '(metric, value) =>
       context ++ lit "- " ++ metric ++ lit ": " ++ value ++ nl)
    metrics context
  = context
    ++ concat (map (fun item : str * str =>
                      lit "- " ++ fst item ++ lit ": " ++ snd item ++ nl) metrics).
Proof.
  revert context. induction metrics as [|[k v] metrics IH]; intros context.
  - simpl. rewrite app_nil_r. reflexivity.
  - cbn [fold_left map concat fst snd]. rewrite IH, <- !app_assoc. reflexivity.
Qed.

Lemma contains_in_concat (line : str) (lines : list str) :
  In line lines -> exists pre post, concat lines = pre ++ line ++ post.
Proof.
  induction lines as [|l lines IH]; [intros [] |].
  intros [-> | H].
  - exists [], (concat lines). reflexivity.
  - destruct (IH H) as (pre & post & E). exists (l ++ pre), post.
    simpl. rewrite E, <- app_assoc. reflexivity.
Qed.

Lemma get_context_for_ai_eq self :
  get_context_for_ai self
  = lit "Financial Document Content:" ++ nl ++ nl
    ++ document_text self ++ metrics_trailer (financial_metrics self).
Proof.
  unfold get_context_for_ai, metrics_trailer.
  destruct (financial_metrics self) as [|item metrics].
  - rewrite app_nil_r, <- !app_assoc. reflexivity.
  - rewrite fold_left_lines, <- !app_assoc. reflexivity.
Qed.

Lemma context_contains_text self w :
  Str.contains w (document_text self) = true ->
  Str.contains w (get_context_for_ai self) = true.
Proof.
  intros Hw. rewrite get_context_for_ai_eq.
  apply contains_true in Hw as (pre & post & ->). apply contains_true.
  exists (lit "Financial Document Content:" ++ nl ++ nl ++ pre),
         (post ++ metrics_trailer (financial_metrics self)).
  rewrite <- !app_assoc. reflexivity.
Qed.

(** X4: the context handed to the question answering is the preamble, the
    document text and the metric lines, in that order: without metrics it is
    the preamble and the text alone; whatever occurs in the document text
    occurs in the context; and every metric has its line "- key: value". *)
Theorem context_layout self :
  get_context_for_ai self
  = lit "Financial Document Content:" ++ nl ++ nl
    ++ document_text self ++ metrics_trailer (financial_metrics self)
  /\ (financial_metrics self = [] ->
        get_context_for_ai self
        = lit "Financial Document Content:" ++ nl ++ nl ++ document_text self)
  /\ (forall w, Str.contains w (document_text self) = true ->
        Str.contains w (get_context_for_ai self) = true)
  /\ (forall metric value, In (metric, value) (financial_metrics self) ->
        Str.contains (lit "- " ++ metric ++ lit ": " ++ value ++ nl)
          (get_context_for_ai self) = true).
Proof.
  pose proof (get_context_for_ai_eq self) as Heq.
  split; [exact Heq | split; [| split]].
  - intros Hm. rewrite Heq, Hm. simpl. rewrite app_nil_r. reflexivity.
  - intros w. apply context_contains_text.
  - intros metric value Hin. rewrite Heq. unfold metrics_trailer.
    destruct (financial_metrics self) as [|item metrics] eqn:Hm; [destruct Hin |].
    destruct (contains_in_concat
                (lit "- " ++ metric ++ lit ": " ++ value ++ nl)
                (map (fun item : str * str =>
                        lit "- " ++ fst item ++ lit ": " ++ snd item ++ nl)
                     (item :: metrics))) as (pre & post & E).
    { apply in_map_iff. exists (metric, value). split; [reflexivity | exact Hin]. }
    rewrite E. apply contains_true.
    exists (lit "Financial Document Content:" ++ nl ++ nl ++ document_text self
            ++ nl ++ nl ++ lit "Extracted Financial Metrics:" ++ nl ++ pre), post.
    rewrite <- !app_assoc. reflexivity.
Qed.

Lemma context_layout_witness :
  get_context_for_ai
    {| document_text := lit "Joe's Motorbike Tyres";
       financial_tables := [];
       financial_metrics := [] |}
  = lit "Financial Document Content:" ++ nl ++ nl ++ lit "Joe's Motorbike Tyres"
  /\ Str.contains (lit "Joe")
       (get_context_for_ai
          {| document_text := lit "Joe's Motorbike Tyres";
             financial_tables := [];
             financial_metrics := [(lit "revenue", lit "52,000")] |}) = true
  /\ Str.contains (lit "- revenue: 52,000" ++ nl)
       (get_context_for_ai
          {| document_text := lit "Joe's Motorbike Tyres";
             financial_tables := [];
             financial_metrics := [(lit "revenue", lit "52,000")] |}) = true.
Proof.
  split; [| split].
  - apply (proj1 (proj2 (context_layout
             {| document_text := lit "Joe's Motorbike Tyres";
                financial_tables := [];
                financial_metrics := [] |}))).
    reflexivity.
  - apply (proj1 (proj2 (proj2 (context_layout
             {| document_text := lit "Joe's Motorbike Tyres";
                financial_tables := [];
                financial_metrics := [(lit "revenue", lit "52,000")] |})))
             (lit "Joe")).
    reflexivity.
  - apply (proj2 (proj2 (proj2 (context_layout
             {| document_text := lit "Joe's Motorbike Tyres";
                financial_tables := [];
                financial_metrics := [(lit "revenue", lit "52,000")] |})))
             (lit "revenue") (lit "52,000")).
    simpl. tauto.
Defined.

(** ** The spreadsheet path, sheet by sheet *)

Lemma processor_eta self :
  {| document_text := document_text self;
     financial_tables := financial_tables self;
     financial_metrics := financial_metrics self |} = self.
Proof. destruct self. reflexivity. Qed.

(** ** The sheets the metrics name *)

(** Where an entry of the sheet metrics comes from. *)
Lemma step_origin metrics n df key S :
  Dict.get key (excel_metrics_step metrics (n, df)) = Some S ->
  Dict.get key metrics = Some S
  \/ (S = n
      /\ ((key = lit "revenue_sheet"
           /\ mentions_revenue (Str.lower (to_string df)) = true)
          \/ (key = lit "profit_sheet"
              /\ mentions_profit (Str.lower (to_string df)) = true))).
Proof.
  destruct (List.list_eq_dec Ascii.ascii_dec key (lit "revenue_sheet")) as [-> | Hr].
  - rewrite step_revenue_sheet.
    destruct (mentions_revenue _) eqn:E; [| auto]. intros [= <-]. auto.
  - destruct (List.list_eq_dec Ascii.ascii_dec key (lit "profit_sheet")) as [-> | Hp].
    + rewrite step_profit_sheet.
      destruct (mentions_profit _) eqn:E; [| auto]. intros [= <-]. auto.
    + unfold excel_metrics_step.
      destruct (_ || _); destruct (_ || _);
        rewrite ?get_set_ne by (apply not_eq_sym; assumption); auto.
Qed.

Lemma metrics_origin sheets_data : forall metrics key S,
  Dict.get key (fold_left excel_metrics_step sheets_data metrics) = Some S ->
  Dict.get key metrics = Some S
  \/ exists df,
       In (S, df) sheets_data
       /\ ((key = lit "revenue_sheet"
            /\ mentions_revenue (Str.lower (to_string df)) = true)
           \/ (key = lit "profit_sheet"
               /\ mentions_profit (Str.lower (to_string df)) = true)).
Proof.
  induction sheets_data as [|[n df] sheets_data IH]; intros metrics key S H;
    cbn [fold_left] in H; [auto |].
  apply IH in H as [H | (df' & Hin & H)].
  - apply step_origin in H as [H | [-> H]]; [auto |].
    right. exists df. split; [left; reflexivity | exact H].
  - right. exists df'. split; [right; exact Hin | exact H].
Qed.

Lemma set_item {V} k (v : V) d n x :
  In (n, x) (Dict.set k v d) -> (n, x) = (k, v) \/ In (n, x) d.
Proof.
  induction d as [|[k' v'] d IH]; cbn [Dict.set].
  - intros [H | []]. auto.
  - destruct (Str.eqt k k').
    + intros [H | H]; [auto | right; right; exact H].
    + intros [H | H]; [right; left; exact H |].
      apply IH in H as [H | H]; [auto | right; right; exact H].
Qed.

Lemma read_sheets_item df sheet_names : forall sheets_data n x,
  In (n, x) (read_sheets df sheet_names sheets_data) ->
  In (n, x) sheets_data \/ (In n sheet_names /\ x = df n).
Proof.
  unfold read_sheets.
  induction sheet_names as [|m names IH]; intros sheets_data n x H; cbn [fold_left] in H;
    [auto |].
  apply IH in H as [H | [H ->]]; [| right; split; [right; exact H | reflexivity]].
  apply set_item in H as [[= -> ->] | H]; [| auto].
  right. split; [left; reflexivity | reflexivity].
Qed.

Lemma mention_is_keyword df :
  mentions_revenue (Str.lower (to_string df)) = true
  \/ mentions_profit (Str.lower (to_string df)) = true ->
  _contains_financial_keywords (df) = true.
Proof.
  unfold mentions_revenue, mentions_profit, _contains_financial_keywords,
    Str.any_in, financial_keywords.
  cbv zeta. cbn [map existsb].
  intros [H | H]; apply orb_true_iff in H as [H | H];
    try (rewrite H, ?orb_true_r; reflexivity).
  rewrite (contains_trans (lit "income") (lit "net income") _ eq_refl H), ?orb_true_r.
  reflexivity.
Qed.

Lemma revenue_or_profit_type df :
  Str.contains (lit "revenue") (Str.lower (to_string df))
  || Str.contains (lit "profit") (Str.lower (to_string df)) = true ->
  In (_identify_statement_type df) [lit "Balance Sheet"; lit "Income Statement"].
Proof.
  intros H. unfold _identify_statement_type. cbv zeta.
  destruct (Str.any_in _ _); [left; reflexivity |].
  replace (Str.any_in (map lit ["income statement"; "revenue"; "profit"; "loss"]%string)
             (Str.lower (to_string df))) with true; [right; left; reflexivity |].
  symmetry. unfold Str.any_in. cbn [map existsb].
  apply orb_true_iff in H as [H | H]; rewrite H, ?orb_true_r; reflexivity.
Qed.

Section Paths.

Variable lib : Library.

(** The loop over the sheets when every sheet is read: the dictionary, the
    text and the tables it leaves. *)
Lemma excel_sheets_run file_path df sheet_names :
  (forall n, In n sheet_names -> read_excel lib file_path n = Return (df n)) ->
  forall sheets_data self,
    excel_sheets lib file_path sheet_names sheets_data self
    = (Return (read_sheets df sheet_names sheets_data),
       {| document_text :=
            document_text self
            ++ concat (map (fun n => sheet_block n (df n)) sheet_names);
          financial_tables :=
            financial_tables self
            ++ map (fun n => sheet_table n (df n))
                 (List.filter (fun n => _contains_financial_keywords (df n)) sheet_names);
          financial_metrics := financial_metrics self |}).
Proof.
  induction sheet_names as [|n names IH]; intros Hread sheets_data self.
  - simpl. rewrite !app_nil_r, processor_eta. reflexivity.
  - cbn [excel_sheets]. unfold bind at 1. unfold call at 1.
    rewrite (Hread n) by (left; reflexivity).
    unfold bind at 1. cbn [map concat List.filter read_sheets fold_left].
    destruct (_contains_financial_keywords (df n)); cbn [modify ret];
      unfold bind at 1; cbn [modify];
      rewrite IH by (intros m Hm; apply Hread; right; exact Hm);
      cbn [document_text financial_tables financial_metrics map];
      unfold read_sheets, sheet_block, sheet_table;
      rewrite <- ?app_assoc; reflexivity.
Qed.

(** The spreadsheet path when every sheet is read. *)
Lemma excel_path_run file_path df sheet_names self :
  ExcelFile lib file_path = Return sheet_names ->
  (forall n, In n sheet_names -> read_excel lib file_path n = Return (df n)) ->
  process_document lib file_path (lit "excel") self
  = (Return (ExcelResult (Dict.keys (read_sheets df sheet_names []))
               (length (read_sheets df sheet_names []))
               (length (financial_tables self
                        ++ map (fun n => sheet_table n (df n))
                             (List.filter (fun n => _contains_financial_keywords (df n))
                                sheet_names)))
               (read_sheets df sheet_names [])
               (document_text self
                ++ concat (map (fun n => sheet_block n (df n)) sheet_names))),
     {| document_text :=
          document_text self ++ concat (map (fun n => sheet_block n (df n)) sheet_names);
        financial_tables :=
          financial_tables self
          ++ map (fun n => sheet_table n (df n))
               (List.filter (fun n => _contains_financial_keywords (df n)) sheet_names);
        financial_metrics := _extract_excel_metrics (read_sheets df sheet_names []) |}).
Proof.
  intros Hnames Hread. rewrite process_document_excel.
  unfold _process_excel, try_except. unfold bind at 1. unfold call at 1.
  rewrite Hnames. unfold bind at 1.
  rewrite (excel_sheets_run file_path df sheet_names Hread [] self).
  reflexivity.
Qed.

(** X5: on the spreadsheet path, when every sheet is read, the processor's
    text grows by one block per sheet of [sheet_names], in that order (two
    newlines, the header line of the sheet, its stringified frame), its
    tables grow by one table per sheet that has a financial keyword, in
    that order, and the result reports the text and the number of tables of
    the processor. *)
Theorem excel_path_accumulates file_path df sheet_names self :
  ExcelFile lib file_path = Return sheet_names ->
  (forall n, In n sheet_names -> read_excel lib file_path n = Return (df n)) ->
  let text :=
    document_text self ++ concat (map (fun n => sheet_block n (df n)) sheet_names) in
  let tables :=
    financial_tables self
    ++ map (fun n => sheet_table n (df n))
         (List.filter (fun n => _contains_financial_keywords (df n)) sheet_names) in
  let sheets_data := read_sheets df sheet_names [] in
  process_document lib file_path (lit "excel") self
  = (Return (ExcelResult (Dict.keys sheets_data) (length sheets_data)
               (length tables) sheets_data text),
     {| document_text := text;
        financial_tables := tables;
        financial_metrics := _extract_excel_metrics sheets_data |})
  /\ length tables <= length (financial_tables self) + length sheet_names.
Proof.
  intros Hnames Hread text tables sheets_data. split.
  - apply excel_path_run; assumption.
  - subst tables. rewrite length_app, length_map.
    apply Nat.add_le_mono_l, filter_length_le.
Qed.

(** X6: the result of the spreadsheet path lists every sheet name once:
    [sheets] has no duplicate, holds exactly the names of [sheet_names],
    [total_sheets] is its length (at most the number of names read), and
    [data] maps every sheet name to the frame read for it. *)
Theorem excel_result_sheets file_path df sheet_names self :
  ExcelFile lib file_path = Return sheet_names ->
  (forall n, In n sheet_names -> read_excel lib file_path n = Return (df n)) ->
  exists sheets found data text self',
    process_document lib file_path (lit "excel") self
    = (Return (ExcelResult sheets (length sheets) found data text), self')
    /\ sheets = Dict.keys data
    /\ List.NoDup sheets
    /\ (forall n, In n sheets <-> In n sheet_names)
    /\ length sheets <= length sheet_names
    /\ (forall n, In n sheet_names -> Dict.get n data = Some (df n)).
Proof.
  intros Hnames Hread.
  rewrite (excel_path_run file_path df sheet_names self Hnames Hread).
  destruct (read_sheets_keys df sheet_names [] (List.NoDup_nil _)) as (H1 & H2 & H3).
  eexists _, _, _, _, _. split; [| split; [reflexivity | split; [exact H1 | split; [| split]]]].
  - unfold Dict.keys. rewrite length_map. reflexivity.
  - intros n. rewrite H2. simpl. tauto.
  - simpl in H3. exact H3.
  - intros n Hn. apply read_sheets_get, Hn.
Qed.

(** X7: on the spreadsheet path, a sheet that a metric names is a sheet of
    the workbook whose lower-cased content mentions the words of that metric
    ("revenue" or "sales" for [revenue_sheet], "profit" or "net income" for
    [profit_sheet]; no other key occurs); the sheet has a financial keyword
    and is among the recorded financial tables; and when it mentions
    "revenue" or "profit" its table is typed "Balance Sheet" or "Income
    Statement". *)
Theorem metric_sheet_is_a_table file_path df sheet_names self key S :
  ExcelFile lib file_path = Return sheet_names ->
  (forall n, In n sheet_names -> read_excel lib file_path n = Return (df n)) ->
  let self' := snd (process_document lib file_path (lit "excel") self) in
  Dict.get key (financial_metrics self') = Some S ->
  In S sheet_names
  /\ ((key = lit "revenue_sheet"
       /\ mentions_revenue (Str.lower (to_string (df S))) = true)
      \/ (key = lit "profit_sheet"
          /\ mentions_profit (Str.lower (to_string (df S))) = true))
  /\ _contains_financial_keywords (df S) = true
  /\ In (sheet_table S (df S)) (financial_tables self')
  /\ (Str.contains (lit "revenue") (Str.lower (to_string (df S)))
      || Str.contains (lit "profit") (Str.lower (to_string (df S))) = true ->
      In (type (sheet_table S (df S))) [lit "Balance Sheet"; lit "Income Statement"]).
Proof.
  intros Hnames Hread. cbv zeta.
  rewrite (excel_path_run file_path df sheet_names self Hnames Hread).
  cbn [snd financial_metrics financial_tables]. unfold _extract_excel_metrics.
  intros H. apply metrics_origin in H as [H | (d & Hin & H)]; [discriminate |].
  apply read_sheets_item in Hin as [[] | [Hin ->]].
  assert (Hkey : _contains_financial_keywords (df S) = true).
  { apply mention_is_keyword. destruct H as [[_ H] | [_ H]]; auto. }
  split; [exact Hin | split; [exact H | split; [exact Hkey | split]]].
  - apply in_or_app. right. apply in_map_iff. exists S. split; [reflexivity |].
    apply List.filter_In. split; [exact Hin | exact Hkey].
  - cbn [type sheet_table]. apply revenue_or_profit_type.
Qed.

(** The loop over the sheets only appends to the text and to the tables,
    and leaves the metrics alone, also when it raises. *)
Lemma excel_sheets_extends file_path sheet_names :
  forall sheets_data self,
  exists t tb,
    snd (excel_sheets lib file_path sheet_names sheets_data self)
    = {| document_text := document_text self ++ t;
         financial_tables := financial_tables self ++ tb;
         financial_metrics := financial_metrics self |}.
Proof.
  induction sheet_names as [|n names IH]; intros sheets_data self.
  - exists [], []. simpl. rewrite !app_nil_r, processor_eta. reflexivity.
  - cbn [excel_sheets]. unfold bind at 1. unfold call at 1.
    destruct (read_excel lib file_path n) as [df | e].
    + unfold bind at 1.
      destruct (_contains_financial_keywords df); cbn [modify ret];
        unfold bind at 1; cbn [modify];
        match goal with
        | |- context [excel_sheets lib file_path names ?d ?s] =>
            destruct (IH d s) as (t & tb & ->)
        end;
        cbn [document_text financial_tables financial_metrics];
        eexists _, _; rewrite <- ?app_assoc; reflexivity.
    + exists [], []. simpl. rewrite !app_nil_r, processor_eta. reflexivity.
Qed.

Lemma pdf_pages_state pages :
  forall text_content self, snd (pdf_pages pages text_content self) = self.
Proof.
  induction pages as [|page pages IH]; intros text_content self; simpl; [reflexivity |].
  unfold bind, call. destruct page as [t | e]; [apply IH | reflexivity].
Qed.

(** X8: a processing that ends in a failure result leaves the metrics of
    the processor as they were.  On the PDF path, and for an unsupported
    file type, it leaves the whole processor as it was; on the spreadsheet
    path the text and the tables keep what the sheets read before the
    failure appended. *)
Theorem failed_processing_keeps_metrics file_path file_type self result self' :
  process_document lib file_path file_type self = (Return result, self') ->
  success result = false ->
  financial_metrics self' = financial_metrics self
  /\ (exists t tb,
        document_text self' = document_text self ++ t
        /\ financial_tables self' = financial_tables self ++ tb)
  /\ (file_type <> lit "excel" -> self' = self).
Proof.
  intros Hrun Hfail.
  assert (Hsame : self' = self ->
            financial_metrics self' = financial_metrics self
            /\ (exists t tb,
                  document_text self' = document_text self ++ t
                  /\ financial_tables self' = financial_tables self ++ tb)
            /\ (file_type <> lit "excel" -> self' = self)).
  { intros ->. split; [reflexivity | split; [| reflexivity]].
    exists [], []. rewrite !app_nil_r. auto. }
  unfold process_document in Hrun.
  destruct (Str.eqt file_type (lit "excel")) eqn:Ex;
    [| destruct (Str.eqt file_type (lit "pdf")) eqn:Ep].
  - apply eqt_true in Ex. subst file_type.
    fold (process_document lib file_path (lit "excel")) in Hrun.
    change (try_except (_process_excel lib file_path)
              (fun e => ret (Failure (lit "Processing failed: " ++ e))) self
            = (Return result, self')) in Hrun.
    unfold try_except in Hrun.
    destruct (process_excel_returns lib file_path self) as (r & s1 & Hr).
    rewrite Hr in Hrun. injection Hrun as -> ->.
    unfold _process_excel, try_except in Hr. unfold bind at 1 in Hr.
    unfold call at 1 in Hr.
    destruct (ExcelFile lib file_path) as [names | e].
    + unfold bind at 1 in Hr.
      destruct (excel_sheets_extends file_path names [] self) as (t & tb & Hs).
      destruct (excel_sheets lib file_path names [] self) as [[sd | e] s1] eqn:E;
        simpl in Hs; subst s1.
      * simpl in Hr. injection Hr as <- <-. discriminate.
      * injection Hr as <- <-. simpl.
        split; [reflexivity | split; [eauto | congruence]].
    + injection Hr as <- <-. apply Hsame. reflexivity.
  - unfold try_except in Hrun.
    destruct (process_pdf_returns lib file_path self) as (r & s1 & Hr).
    rewrite Hr in Hrun. injection Hrun as -> ->.
    apply Hsame. unfold _process_pdf in Hr.
    destruct (negb (PDF_AVAILABLE lib)); [injection Hr as <- <-; reflexivity |].
    unfold try_except in Hr. unfold bind at 1 in Hr. unfold call at 1 in Hr.
    destruct (PdfReader lib file_path) as [pages | e];
      [| injection Hr as <- <-; reflexivity].
    unfold bind at 1 in Hr.
    pose proof (pdf_pages_state pages [] self) as Hs.
    destruct (pdf_pages pages [] self) as [[tc | e] s1]; simpl in Hs; subst s1.
    + simpl in Hr. injection Hr as <- <-. discriminate.
    + injection Hr as <- <-. reflexivity.
  - unfold try_except, ret in Hrun. injection Hrun as <- <-. apply Hsame. reflexivity.
Qed.

(** X9: the result of the PDF path when every page is extracted: [pages]
    counts the pages, [full_text] and [text_for_ai] are the page texts
    joined by newlines (so [text_length] is the sum of their lengths plus
    one per boundary between pages), and [text_preview] has at most 503
    characters and begins as the full text does.  The processor's text is
    replaced by the full text, and its tables are left as they were. *)
Theorem pdf_result_layout file_path (texts : list str) self :
  PDF_AVAILABLE lib = true ->
  PdfReader lib file_path = Return (map Return texts) ->
  exists preview full self',
    process_document lib file_path (lit "pdf") self
    = (Return (PdfResult (length texts) (length full) preview full full), self')
    /\ full = Str.join nl texts
    /\ (texts <> [] ->
          length full + 1 = list_sum (map (@length ascii) texts) + length texts)
    /\ length preview <= 503
    /\ firstn 500 preview = firstn 500 full
    /\ (length full <= 500 -> preview = full)
    /\ document_text self' = full
    /\ financial_tables self' = financial_tables self.
Proof.
  intros Hav Hpages.
  rewrite (process_pdf_ok lib file_path texts self Hav Hpages). cbv zeta.
  set (full := Str.join nl texts).
  eexists _, _, _. split; [reflexivity |].
  split; [reflexivity |]. split; [apply length_join_nl |].
  destruct (Nat.ltb_spec 500 (length full)) as [Hlong | Hshort].
  - split; [| split; [| split; [| split; reflexivity]]].
    + unfold Str.slice_to. rewrite length_app, length_firstn.
      change (length (lit "...")) with 3. lia.
    + unfold Str.slice_to. rewrite firstn_app, length_firstn, firstn_firstn.
      rewrite Nat.min_id, (Nat.min_l 500 (length full)) by lia.
      rewrite Nat.sub_diag. cbn [firstn]. apply app_nil_r.
    + intros H. lia.
  - split; [lia | split; [reflexivity | split; [reflexivity | split; reflexivity]]].
Qed.

End Paths.

Lemma excel_path_accumulates_witness :
  let run := process_document sample_library (lit "book.xlsx") (lit "excel") init in
  document_text (snd run)
  = sheet_block (lit "Q1") (sample_sheet (lit "Q1"))
    ++ sheet_block (lit "Q2") (sample_sheet (lit "Q2"))
  /\ map sheet_name (financial_tables (snd run)) = [lit "Q1"; lit "Q2"].
Proof.
  destruct (excel_path_accumulates sample_library (lit "book.xlsx") sample_sheet [lit "Q1"; lit "Q2"] init)
    as [Hrun _].
  - reflexivity.
  - intros n _. reflexivity.
  - cbv zeta in Hrun |- *. rewrite Hrun. split; reflexivity.
Defined.

Lemma excel_result_sheets_witness :
  exists sheets found data text self',
    process_document sample_library (lit "book.xlsx") (lit "excel") init
    = (Return (ExcelResult sheets (length sheets) found data text), self')
    /\ sheets = Dict.keys data
    /\ List.NoDup sheets
    /\ (forall n, In n sheets <-> In n [lit "Q1"; lit "Q2"])
    /\ length sheets <= length [lit "Q1"; lit "Q2"]
    /\ (forall n, In n [lit "Q1"; lit "Q2"] -> Dict.get n data = Some (sample_sheet n)).
Proof.
  apply (excel_result_sheets sample_library (lit "book.xlsx") sample_sheet
           [lit "Q1"; lit "Q2"] init).
  - reflexivity.
  - intros n _. reflexivity.
Defined.

Lemma metric_sheet_is_a_table_witness :
  let self' := snd (process_document sample_library (lit "book.xlsx") (lit "excel") init) in
  In (lit "Q2") [lit "Q1"; lit "Q2"]
  /\ ((lit "revenue_sheet" = lit "revenue_sheet"
       /\ mentions_revenue (Str.lower (to_string (sample_sheet (lit "Q2")))) = true)
      \/ (lit "revenue_sheet" = lit "profit_sheet"
          /\ mentions_profit (Str.lower (to_string (sample_sheet (lit "Q2")))) = true))
  /\ _contains_financial_keywords (sample_sheet (lit "Q2")) = true
  /\ In (sheet_table (lit "Q2") (sample_sheet (lit "Q2"))) (financial_tables self')
  /\ (Str.contains (lit "revenue") (Str.lower (to_string (sample_sheet (lit "Q2"))))
      || Str.contains (lit "profit") (Str.lower (to_string (sample_sheet (lit "Q2")))) = true ->
      In (type (sheet_table (lit "Q2") (sample_sheet (lit "Q2"))))
         [lit "Balance Sheet"; lit "Income Statement"]).
Proof.
  apply (metric_sheet_is_a_table sample_library (lit "book.xlsx") sample_sheet
           [lit "Q1"; lit "Q2"] init (lit "revenue_sheet") (lit "Q2")).
  - reflexivity.
  - intros n _. reflexivity.
  - vm_compute. reflexivity.
Defined.

(** The sample workbook whose second sheet cannot be read: the failure
    keeps the block of the first sheet in the text and no metrics. *)
Lemma failed_processing_keeps_metrics_witness :
  let run := process_document sample_library (lit "half.xlsx") (lit "excel") init in
  financial_metrics (snd run) = financial_metrics init
  /\ (exists t tb,
        document_text (snd run) = document_text init ++ t
        /\ financial_tables (snd run) = financial_tables init ++ tb)
  /\ (lit "excel" <> lit "excel" -> snd run = init).
Proof.
  apply (failed_processing_keeps_metrics sample_library (lit "half.xlsx") (lit "excel") init
           (Failure (lit "Excel processing failed: Worksheet cannot be parsed"))).
  - reflexivity.
  - reflexivity.
Defined.

Lemma pdf_result_layout_witness :
  exists preview full self',
    process_document sample_library (lit "annual.pdf") (lit "pdf") init
    = (Return (PdfResult 2 (length full) preview full full), self')
    /\ full = lit "Total Revenue: $52,000" ++ nl ++ lit "Net income: $5,200.00"
    /\ length full = 44
    /\ preview = full.
Proof.
  destruct (pdf_result_layout sample_library (lit "annual.pdf")
              [lit "Total Revenue: $52,000"; lit "Net income: $5,200.00"] init
              eq_refl eq_refl)
    as (preview & full & self' & Hrun & Hfull & Hlen & _ & _ & Hshort & _).
  exists preview, full, self'. subst full.
  split; [exact Hrun | split; [reflexivity | split; [reflexivity |]]].
  apply Hshort. simpl. lia.
Defined.

End ExtractorFacts.

(* ===================================================================== *)
(** * From the validator to the extractor *)
(* ===================================================================== *)
Module UploadFacts.
Import file_handler document_processor StrFacts Spec Samples FileHandlerFacts
  DocumentProcessorFacts.

Lemma mem_false x l : Str.mem x l = false <-> ~ In x l.
Proof.
  rewrite <- mem_true. destruct (Str.mem x l); split; congruence.
Qed.

Lemma get_file_type_eq extension :
  _get_file_type extension =
    if Str.mem extension [lit "pdf"] then lit "pdf"
    else if Str.mem extension [lit "xlsx"; lit "xls"; lit "xlsm"] then lit "excel"
    else lit "unknown".
Proof. reflexivity. Qed.

(** [_get_file_type] answers "pdf" exactly for the extension [pdf],
    "excel" exactly for [xlsx], [xls] and [xlsm], and "unknown" exactly for
    every other string (the empty extension and upper-case spellings
    included: it does not lower-case). *)
Lemma get_file_type_classes extension :
  (_get_file_type extension = lit "pdf" <-> extension = lit "pdf")
  /\ (_get_file_type extension = lit "excel"
      <-> In extension [lit "xlsx"; lit "xls"; lit "xlsm"])
  /\ (_get_file_type extension = lit "unknown"
      <-> ~ In extension [lit "pdf"; lit "xlsx"; lit "xls"; lit "xlsm"]).
Proof.
  rewrite get_file_type_eq.
  destruct (Str.mem extension [lit "pdf"]) eqn:Ep.
  - apply mem_true in Ep. simpl in Ep. destruct Ep as [<- | []].
    split; [tauto | split]; split; try discriminate; simpl.
    + intros [H | [H | [H | []]]]; discriminate H.
    + intros H. exfalso. apply H. left. reflexivity.
  - apply mem_false in Ep. simpl in Ep.
    destruct (Str.mem extension [lit "xlsx"; lit "xls"; lit "xlsm"]) eqn:Ex.
    + apply mem_true in Ex.
      split; [| split]; split; try discriminate; try tauto.
      * intros ->. tauto.
      * intros H. exfalso. apply H. right. exact Ex.
    + apply mem_false in Ex.
      split; [| split]; split; try discriminate; try tauto.
      * intros ->. tauto.
      * intros _ [H | H]; [apply Ep; left; exact H | apply Ex, H].
Qed.

Example get_file_type_edge_cases :
  _get_file_type [] = lit "unknown"
  /\ _get_file_type (lit "PDF") = lit "unknown"
  /\ _get_file_type (lit ".pdf") = lit "unknown".
Proof. repeat split. Qed.

(** What the two paths can answer. *)
Lemma process_excel_answers lib file_path self :
  (exists sheets total found data text,
     fst (_process_excel lib file_path self)
     = Return (ExcelResult sheets total found data text))
  \/ (exists e,
        fst (_process_excel lib file_path self)
        = Return (Failure (lit "Excel processing failed: " ++ e))).
Proof.
  unfold _process_excel, try_except, bind, call, ret, modify, get.
  destruct (ExcelFile lib file_path) as [names | e];
    [| right; exists e; reflexivity].
  destruct (excel_sheets lib file_path names [] self) as [[sd | e] s1];
    [left; do 5 eexists; reflexivity | right; exists e; reflexivity].
Qed.

Lemma process_pdf_answers lib file_path self :
  (exists pages n preview full text,
     fst (_process_pdf lib file_path self)
     = Return (PdfResult pages n preview full text))
  \/ (exists e,
        fst (_process_pdf lib file_path self)
        = Return (Failure (lit "PDF processing failed: " ++ e)))
  \/ fst (_process_pdf lib file_path self)
     = Return (Failure (lit "PDF processing library not available. Install pypdf.")).
Proof.
  unfold _process_pdf. destruct (negb (PDF_AVAILABLE lib)); [right; right; reflexivity |].
  unfold try_except, bind, call, ret, modify, get.
  destruct (PdfReader lib file_path) as [pages | e];
    [| right; left; exists e; reflexivity].
  destruct (pdf_pages pages [] self) as [[tc | e] s1];
    [left; do 5 eexists; reflexivity | right; left; exists e; reflexivity].
Qed.

(** X10: the file type of a valid upload is one the extractor knows:
    [process_document] then runs the spreadsheet path or the PDF path, and
    never answers "Unsupported file type". *)
Theorem valid_upload_is_processed path_suffix uploaded_file
    file_type extension sz nm lib file_path self :
  validate_file path_suffix uploaded_file = Valid file_type extension sz nm ->
  ((file_type = lit "excel"
    /\ process_document lib file_path file_type self = _process_excel lib file_path self)
   \/ (file_type = lit "pdf"
       /\ process_document lib file_path file_type self = _process_pdf lib file_path self))
  /\ fst (process_document lib file_path file_type self)
     <> Return (Failure (lit "Unsupported file type: " ++ file_type)).
Proof.
  intros Hvalid.
  assert (Htype : file_type = lit "excel" \/ file_type = lit "pdf").
  { unfold validate_file in Hvalid.
    destruct uploaded_file as [f |]; [| discriminate].
    destruct (size f >? MAX_FILE_SIZE)%Z; [discriminate |].
    cbv zeta in Hvalid.
    destruct (Str.mem (file_extension path_suffix f) supported_extensions) eqn:Hm;
      [| discriminate].
    simpl negb in Hvalid. injection Hvalid as <- _ _ _.
    apply mem_true, get_file_type_cases in Hm as [[_ ->] | [_ ->]]; auto. }
  assert (Hpaths :
    (file_type = lit "excel"
     /\ process_document lib file_path file_type self = _process_excel lib file_path self)
    \/ (file_type = lit "pdf"
        /\ process_document lib file_path file_type self = _process_pdf lib file_path self)).
  { destruct Htype as [-> | ->]; [left | right]; split; try reflexivity.
    - apply process_document_excel.
    - apply process_document_pdf. }
  split; [exact Hpaths |].
  destruct Hpaths as [[-> Hrun] | [-> Hrun]]; rewrite Hrun.
  - destruct (process_excel_answers lib file_path self)
      as [(a & b & c & d & e & ->) | (e & ->)]; [discriminate |].
    simpl. intros [= H].
  - destruct (process_pdf_answers lib file_path self)
      as [(a & b & c & d & e & ->) | [(e & ->) | ->]]; [discriminate | |];
      simpl; intros [= H].
Qed.

Lemma valid_upload_is_processed_witness :
  ((lit "excel" = lit "excel"
    /\ process_document sample_library (lit "/tmp/q3.book.xlsm") (lit "excel") init
       = _process_excel sample_library (lit "/tmp/q3.book.xlsm") init)
   \/ (lit "excel" = lit "pdf"
       /\ process_document sample_library (lit "/tmp/q3.book.xlsm") (lit "excel") init
          = _process_pdf sample_library (lit "/tmp/q3.book.xlsm") init))
  /\ fst (process_document sample_library (lit "/tmp/q3.book.xlsm") (lit "excel") init)
     <> Return (Failure (lit "Unsupported file type: " ++ lit "excel")).
Proof.
  apply (valid_upload_is_processed posix_suffix
           (Some {| name := lit "q3.book.xlsm"; size := 10 |})
           (lit "excel") (lit "xlsm") 10 (lit "q3.book.xlsm")).
  reflexivity.
Defined.

End UploadFacts.

(* ===================================================================== *)
(** * More on the fallback strategy *)
(* ===================================================================== *)
Module FallbackFacts.
Import simple_qa StrFacts ReFacts Spec Behaviour MatcherFacts.

Lemma first_found_sound patterns s g :
  first_found patterns s = Some g ->
  exists pattern, In pattern patterns /\ Re.search pattern s = Some g.
Proof.
  induction patterns as [|p patterns IH]; simpl; [discriminate |].
  destruct (Re.search p s) as [g'|] eqn:E.
  - intros [= ->]. eauto.
  - intros H. destruct (IH H) as (q & Hq & Hs). eauto.
Qed.

(** What a labelled pattern of the fallback finds stands in the document
    after its label. *)
Lemma labelled_digits_commas_found word s g :
  Re.search (Re.labelled word Re.digits_commas) s = Some g ->
  exists pre seps (with_dollar : bool) post,
    s = pre ++ lit word ++ seps ++ (if with_dollar then lit "$" else []) ++ g ++ post
    /\ seps <> []
    /\ forallb is_colon_or_space seps = true
    /\ digits_commas_shaped g = true.
Proof.
  intros H. apply search_sound in H as (pre & w1 & post & -> & Hb & Hg).
  apply lang_before_labelled in Hb as (seps & d & -> & Hne & Hseps).
  apply lang_digits_commas in Hg.
  exists pre, seps, d, post. rewrite <- !app_assoc. auto.
Qed.

(** X11: a question that contains "net income" is answered by the revenue
    handler, because "income" is a revenue word and the revenue words are
    looked at first; so among the profit words only "profit" ever decides
    whether the profit handler answers. *)
Theorem net_income_is_a_revenue_question question document_text :
  (Str.contains (lit "net income") (Str.lower question) = true ->
     answer_question (init document_text) question
     = _find_revenue_info (init document_text))
  /\ (Str.any_in (map lit ["revenue"; "sales"; "income"]%string) (Str.lower question) = false ->
        Str.any_in (map lit ["profit"; "net income"]%string) (Str.lower question)
        = Str.contains (lit "profit") (Str.lower question)).
Proof.
  split.
  - intros Hq. unfold answer_question.
    assert (Hincome : Str.contains (lit "income") (Str.lower question) = true)
      by (apply (contains_trans _ (lit "net income")); [reflexivity | exact Hq]).
    unfold Str.any_in at 1. cbn [map existsb]. rewrite Hincome, !orb_true_r.
    reflexivity.
  - unfold Str.any_in. cbn [map existsb]. rewrite !orb_false_r.
    intros Hrev. apply orb_false_elim in Hrev as [_ Hrev].
    apply orb_false_elim in Hrev as [_ Hincome].
    destruct (Str.contains (lit "net income") (Str.lower question)) eqn:Hn.
    + rewrite (contains_trans (lit "income") (lit "net income") _ eq_refl Hn) in Hincome.
      discriminate.
    + apply orb_false_r.
Qed.

Lemma net_income_is_a_revenue_question_witness :
  answer_question (init (lit "Net income: $5,200")) (lit "What is the net income?")
  = _find_revenue_info (init (lit "Net income: $5,200"))
  /\ answer_question (init (lit "Net income: $5,200")) (lit "What is the net income?")
     = lit "❓ No specific revenue information found.".
Proof.
  split.
  - apply (net_income_is_a_revenue_question (lit "What is the net income?")
             (lit "Net income: $5,200")).
    reflexivity.
  - reflexivity.
Defined.

Lemma nothing_in_empty_text (words : list str) :
  List.filter (fun w => Str.contains w [])
    (List.filter (fun w => (3 <? length w)%nat) words) = [].
Proof.
  induction words as [|w words IH]; simpl; [reflexivity |].
  destruct (Nat.ltb_spec 3 (length w)) as [Hlong | _]; [| exact IH].
  simpl. destruct w as [|c w]; [simpl in Hlong; lia |]. simpl. exact IH.
Qed.

(** X12: asked about a document without text, the fallback answers every
    question with one of its five "nothing found" sentences. *)
Theorem empty_document_nothing_found question :
  In (answer_question (init []) question)
     [ lit "❓ No specific revenue information found.";
       lit "❓ No specific profit information found.";
       lit "❓ No expense information found.";
       lit "❓ No assets information found.";
       lit "❓ No specific information found for your question." ].
Proof.
  unfold answer_question.
  destruct (Str.any_in _ _); [left; reflexivity |].
  destruct (Str.any_in _ _); [right; left; reflexivity |].
  destruct (Str.any_in _ _); [right; right; left; reflexivity |].
  destruct (Str.any_in _ _); [right; right; right; left; reflexivity |].
  right; right; right; right; left.
  unfold _general_search. cbn [init document_text Str.lower map].
  rewrite nothing_in_empty_text. reflexivity.
Qed.

Lemma lower_char_idem c : Str.lower_char (Str.lower_char c) = Str.lower_char c.
Proof. destruct c as [[] [] [] [] [] [] [] []]; reflexivity. Qed.

Lemma lower_idem s : Str.lower (Str.lower s) = Str.lower s.
Proof.
  unfold Str.lower. rewrite map_map. apply map_ext. intros c. apply lower_char_idem.
Qed.

(** X13: the fallback is case-insensitive: the answer is the one for the
    lower-cased question and the lower-cased document, so two questions, and
    two documents, that differ only in the case of their letters get the
    same answer. *)
Theorem fallback_ignores_case question document_text :
  answer_question (init (Str.lower document_text)) (Str.lower question)
  = answer_question (init document_text) question
  /\ (forall question' document_text',
        Str.lower question' = Str.lower question ->
        Str.lower document_text' = Str.lower document_text ->
        answer_question (init document_text') question'
        = answer_question (init document_text) question).
Proof.
  split.
  - unfold answer_question, init. rewrite !lower_idem. reflexivity.
  - intros q' d' Hq Hd. unfold answer_question, init. rewrite Hq, Hd. reflexivity.
Qed.

Example fallback_ignores_case_example :
  answer_question (init (lit "TOTAL SALES: $52,000")) (lit "what were the Sales?")
  = answer_question (init (lit "total sales: $52,000")) (lit "WHAT WERE THE SALES?").
Proof. reflexivity. Qed.

(** X14: a figure in an answer of the revenue or the profit handler was read
    from the document: the answer is one of the handler's sentences without
    a figure, or its template followed by a non-empty run of digits and
    commas that stands in the document right after one of the handler's
    labels, one or more colons or whitespace characters and at most one
    dollar sign. *)
Theorem fallback_figure_stands_in_document self :
  (_find_profit_info self = lit "❓ No specific profit information found."
   \/ exists word pre seps (with_dollar : bool) g post,
        In word ["profit"; "net income"]%string
        /\ _find_profit_info self = lit "💵 Found profit: $" ++ g
        /\ document_text self
           = pre ++ lit word ++ seps ++ (if with_dollar then lit "$" else []) ++ g ++ post
        /\ seps <> [] /\ forallb is_colon_or_space seps = true
        /\ digits_commas_shaped g = true)
  /\ (_find_revenue_info self = lit "❓ No specific revenue information found."
      \/ _find_revenue_info self
         = lit "📊 Revenue information found in the document. Please check the income statement."
      \/ exists word pre seps (with_dollar : bool) g post,
           In word ["revenue"; "sales"]%string
           /\ _find_revenue_info self = lit "💰 Found revenue: $" ++ g
           /\ document_text self
              = pre ++ lit word ++ seps ++ (if with_dollar then lit "$" else []) ++ g ++ post
           /\ seps <> [] /\ forallb is_colon_or_space seps = true
           /\ digits_commas_shaped g = true).
Proof.
  split.
  - unfold _find_profit_info. cbv zeta.
    destruct (first_found _ _) as [g|] eqn:E; [right | left; reflexivity].
    apply first_found_sound in E as (p & Hp & Hs).
    assert (Hw : exists word, In word ["profit"; "net income"]%string
                              /\ p = Re.labelled word Re.digits_commas).
    { simpl in Hp. destruct Hp as [<- | [<- | []]]; eexists; (split; [| reflexivity]);
        simpl; tauto. }
    destruct Hw as (word & Hw & ->).
    apply labelled_digits_commas_found in Hs as (pre & seps & d & post & H).
    exists word, pre, seps, d, g, post. tauto.
  - unfold _find_revenue_info. cbv zeta.
    destruct (first_found _ _) as [g|] eqn:E.
    + right; right.
      apply first_found_sound in E as (p & Hp & Hs).
      assert (Hw : exists word, In word ["revenue"; "sales"]%string
                                /\ p = Re.labelled word Re.digits_commas).
      { simpl in Hp. destruct Hp as [<- | [<- | []]]; eexists; (split; [| reflexivity]);
          simpl; tauto. }
      destruct Hw as (word & Hw & ->).
      apply labelled_digits_commas_found in Hs as (pre & seps & d & post & H).
      exists word, pre, seps, d, g, post. tauto.
    + destruct (Str.contains _ _); [right; left | left]; reflexivity.
Qed.

End FallbackFacts.

(* ===================================================================== *)
(** * More on the model-backed strategy *)
(* ===================================================================== *)
Module ModelFacts.
Import ai_qa StrFacts Spec Samples Behaviour.

(** ** Whitespace *)

Lemma lstrip_starts_free s : starts_free s -> Str.lstrip s = s.
Proof. destruct s as [|c s]; simpl; [reflexivity |]. unfold free. intros ->. reflexivity. Qed.

Lemma split_from_tokens s :
  forall cur, List.Forall free cur -> List.Forall token (Str.split_from cur s).
Proof.
  induction s as [|c s IH]; intros cur Hcur; simpl.
  - destruct cur as [|a cur]; [constructor |].
    repeat constructor.
    + intros H. apply (f_equal (@length _)) in H. rewrite length_rev in H. discriminate.
    + apply Forall_rev. exact Hcur.
  - destruct (Str.isspace c) eqn:Hc.
    + destruct cur as [|a cur]; [apply IH; constructor |].
      constructor; [| apply IH; constructor].
      split.
      * intros H. apply (f_equal (@length _)) in H. rewrite length_rev in H. discriminate.
      * apply Forall_rev. exact Hcur.
    + apply IH. constructor; assumption.
Qed.

Lemma split_tokens s : List.Forall token (Str.split s).
Proof. apply split_from_tokens. constructor. Qed.

Lemma split_from_free t s :
  List.Forall free t ->
  forall cur, Str.split_from cur (t ++ s) = Str.split_from (rev t ++ cur) s.
Proof.
  induction 1 as [|c t Hc _ IH]; intros cur; [reflexivity |].
  simpl. rewrite Hc, IH, <- app_assoc. reflexivity.
Qed.

(** Splitting a text of tokens joined by single spaces gives the tokens
    back. *)
Lemma split_join tokens :
  List.Forall token tokens -> Str.split (Str.join (lit " ") tokens) = tokens.
Proof.
  unfold Str.split.
  induction 1 as [|t tokens [Hne Hfree] Hrest IH]; [reflexivity |].
  destruct tokens as [|t' tokens].
  - simpl. rewrite <- (app_nil_r t) at 1.
    rewrite split_from_free by exact Hfree. rewrite app_nil_r. simpl.
    destruct (rev t) eqn:E.
    + apply (f_equal (@length _)) in E. rewrite length_rev in E.
      destruct t; [congruence | discriminate].
    + rewrite <- E, rev_involutive. reflexivity.
  - change (Str.join (lit " ") (t :: t' :: tokens))
      with (t ++ " "%char :: Str.join (lit " ") (t' :: tokens)).
    rewrite split_from_free by exact Hfree. rewrite app_nil_r. simpl.
    destruct (rev t) eqn:E.
    + apply (f_equal (@length _)) in E. rewrite length_rev in E.
      destruct t; [congruence | discriminate].
    + rewrite <- E, rev_involutive. f_equal. exact IH.
Qed.

Lemma join_starts_free tokens :
  List.Forall token tokens -> starts_free (Str.join (lit " ") tokens).
Proof.
  intros H. destruct H as [|t tokens [Hne Hfree] _]; [exact I |].
  destruct t as [|c t]; [congruence |].
  inversion Hfree; subst.
  destruct tokens; simpl; assumption.
Qed.

Lemma join_nonempty tokens :
  List.Forall token tokens -> tokens <> [] -> Str.join (lit " ") tokens <> [].
Proof.
  intros H Hne. destruct H as [|t tokens [Ht _] _]; [congruence |].
  destruct t as [|c t]; [congruence |]. destruct tokens; discriminate.
Qed.

Lemma rev_starts_free_app a b :
  a <> [] -> starts_free (rev a) -> starts_free (rev (b ++ a)).
Proof.
  intros Hne Ha. rewrite rev_app_distr.
  destruct (rev a) eqn:E; [| exact Ha].
  apply (f_equal (@length _)) in E. rewrite length_rev in E.
  destruct a; [congruence | discriminate].
Qed.

Lemma token_ends_free t : token t -> starts_free (rev t).
Proof.
  intros [Hne Hfree]. apply Forall_rev in Hfree.
  destruct (rev t); [exact I |]. inversion Hfree. assumption.
Qed.

Lemma join_ends_free tokens :
  List.Forall token tokens -> starts_free (rev (Str.join (lit " ") tokens)).
Proof.
  induction 1 as [|t tokens Ht Hrest IH]; [exact I |].
  destruct tokens as [|t' tokens].
  - simpl. apply token_ends_free, Ht.
  - change (Str.join (lit " ") (t :: t' :: tokens))
      with (t ++ lit " " ++ Str.join (lit " ") (t' :: tokens)).
    rewrite app_assoc.
    apply rev_starts_free_app; [| exact IH].
    apply join_nonempty; [exact Hrest | discriminate].
Qed.

(** Nothing is left to strip from tokens joined by single spaces. *)
Lemma strip_join tokens :
  List.Forall token tokens ->
  Str.strip (Str.join (lit " ") tokens) = Str.join (lit " ") tokens.
Proof.
  intros H. unfold Str.strip.
  rewrite (lstrip_starts_free _ (join_starts_free tokens H)).
  rewrite (lstrip_starts_free _ (join_ends_free tokens H)).
  apply rev_involutive.
Qed.

(** ** The part of the context that the prompt holds *)

Lemma firstn_behind (pre s rest : str) m n :
  n = length pre + m -> m <= length s ->
  firstn n (pre ++ s ++ rest) = pre ++ firstn m s.
Proof.
  intros -> Hm. rewrite firstn_app, firstn_all2 by lia.
  replace (length pre + m - length pre) with m by lia.
  rewrite firstn_app. replace (m - length s) with 0 by lia.
  rewrite firstn_O, app_nil_r. reflexivity.
Qed.

Lemma slice_context_long self :
  1971 <= length (document_processor.document_text self) ->
  Str.slice_to 2000 (document_processor.get_context_for_ai self)
  = lit "Financial Document Content:" ++ nl ++ nl
    ++ Str.slice_to 1971 (document_processor.document_text self).
Proof.
  intros Hlong. rewrite ExtractorFacts.get_context_for_ai_eq. unfold Str.slice_to.
  rewrite !(app_assoc (lit "Financial Document Content:")), !(app_assoc _ nl).
  apply firstn_behind.
  - vm_compute. reflexivity.
  - exact Hlong.
Qed.

Lemma slice_cut_context (t : str) :
  length t <= 1971 ->
  Str.slice_to 2000 (lit "Financial Document Content:" ++ nl ++ nl ++ t)
  = lit "Financial Document Content:" ++ nl ++ nl ++ t.
Proof.
  intros Ht. unfold Str.slice_to. apply firstn_all2.
  rewrite !length_app.
  change (length (lit "Financial Document Content:")) with 27.
  change (length nl) with 1.
  lia.
Qed.

(** X15: of a document text of 1,971 characters or more, the prompt holds
    the preamble of the context and the first 1,971 characters of the text,
    and nothing else of the context: the rest of the text and the lines of
    the extracted metrics do not reach the model, and two processors whose
    texts begin with the same 1,971 characters give the same prompt. *)
Theorem long_document_prompt_is_cut self question :
  1971 <= length (document_processor.document_text self) ->
  _create_financial_prompt question (document_processor.get_context_for_ai self)
  = _create_financial_prompt question
      (lit "Financial Document Content:" ++ nl ++ nl
       ++ Str.slice_to 1971 (document_processor.document_text self))
  /\ forall other,
       Str.slice_to 1971 (document_processor.document_text other)
       = Str.slice_to 1971 (document_processor.document_text self) ->
       _create_financial_prompt question (document_processor.get_context_for_ai other)
       = _create_financial_prompt question (document_processor.get_context_for_ai self).
Proof.
  intros Hlong.
  assert (Hself := slice_context_long self Hlong).
  split.
  - unfold _create_financial_prompt.
    rewrite Hself.
    rewrite (slice_cut_context (Str.slice_to 1971 (document_processor.document_text self)));
      [reflexivity |].
    unfold Str.slice_to. rewrite length_firstn. apply Nat.le_min_l.
  - intros other Hsame.
    assert (Hother : 1971 <= length (document_processor.document_text other)).
    { apply (f_equal (@length _)) in Hsame. unfold Str.slice_to in Hsame.
      rewrite !length_firstn, (Nat.min_l _ _ Hlong) in Hsame.
      rewrite <- Hsame. apply Nat.le_min_r. }
    unfold _create_financial_prompt.
    rewrite Hself, (slice_context_long other Hother), Hsame. reflexivity.
Qed.

Lemma long_document_prompt_is_cut_witness :
  _create_financial_prompt (lit "What is the revenue?")
    (document_processor.get_context_for_ai long_report)
  = _create_financial_prompt (lit "What is the revenue?")
      (lit "Financial Document Content:" ++ nl ++ nl
       ++ Str.slice_to 1971 (document_processor.document_text long_report))
  /\ forall other,
       Str.slice_to 1971 (document_processor.document_text other)
       = Str.slice_to 1971 (document_processor.document_text long_report) ->
       _create_financial_prompt (lit "What is the revenue?")
         (document_processor.get_context_for_ai other)
       = _create_financial_prompt (lit "What is the revenue?")
           (document_processor.get_context_for_ai long_report).
Proof.
  apply (long_document_prompt_is_cut long_report (lit "What is the revenue?")).
  apply Nat.leb_le. vm_compute. reflexivity.
Defined.

Lemma clean_response_normal response :
  Str.join (lit " ") (Str.split (_clean_response response)) = _clean_response response
  /\ Str.strip (_clean_response response) = _clean_response response.
Proof.
  unfold _clean_response. cbv zeta.
  match goal with
  | |- context [Str.strip (Str.join (lit " ") (Str.split ?y))] => set (words := Str.split y)
  end.
  assert (Hwords : List.Forall token words) by apply split_tokens.
  rewrite (strip_join words Hwords), (split_join words Hwords).
  split; [reflexivity | apply strip_join, Hwords].
Qed.

(** X16: a cleaned response is normalised in its whitespace: it is a
    sequence of tokens (non-empty, without whitespace) joined by single
    spaces, so stripping it, or splitting it on whitespace and joining the
    words by single spaces, changes nothing. *)
Theorem clean_response_whitespace response :
  let cleaned := _clean_response response in
  List.Forall token (Str.split cleaned)
  /\ Str.join (lit " ") (Str.split cleaned) = cleaned
  /\ Str.strip cleaned = cleaned.
Proof.
  unfold _clean_response. cbv zeta.
  match goal with
  | |- context [Str.strip (Str.join (lit " ") (Str.split ?y))] => set (words := Str.split y)
  end.
  assert (Hwords : List.Forall token words) by apply split_tokens.
  rewrite (strip_join words Hwords), (split_join words Hwords).
  split; [exact Hwords | split; [reflexivity | apply strip_join, Hwords]].
Qed.

Example clean_response_example :
  _clean_response (lit "  Revenue   is 52,000basedon 1000tyres soldat 52 each  ")
  = lit "Revenue is $52,000 based on 1000 tyres sold at $52 each".
Proof. vm_compute. reflexivity. Qed.

(** ** Template artifacts *)

(** X17: after [_ensure_clean_response] no template artifact is left: the
    response holds none of "XX", "Instructions:", "Direct answer sentence:"
    and "AI Response:", whatever the response, the question and the context
    were. *)
Theorem ensure_clean_response_has_no_artifact response question document_context :
  Str.any_in artifacts (_ensure_clean_response response question document_context) = false.
Proof.
  unfold _ensure_clean_response. fold artifacts.
  destruct (Str.any_in artifacts response) eqn:E; [| exact E].
  destruct (_ && _); [reflexivity |]. destruct (_ && _); reflexivity.
Qed.

(** ** Every call is recorded *)

Section WithModel.

Variable ollama_chat : str -> str -> outcome str.

(** The object after a call remembers the question and the answer given. *)
Lemma answer_question_after self question document_context :
  let ran := answer_question ollama_chat self question document_context in
  after ran = remember self question (returned ran)
  /\ (sent ran = [] \/ sent ran = [_create_financial_prompt question document_context]).
Proof.
  unfold answer_question. cbv zeta.
  destruct (negb _); [split; [reflexivity | left; reflexivity] |].
  destruct (ollama_chat _ _); split; try reflexivity; right; reflexivity.
Qed.

(** X18: every call of [answer_question] adds exactly one entry to the
    conversation history, the question with the answer it returns (an
    override, a model answer or an error message alike); it keeps the model
    name and sends at most one prompt to the model, and none exactly when
    the override answers. *)
Theorem every_answer_is_recorded self question document_context :
  let ran := answer_question ollama_chat self question document_context in
  conversation_history (after ran)
  = conversation_history self ++ [(question, returned ran)]
  /\ model_name (after ran) = model_name self
  /\ length (sent ran) <= 1
  /\ (sent ran = []
      <-> Str.eqt (_emergency_override question document_context) CONTINUE_WITH_AI = false).
Proof.
  cbv zeta.
  destruct (answer_question_after self question document_context) as [Hafter Hsent].
  cbv zeta in Hafter, Hsent. rewrite Hafter.
  split; [reflexivity | split; [reflexivity | split]].
  - destruct Hsent as [-> | ->]; simpl; lia.
  - unfold answer_question.
    destruct (Str.eqt (_emergency_override question document_context) CONTINUE_WITH_AI);
      simpl.
    + destruct (ollama_chat _ _); simpl; split; discriminate.
    + split; reflexivity.
Qed.

(** X20: when no override applies and the model replies, the answer is the
    reply stripped, cleaned and freed of template artifacts, possibly behind
    one of the two warnings of the validation: what follows the warning
    holds no artifact and is normalised in its whitespace. *)
Theorem model_reply_is_cleaned self question document_context content :
  _emergency_override question document_context = CONTINUE_WITH_AI ->
  ollama_chat (model_name self) (_create_financial_prompt question document_context)
  = Return content ->
  let ran := answer_question ollama_chat self question document_context in
  exists warning body,
    returned ran = warning ++ body
    /\ In warning
         [ [];
           lit "⚠️ VALIDATION WARNING: This response may be inaccurate. Please verify against the source document."
           ++ nl ++ nl ++ lit "Original response: ";
           lit "⚠️ Expected sales figure of $52,000 based on document content."
           ++ nl ++ nl ++ lit "AI Response: " ]
    /\ body = _ensure_clean_response (_clean_response (Str.strip content))
                question document_context
    /\ Str.any_in artifacts body = false
    /\ Str.join (lit " ") (Str.split body) = body
    /\ Str.strip body = body.
Proof.
  intros Hov Hreply. unfold answer_question. rewrite Hov, Hreply.
  change (negb (Str.eqt CONTINUE_WITH_AI CONTINUE_WITH_AI)) with false.
  cbv iota zeta. cbn [returned].
  set (body := _ensure_clean_response (_clean_response (Str.strip content))
                 question document_context).
  assert (Hbody : Str.any_in artifacts body = false
                  /\ Str.join (lit " ") (Str.split body) = body
                  /\ Str.strip body = body).
  { subst body. unfold _ensure_clean_response. fold artifacts.
    destruct (Str.any_in artifacts (_clean_response (Str.strip content))) eqn:E.
    - destruct (_ && _); [split; [reflexivity | split; reflexivity] |].
      destruct (_ && _); split; [reflexivity | split; reflexivity | reflexivity
                                | split; reflexivity].
    - split; [exact E | apply (clean_response_normal (Str.strip content))]. }
  unfold _validate_response. cbv zeta.
  destruct (Str.any_in suspicious_patterns _).
  - eexists _, body. split; [| split; [right; left; reflexivity | tauto]].
    rewrite <- !app_assoc. reflexivity.
  - destruct (_ && _).
    + eexists _, body. split; [| split; [right; right; left; reflexivity | tauto]].
      rewrite <- !app_assoc. reflexivity.
    + exists [], body. split; [reflexivity | split; [left; reflexivity | tauto]].
Qed.

End WithModel.

Lemma model_reply_is_cleaned_witness :
  let ran := answer_question model_parrot (init default_model)
               (lit "What about revenue?") (lit "Acme Ltd") in
  exists warning body,
    returned ran = warning ++ body
    /\ In warning
         [ [];
           lit "⚠️ VALIDATION WARNING: This response may be inaccurate. Please verify against the source document."
           ++ nl ++ nl ++ lit "Original response: ";
           lit "⚠️ Expected sales figure of $52,000 based on document content."
           ++ nl ++ nl ++ lit "AI Response: " ]
    /\ body = _ensure_clean_response
                (_clean_response (Str.strip (lit " Revenue was approximately 1 million. ")))
                (lit "What about revenue?") (lit "Acme Ltd")
    /\ Str.any_in artifacts body = false
    /\ Str.join (lit " ") (Str.split body) = body
    /\ Str.strip body = body.
Proof.
  apply (model_reply_is_cleaned model_parrot (init default_model)
           (lit "What about revenue?") (lit "Acme Ltd")
           (lit " Revenue was approximately 1 million. "));
    reflexivity.
Defined.

End ModelFacts.

(* ===================================================================== *)
(** * More on the session *)
(* ===================================================================== *)
Module SessionFacts.
Import app StrFacts Spec Samples Behaviour.

(** The session is as it was. *)
Ltac kept := split; [reflexivity | split; [reflexivity | left; reflexivity]].

(** ** The upload page *)

(** X21: the upload page is all or nothing and merges nothing.  It never
    touches the chat log or the model object.  Either it leaves the session
    as it was (no file, an invalid file, the button not pressed, a failed
    processing), or the file was valid and processed with success by a new
    processor: the session then holds that result and that processor, and
    nothing of the old ones. *)
Theorem upload_replaces_or_keeps path_suffix lib uploaded_file temp_path process st :
  let st' := handle_document_upload path_suffix lib uploaded_file temp_path process st in
  chat_history st' = chat_history st
  /\ ai_qa st' = ai_qa st
  /\ (st' = st
      \/ exists file_type extension size name result processor,
           process = true
           /\ file_handler.validate_file path_suffix uploaded_file
              = file_handler.Valid file_type extension size name
           /\ document_processor.process_document lib temp_path file_type
                document_processor.init
              = (Return result, processor)
           /\ document_processor.success result = true
           /\ processed_data st' = Some result
           /\ document_processor st' = processor).
Proof.
  cbv zeta. unfold handle_document_upload.
  destruct uploaded_file as [f |]; [| kept].
  destruct (file_handler.validate_file path_suffix (Some f))
    as [err | file_type extension size name] eqn:Hv; [kept |].
  destruct process; [| kept].
  destruct (document_processor.process_document lib temp_path file_type
              document_processor.init) as [[result | e] processor] eqn:Hrun; [| kept].
  destruct (document_processor.success result) eqn:Hs; [| kept].
  cbn [chat_history ai_qa processed_data document_processor].
  split; [reflexivity | split; [reflexivity | right]].
  exists file_type, extension, size, name, result, processor.
  repeat (split; [try reflexivity; assumption |]). reflexivity.
Qed.

(** ** The chat page *)

Section WithModel.

Variable ollama_chat : str -> str -> outcome str.

Lemma ask_question_frame available user_question st :
  let st' := ask_question ollama_chat available user_question st in
  processed_data st' = processed_data st
  /\ document_processor st' = document_processor st
  /\ ai_qa.model_name (ai_qa st') = ai_qa.model_name (ai_qa st).
Proof.
  cbv zeta. unfold ask_question. destruct available; cbn; [| auto].
  destruct (ModelFacts.answer_question_after ollama_chat (ai_qa st) user_question
              (document_processor.get_context_for_ai (document_processor st)))
    as [-> _].
  auto.
Qed.

Lemma chat_frame user_question click st :
  processed_data (handle_ai_qa_chat ollama_chat user_question click st)
  = processed_data st
  /\ document_processor (handle_ai_qa_chat ollama_chat user_question click st)
     = document_processor st.
Proof.
  unfold handle_ai_qa_chat.
  destruct (processed_data st) as [result |] eqn:Hdata; [| rewrite Hdata; auto].
  cbv zeta. destruct click.
  - destruct (chat_history st); rewrite Hdata; auto.
  - destruct user_question as [|c q].
    + destruct (chat_history st); rewrite Hdata; auto.
    + destruct (ask_question_frame
                  (ai_qa.returned (ai_qa.is_model_available ollama_chat (ai_qa st)))
                  (c :: q) st) as (H1 & H2 & _).
      cbv zeta in H1, H2.
      destruct (chat_history (ask_question _ _ _ _)); rewrite H1, H2, Hdata; auto.
  - destruct (chat_history st) as [|t ts]; cbn; rewrite Hdata; auto.
Qed.

(** X22: the chat page never changes what was extracted: whatever button
    is pressed, the processed data, the processor and the model name stay.
    Without a processed document, without a button pressed, or with the
    question box empty when "Ask Question" is pressed, the page changes
    nothing at all. *)
Theorem chat_page_keeps_extraction user_question click st :
  let st' := handle_ai_qa_chat ollama_chat user_question click st in
  processed_data st' = processed_data st
  /\ document_processor st' = document_processor st
  /\ ai_qa.model_name (ai_qa st') = ai_qa.model_name (ai_qa st)
  /\ (processed_data st = None -> st' = st)
  /\ (click = NoClick -> st' = st)
  /\ (click = AskQuestion -> user_question = [] -> st' = st).
Proof.
  cbv zeta. unfold handle_ai_qa_chat.
  destruct (processed_data st) as [result |] eqn:Hdata;
    [| rewrite Hdata; repeat split; auto].
  destruct click.
  - destruct (chat_history st); rewrite Hdata; repeat split; auto; discriminate.
  - destruct user_question as [|c q].
    + destruct (chat_history st); rewrite Hdata; repeat split; auto; discriminate.
    + set (available := ai_qa.returned (ai_qa.is_model_available ollama_chat (ai_qa st))).
      destruct (ask_question_frame available (c :: q) st) as (H1 & H2 & H3).
      cbv zeta in H1, H2, H3.
      destruct (chat_history (ask_question ollama_chat available (c :: q) st));
        rewrite H1, H2, H3, Hdata; repeat split; auto; discriminate.
  - destruct (chat_history st) as [|t ts]; cbn; rewrite Hdata; repeat split; auto;
      discriminate.
Qed.

(** X23: pressing "Ask Question" with a question, on a processed document,
    adds exactly one turn to the chat log: the question, its answer, and
    whether the model was available.  With the model unavailable the answer
    is the fallback's on the document text and the model object is left
    alone; with the model available the answer is the model object's, which
    records the same question and answer in its own history. *)
Theorem ask_adds_one_turn user_question st :
  processed_data st <> None ->
  user_question <> [] ->
  let available := ai_qa.returned (ai_qa.is_model_available ollama_chat (ai_qa st)) in
  let st' := handle_ai_qa_chat ollama_chat user_question AskQuestion st in
  exists a,
    chat_history st'
    = chat_history st
      ++ [ {| question := user_question; answer := a; ai_powered := available |} ]
    /\ (available = false ->
          a = simple_qa.answer_question
                (simple_qa.init
                   (document_processor.document_text (document_processor st)))
                user_question
          /\ ai_qa st' = ai_qa st)
    /\ (available = true ->
          a = ai_qa.returned
                (ai_qa.answer_question ollama_chat (ai_qa st) user_question
                   (document_processor.get_context_for_ai (document_processor st)))
          /\ ai_qa.conversation_history (ai_qa st')
             = ai_qa.conversation_history (ai_qa st) ++ [(user_question, a)]).
Proof.
  intros Hdata Hq. cbv zeta. unfold handle_ai_qa_chat.
  destruct (processed_data st) as [result |]; [| congruence].
  destruct user_question as [|c q]; [congruence |].
  set (available := ai_qa.returned (ai_qa.is_model_available ollama_chat (ai_qa st))).
  unfold ask_question. destruct available.
  - destruct (ModelFacts.answer_question_after ollama_chat (ai_qa st) (c :: q)
                (document_processor.get_context_for_ai (document_processor st)))
      as [Hafter _].
    cbv zeta in Hafter. cbn [chat_history ai_qa].
    destruct (chat_history st ++ _) eqn:E;
      [apply app_eq_nil in E as [_ E]; discriminate |].
    rewrite <- E. eexists. split; [reflexivity | split; [discriminate |]].
    intros _. split; [reflexivity |]. rewrite Hafter. reflexivity.
  - cbn [chat_history ai_qa].
    destruct (chat_history st ++ _) eqn:E;
      [apply app_eq_nil in E as [_ E]; discriminate |].
    rewrite <- E. eexists. split; [reflexivity | split; [| discriminate]].
    intros _. split; reflexivity.
Qed.

(** X24: with the model available, a question about revenue or sales on a
    document whose text mentions Joe is answered in the chat log by the
    literal of the override, marked as model-backed, though the model was
    not asked the question. *)
Theorem joe_revenue_turn user_question st :
  processed_data st <> None ->
  user_question <> [] ->
  ai_qa.returned (ai_qa.is_model_available ollama_chat (ai_qa st)) = true ->
  Str.contains (lit "revenue") (Str.lower user_question)
  || Str.contains (lit "sales") (Str.lower user_question) = true ->
  Str.contains (lit "joe")
    (Str.lower (document_processor.document_text (document_processor st))) = true ->
  chat_history (handle_ai_qa_chat ollama_chat user_question AskQuestion st)
  = chat_history st
    ++ [ {| question := user_question;
            answer := lit "The total sales revenue is $52,000 based on 1,000 tyres sold at $52 each.";
            ai_powered := true |} ].
Proof.
  intros Hdata Hq Hav Hrev Hjoe. unfold handle_ai_qa_chat.
  destruct (processed_data st) as [result |]; [| congruence].
  destruct user_question as [|c q]; [congruence |].
  cbv zeta. rewrite Hav. unfold ask_question.
  set (context := document_processor.get_context_for_ai (document_processor st)).
  assert (Hctx : Str.contains (lit "joe") (Str.lower context) = true).
  { subst context. rewrite ExtractorFacts.get_context_for_ai_eq.
    apply contains_true in Hjoe as (pre & post & Hjoe).
    rewrite !lower_app, Hjoe. apply contains_true.
    exists (Str.lower (lit "Financial Document Content:") ++ Str.lower nl
            ++ Str.lower nl ++ pre),
           (post ++ Str.lower (metrics_trailer
                                 (document_processor.financial_metrics
                                    (document_processor st)))).
    rewrite <- !app_assoc. reflexivity. }
  rewrite (AIQAFacts.answer_question_override ollama_chat (ai_qa st) (c :: q) context
             REVENUE_ANSWER).
  - cbn [chat_history ai_qa.returned].
    destruct (chat_history st ++ _) eqn:E;
      [apply app_eq_nil in E as [_ E]; discriminate |].
    rewrite <- E. reflexivity.
  - unfold ai_qa._emergency_override. rewrite Hrev, Hctx. reflexivity.
  - reflexivity.
  - apply AIQAFacts.clean_revenue_answer.
Qed.

End WithModel.

Lemma ask_adds_one_turn_witness :
  let available :=
    ai_qa.returned (ai_qa.is_model_available model_down (ai_qa joe_session)) in
  let st' :=
    handle_ai_qa_chat model_down (lit "What were the costs?") AskQuestion joe_session in
  exists a,
    chat_history st'
    = chat_history joe_session
      ++ [ {| question := lit "What were the costs?"; answer := a;
              ai_powered := available |} ]
    /\ (available = false ->
          a = simple_qa.answer_question
                (simple_qa.init
                   (document_processor.document_text (document_processor joe_session)))
                (lit "What were the costs?")
          /\ ai_qa st' = ai_qa joe_session)
    /\ (available = true ->
          a = ai_qa.returned
                (ai_qa.answer_question model_down (ai_qa joe_session)
                   (lit "What were the costs?")
                   (document_processor.get_context_for_ai (document_processor joe_session)))
          /\ ai_qa.conversation_history (ai_qa st')
             = ai_qa.conversation_history (ai_qa joe_session)
               ++ [(lit "What were the costs?", a)]).
Proof.
  apply (ask_adds_one_turn model_down (lit "What were the costs?") joe_session).
  - vm_compute. discriminate.
  - discriminate.
Defined.

Lemma joe_revenue_turn_witness :
  chat_history
    (handle_ai_qa_chat model_parrot (lit "What is the sales revenue?") AskQuestion
       joe_session)
  = chat_history joe_session
    ++ [ {| question := lit "What is the sales revenue?";
            answer := lit "The total sales revenue is $52,000 based on 1,000 tyres sold at $52 each.";
            ai_powered := true |} ].
Proof.
  apply (joe_revenue_turn model_parrot (lit "What is the sales revenue?") joe_session).
  - vm_compute. discriminate.
  - discriminate.
  - vm_compute. reflexivity.
  - vm_compute. reflexivity.
  - vm_compute. reflexivity.
Defined.

(** ** Invariants of the session *)

Lemma upload_frame path_suffix lib uploaded_file temp_path process st :
  chat_history (handle_document_upload path_suffix lib uploaded_file temp_path process st)
  = chat_history st
  /\ ai_qa (handle_document_upload path_suffix lib uploaded_file temp_path process st)
     = ai_qa st.
Proof.
  unfold handle_document_upload.
  destruct uploaded_file as [f |]; [| auto].
  destruct (file_handler.validate_file path_suffix (Some f)); [auto |].
  destruct process; [| auto].
  destruct (document_processor.process_document _ _ _ _) as [[result | e] processor];
    [| auto].
  destruct (document_processor.success result); auto.
Qed.

Lemma chat_keeps_logs_agree ollama_chat user_question click st :
  logs_agree st -> logs_agree (handle_ai_qa_chat ollama_chat user_question click st).
Proof.
  unfold logs_agree, handle_ai_qa_chat. intros Hst.
  destruct (processed_data st) as [result |]; [| exact Hst].
  cbv zeta.
  assert (Hask : forall available q,
            logs_agree (ask_question ollama_chat available q st)).
  { intros available q. unfold logs_agree, ask_question. destruct available.
    - destruct (ModelFacts.answer_question_after ollama_chat (ai_qa st) q
                  (document_processor.get_context_for_ai (document_processor st)))
        as [Hafter _].
      cbv zeta in Hafter. cbn [chat_history ai_qa]. rewrite Hafter.
      rewrite List.filter_app, map_app, Hst. reflexivity.
    - cbn [chat_history ai_qa].
      rewrite List.filter_app, map_app, Hst. simpl. apply app_nil_r. }
  destruct click.
  - case_eq (chat_history st); intros; exact Hst.
  - destruct user_question as [|c q].
    + case_eq (chat_history st); intros; exact Hst.
    + specialize (Hask (ai_qa.returned (ai_qa.is_model_available ollama_chat (ai_qa st)))
                       (c :: q)).
      unfold logs_agree in Hask.
      case_eq (chat_history (ask_question ollama_chat
                 (ai_qa.returned (ai_qa.is_model_available ollama_chat (ai_qa st)))
                 (c :: q) st)); intros; exact Hask.
  - destruct (chat_history st) as [|t ts] eqn:E; [rewrite E; exact Hst | reflexivity].
Qed.

Lemma joe_session_reachable : reachable joe_session.
Proof. unfold joe_session. apply reach_upload, reach_initial. Qed.

(** X25: in every session the app can reach, the conversation history of
    the model object is exactly the model-backed part of the chat log:
    the same questions and answers, in the same order. *)
Theorem reachable_logs_agree st :
  reachable st ->
  map (fun t => (question t, answer t)) (List.filter ai_powered (chat_history st))
  = ai_qa.conversation_history (ai_qa st).
Proof.
  fold (logs_agree st).
  induction 1 as [| ps lib f path process st _ IH | chat q click st _ IH].
  - reflexivity.
  - unfold logs_agree in *.
    destruct (upload_frame ps lib f path process st) as [-> ->]. exact IH.
  - apply chat_keeps_logs_agree, IH.
Qed.

Lemma reachable_logs_agree_witness :
  let st := handle_ai_qa_chat model_parrot (lit "What is the sales revenue?") AskQuestion
              (handle_ai_qa_chat model_down (lit "What were the costs?") AskQuestion
                 joe_session) in
  map (fun t => (question t, answer t)) (List.filter ai_powered (chat_history st))
  = ai_qa.conversation_history (ai_qa st).
Proof.
  apply (reachable_logs_agree
           (handle_ai_qa_chat model_parrot (lit "What is the sales revenue?") AskQuestion
              (handle_ai_qa_chat model_down (lit "What were the costs?") AskQuestion
                 joe_session))).
  apply reach_chat, reach_chat, joe_session_reachable.
Defined.

(** X26: in every session the app can reach, the processed data and the
    processor belong together: without processed data the processor is the
    initial one; otherwise the data is a success result, the processor is
    the one a new processor became in producing it, and its metric keys are
    within the vocabulary. *)
Theorem reachable_extraction_state st :
  reachable st ->
  match processed_data st with
  | None => document_processor st = document_processor.init
  | Some result =>
      document_processor.success result = true
      /\ (exists lib file_path file_type,
            document_processor.process_document lib file_path file_type
              document_processor.init
            = (Return result, document_processor st))
      /\ incl (Dict.keys (document_processor.financial_metrics (document_processor st)))
              vocabulary
  end.
Proof.
  induction 1 as [| ps lib f path process st _ IH | chat q click st _ IH].
  - reflexivity.
  - unfold handle_document_upload.
    destruct f as [f |]; [| exact IH].
    destruct (file_handler.validate_file ps (Some f)) as [err | ft ext sz nm]; [exact IH |].
    destruct process; [| exact IH].
    destruct (document_processor.process_document lib path ft document_processor.init)
      as [[result | e] processor] eqn:Hrun; [| exact IH].
    destruct (document_processor.success result) eqn:Hs; [| exact IH].
    cbn [processed_data document_processor].
    split; [exact Hs | split; [eauto |]].
    replace processor
      with (snd (document_processor.process_document lib path ft document_processor.init))
      by (rewrite Hrun; reflexivity).
    apply (DocumentProcessorFacts.process_document_keys lib vocabulary path ft);
      [| | intros x []]; intros x Hx; simpl in *; tauto.
  - destruct (chat_frame chat q click st) as [-> ->]. exact IH.
Qed.

Lemma reachable_extraction_state_witness :
  match processed_data sample_session with
  | None => document_processor sample_session = document_processor.init
  | Some result =>
      document_processor.success result = true
      /\ (exists lib file_path file_type,
            document_processor.process_document lib file_path file_type
              document_processor.init
            = (Return result, document_processor sample_session))
      /\ incl (Dict.keys (document_processor.financial_metrics
                            (document_processor sample_session)))
              vocabulary
  end.
Proof.
  apply (reachable_extraction_state sample_session).
  unfold sample_session. apply reach_chat, reach_upload, reach_initial.
Defined.

End SessionFacts.
